(** * pogo: feed regeneration ([generate_rss.go])

    A shallow embedding of [watch] and [GenerateRss] and of the Go
    library calls they make, followed by the properties of the feed
    regeneration pipeline.

    Go strings are byte strings: they are modelled as [string] (a list of
    8-bit [ascii]).  The file system is a finite map from paths to file
    contents together with a finite map from directory paths to listings. *)

From Stdlib Require Import ZArith Ascii String List Lia.
From Stdlib Require Import DecimalString DecimalPos DecimalZ.
From Stdlib Require Import Sorted Permutation.
From stdpp Require Import gmap strings list fin_maps.

Local Open Scope string_scope.
Local Open Scope Z_scope.
Local Open Scope list_scope.

(** ** Package [strings] *)

Module strings.

(** [strings.HasPrefix(s, prefix)]. *)
Fixpoint HasPrefix (s prefix : string) : bool :=
  match prefix, s with
  | EmptyString, _ => true
  | String _ _, EmptyString => false
  | String p prefix', String c s' => Ascii.eqb c p && HasPrefix s' prefix'
  end.

(** [strings.Contains(s, substr)]: [substr] occurs somewhere in [s]. *)
Fixpoint Contains (s substr : string) : bool :=
  HasPrefix s substr ||
  match s with
  | EmptyString => false
  | String _ s' => Contains s' substr
  end.

(** The scan behind [Split]: [skip] counts the bytes of a separator
    that was just matched and is still to be stepped over.  The result
    is never empty. *)
Fixpoint genSplit (sep : string) (skip : nat) (s : string) : list string :=
  match s with
  | EmptyString => [EmptyString]
  | String c s' =>
      match skip with
      | S k => genSplit sep k s'
      | O =>
          if HasPrefix s sep
          then EmptyString :: genSplit sep (String.length sep - 1) s'
          else match genSplit sep O s' with
               | h :: t => String c h :: t
               | [] => [String c EmptyString]
               end
      end
  end.

(** [strings.Split(s, sep)]: the substrings between all the (leftmost,
    non-overlapping) occurrences of [sep].  With an empty [sep] Go
    explodes [s] into its characters, one string per byte here. *)
Definition Split (s sep : string) : list string :=
  match sep with
  | EmptyString => map (fun c => String c EmptyString) (list_ascii_of_string s)
  | _ => genSplit sep O s
  end.

(** The scan behind [Replace]: at most [n] occurrences are replaced. *)
Fixpoint replaceN (old new : string) (n skip : nat) (s : string) : string :=
  match s with
  | EmptyString => EmptyString
  | String c s' =>
      match skip with
      | S k => replaceN old new n k s'
      | O =>
          match n with
          | O => s
          | S n' =>
              if HasPrefix s old
              then new +:+ replaceN old new n' (String.length old - 1) s'
              else String c (replaceN old new n O s')
          end
      end
  end.

(** [strings.Replace(s, old, new, n)] for a non-empty [old]: the first
    [n] non-overlapping occurrences of [old] become [new]; a negative
    [n] puts no limit on their number. *)
Definition Replace (s old new : string) (n : Z) : string :=
  if String.eqb old new then s
  else replaceN old new (if n <? 0 then String.length s else Z.to_nat n) O s.

End strings.

(** ** Package [fmt] *)

Module fmt.

(** [fmt.Sprintf("%d", n)]: the decimal digits of [n], with a leading
    [-] when [n] is negative. *)
Definition Sprintf_d (n : Z) : string := NilZero.string_of_int (Z.to_int n).

(** The number a decimal string denotes, if it is one. *)
Definition decimal (s : string) : option Z :=
  option_map Z.of_int (NilZero.int_of_string s).

End fmt.

(** ** Go [error] values and panics *)

(** The errors the program can meet, by the call that returns them. *)
Inductive error : Type :=
  | PathError (op path : string)       (* *os.PathError, from ioutil.ReadFile / ReadDir / WriteFile *)
  | UnmarshalError (msg : string)      (* from json.Unmarshal *)
  | ParseError (layout value : string) (* *time.ParseError *)
  | EncodeError (msg : string)         (* from feed.ToRss / feed.ToJSON *)
  | WatchError (msg : string).         (* delivered on watcher.Errors *)

(** What a goroutine can panic with. *)
Inductive panic_value : Type :=
  | PanicError (err : error)            (* panic(err) *)
  | IndexOutOfRange (i len : nat).      (* runtime error: index out of range *)

(** ** Package [time] *)

Module time.

(** A [time.Time] in UTC, by its calendar fields. *)
Record Time : Type := Date
  { Year : Z; Month : Z; Day : Z; Hour : Z; Minute : Z; Second : Z; Nanosecond : Z }.

Definition isDigit (c : ascii) : bool :=
  (48 <=? nat_of_ascii c)%nat && (nat_of_ascii c <=? 57)%nat.

Definition digit (c : ascii) : Z := Z.of_nat (nat_of_ascii c) - 48.

(** [getnum(s, true)]: exactly two leading digits. *)
Definition getnum2 (s : string) : option (Z * string) :=
  match s with
  | String a (String b rest) =>
      if isDigit a && isDigit b then Some (digit a * 10 + digit b, rest) else None
  | _ => None
  end.

(** The [stdLongYear] chunk: four leading digits. *)
Definition getyear (s : string) : option (Z * string) :=
  match s with
  | String a (String b (String c (String d rest))) =>
      if isDigit a && isDigit b && isDigit c && isDigit d
      then Some (((digit a * 10 + digit b) * 10 + digit c) * 10 + digit d, rest)
      else None
  | _ => None
  end.

(** A literal chunk of the layout: [value] must start with it. *)
Fixpoint skip (value prefix : string) : option string :=
  match prefix, value with
  | EmptyString, _ => Some value
  | String _ _, EmptyString => None
  | String p prefix', String c value' =>
      if Ascii.eqb c p then skip value' prefix' else None
  end.

Definition isLeap (year : Z) : bool :=
  (year mod 4 =? 0) && (negb (year mod 100 =? 0) || (year mod 400 =? 0)).

Definition daysIn (m year : Z) : Z :=
  if (m =? 2) && isLeap year then 29
  else if m =? 2 then 28
  else if (m =? 4) || (m =? 6) || (m =? 9) || (m =? 11) then 30
  else 31.

Definition layout : string := "2006-01-02".

(** [time.Parse("2006-01-02", value)]: a four-digit year, a two-digit
    month in 1..12 and a two-digit day of that month, separated by [-],
    and nothing after them; the result is midnight UTC of that day. *)
Definition ParseDate (value : string) : error + Time :=
  let bad := inl (ParseError layout value) in
  match getyear value with
  | None => bad
  | Some (year, value1) =>
  match skip value1 "-" with
  | None => bad
  | Some value2 =>
  match getnum2 value2 with
  | None => bad
  | Some (month, value3) =>
  if (month <=? 0) || (12 <? month) then bad else
  match skip value3 "-" with
  | None => bad
  | Some value4 =>
  match getnum2 value4 with
  | None => bad
  | Some (day, value5) =>
  if negb (String.length value5 =? 0)%nat then bad
  else if (day <? 1) || (daysIn month year <? day) then bad
  else inr (Date year month day 0 0 0 0)
  end end end end end.

End time.

(** ** The configuration ([Config]) *)

Record Config : Type := mkConfig
  { Name : string;
    Host : string;
    Email : string;
    Description : string;
    Image : string;
    PodcastUrl : string }.

(** ** Package [feeds]: the feed model

    The structs of [github.com/gmemstr/feeds], with the fields that
    [GenerateRss] sets; every other field keeps its zero value. *)

Module feeds.

Record Link : Type := mkLink { Href : string; Length : string; Type_ : string }.
Record Author : Type := mkAuthor { Author_Name : string; Author_Email : string }.
Record Image : Type := mkImage { Url : string }.
Record Enclosure : Type :=
  mkEnclosure { Enclosure_Url : string; Enclosure_Length : string; Enclosure_Type : string }.

Record Item : Type := mkItem
  { Item_Title : string;
    Item_Link : Link;
    Item_Enclosure : Enclosure;
    Item_Description : string;
    Item_Author : Author;
    Item_Created : time.Time }.

Record Feed : Type := mkFeed
  { Feed_Title : string;
    Feed_Link : Link;
    Feed_Description : string;
    Feed_Author : Author;
    Feed_Created : time.Time;
    Feed_Image : Image;
    Items : list Item }.

(** [feed.Add(item)] appends [item] to [feed.Items]. *)
Definition Add (feed : Feed) (item : Item) : Feed :=
  mkFeed (Feed_Title feed) (Feed_Link feed) (Feed_Description feed) (Feed_Author feed)
         (Feed_Created feed) (Feed_Image feed) (Items feed ++ [item]).

End feeds.

(** ** The libraries the program is linked with

    [json.Unmarshal] into a [Config] and the two encoders of the feeds
    package are outside the program: the pipeline is stated for any
    functions in their place.  An encoder reads the feed it is given and
    does not change it. *)

Class Libraries : Type :=
  { json_Unmarshal : string -> error + Config;
    ToRss : feeds.Feed -> error + string;
    ToJSON : feeds.Feed -> error + string }.

(** ** The world the process runs in *)

(** An [os.FileInfo], by the two methods the program calls. *)
Record FileInfo : Type := mkFileInfo { FileInfo_Name : string; FileInfo_Size : Z }.

(** What the logger has printed. *)
Inductive logline : Type :=
  | Fatal (err : error)                   (* log.Fatal(err) *)
  | Println (msg : string) (err : error). (* log.Println(msg, err) *)

(** [files] holds the readable regular files by path and [dirs] the
    readable directories with the listing [ioutil.ReadDir] returns for
    them (it returns the entries sorted by file name); a path in
    [readonly] cannot be opened for writing. *)
Record World : Type := mkWorld
  { files : gmap string string;
    dirs : gmap string (list FileInfo);
    readonly : gset string;
    clock : time.Time;
    logged : list logline }.

(** How a call ends: it returns, it panics, or the process exits. *)
Inductive outcome (A : Type) : Type :=
  | Done (a : A)
  | Panic (v : panic_value)
  | Exit (code : Z).
Arguments Done {A} a.
Arguments Panic {A} v.
Arguments Exit {A} code.

(** A computation of the process: it transforms the world and ends in an
    [outcome]. *)
Definition M (A : Type) : Type := World -> outcome A * World.

Definition ret {A : Type} (a : A) : M A := fun w => (Done a, w).

Definition bind {A B : Type} (m : M A) (k : A -> M B) : M B :=
  fun w =>
    match m w with
    | (Done a, w') => k a w'
    | (Panic v, w') => (Panic v, w')
    | (Exit c, w') => (Exit c, w')
    end.

Declare Scope go_scope.
Delimit Scope go_scope with go.
Notation "x <- m ;; k" := (bind m (fun x => k))
  (at level 100, m at next level, right associativity) : go_scope.
Local Open Scope go_scope.

(** [panic(v)]. *)
Definition panic {A : Type} (v : panic_value) : M A := fun w => (Panic v, w).

(** The world after the logger has printed [l]. *)
Definition add_log (l : logline) (w : World) : World :=
  mkWorld (files w) (dirs w) (readonly w) (clock w) (logged w ++ [l]).

Definition log_print (l : logline) : M unit := fun w => (Done tt, add_log l w).

(** [log.Fatal(err)]: print, then [os.Exit(1)]. *)
Definition log_Fatal {A : Type} (err : error) : M A :=
  _ <- log_print (Fatal err) ;; (fun w => (Exit 1, w)).

(** [log.Println(msg, err)]. *)
Definition log_Println (msg : string) (err : error) : M unit := log_print (Println msg err).

(** [if err != nil { panic(err) }] *)
Definition or_panic {A : Type} (r : error + A) : M A :=
  match r with inl err => panic (PanicError err) | inr a => ret a end.

(** [if err != nil { log.Fatal(err) }] *)
Definition or_Fatal {A : Type} (r : error + A) : M A :=
  match r with inl err => log_Fatal err | inr a => ret a end.

(** [s[i]] on a slice: a run-time panic when [i] is out of range. *)
Definition index {A : Type} (s : list A) (i : nat) : M A :=
  match nth_error s i with
  | Some a => ret a
  | None => panic (IndexOutOfRange i (List.length s))
  end.

(** [time.Now()]. *)
Definition time_Now : M time.Time := fun w => (Done (clock w), w).

(** The world after [data] has been written to [filename]: the content
    of the file.  The listings in [dirs] are left as they were: the
    presence and the size of a file in the listing of its directory are
    not kept in step with [files], and a listing changes only by a step
    of its own ([PutDir] below). *)
Definition write_file (filename data : string) (w : World) : World :=
  mkWorld (<[filename := data]> (files w)) (dirs w) (readonly w) (clock w) (logged w).

Module ioutil.

Definition ReadFile (filename : string) : M (error + string) :=
  fun w =>
    match files w !! filename with
    | Some data => (Done (inr data), w)
    | None => (Done (inl (PathError "open" filename)), w)
    end.

Definition ReadDir (dirname : string) : M (error + list FileInfo) :=
  fun w =>
    match dirs w !! dirname with
    | Some l => (Done (inr l), w)
    | None => (Done (inl (PathError "open" dirname)), w)
    end.

(** [ioutil.WriteFile(filename, data, perm)] creates or truncates the
    file and writes [data]; nothing changes when the file cannot be
    opened. *)
Definition WriteFile (filename data : string) : M (option error) :=
  fun w =>
    if decide (filename ∈ readonly w)
    then (Done (Some (PathError "open" filename)), w)
    else (Done None, write_file filename data w).

End ioutil.

(** The listing of [ioutil.ReadDir]: it reads the entries of the
    directory in the order the file system yields them and sorts them,
    [sort.Slice(list, func(i, j int) bool { return list[i].Name() < list[j].Name() })].
    Go's [<] on strings compares byte by byte.  The names of one
    directory differ from one another, so that the sorted listing is
    the same for every sorting algorithm; an insertion sort on [<]
    stands for it. *)
Fixpoint insert_by_name (file : FileInfo) (sorted : list FileInfo) : list FileInfo :=
  match sorted with
  | [] => [file]
  | x :: rest =>
      if String.ltb (FileInfo_Name file) (FileInfo_Name x) then file :: sorted
      else x :: insert_by_name file rest
  end.

Definition by_name (entries : list FileInfo) : list FileInfo :=
  fold_right insert_by_name [] entries.

(** [a] may come before [b] in a listing sorted by name: not
    [b.Name() < a.Name()]. *)
Definition name_before (a b : FileInfo) : Prop :=
  String.ltb (FileInfo_Name b) (FileInfo_Name a) = false.

(** ** Package [fsnotify] *)

Module fsnotify.

(** [fsnotify.Op] is a bit set. *)
Definition Create : Z := 1.
Definition Write : Z := 2.
Definition Remove : Z := 4.
Definition Rename : Z := 8.
Definition Chmod : Z := 16.

Record Event : Type := mkEvent { Event_Name : string; Op : Z }.

End fsnotify.

(** What the [select] of [watch] receives: an event from
    [watcher.Events] or an error from [watcher.Errors]. *)
Inductive message : Type :=
  | FromEvents (event : fsnotify.Event)
  | FromErrors (err : error).

(** What happens around the process: other programs change the watched
    files, the clock advances, and the watcher delivers messages to the
    goroutine. *)
Inductive step : Type :=
  | PutFile (path data : string)
  | RemoveFile (path : string)
  | PutDir (path : string) (listing : list FileInfo)
  | Tick (now : time.Time)
  | Deliver (m : message).

Definition outside (s : step) (w : World) : World :=
  match s with
  | PutFile path data => write_file path data w
  | RemoveFile path =>
      mkWorld (delete path (files w)) (dirs w) (readonly w) (clock w) (logged w)
  | PutDir path listing =>
      mkWorld (files w) (<[path := listing]> (dirs w)) (readonly w) (clock w) (logged w)
  | Tick now => mkWorld (files w) (dirs w) (readonly w) now (logged w)
  | Deliver _ => w
  end.

(** The process: running its loop, or ended by a panic or an exit. *)
Inductive process : Type :=
  | Running
  | Crashed (v : panic_value)
  | Exited (code : Z).

(** ** [GenerateRss] *)

Section Pipeline.

Context `{Libraries}.

(** The body of the loop over the directory entries: [feed] is the
    feed built so far. *)
Definition episode (config : Config) (podcasturl : string) (file : FileInfo)
    (feed : feeds.Feed) : M feeds.Feed :=
  if strings.Contains (FileInfo_Name file) ".mp3" then
    let s := strings.Split (FileInfo_Name file) "_" in
    s1 <- index s 1 ;;
    let t := strings.Split s1 "." in
    title <- index t 0 ;;
    r <- ioutil.ReadFile
           ("podcasts/" +:+ strings.Replace (FileInfo_Name file) ".mp3" "_SHOWNOTES.md" 2) ;;
    description <- or_Fatal r ;;
    s0 <- index s 0 ;;
    date <- or_Fatal (time.ParseDate s0) ;;
    let size := fmt.Sprintf_d (FileInfo_Size file) in
    let link := podcasturl +:+ "/download/" +:+ FileInfo_Name file in
    ret (feeds.Add feed
           (feeds.mkItem title
              (feeds.mkLink link size "audio/mpeg")
              (feeds.mkEnclosure link size "audio/mpeg")
              description
              (feeds.mkAuthor (Host config) (Email config))
              date))
  else ret feed.

(** [for _, file := range files { ... }] *)
Fixpoint range_files (config : Config) (podcasturl : string) (files : list FileInfo)
    (feed : feeds.Feed) : M feeds.Feed :=
  match files with
  | [] => ret feed
  | file :: rest =>
      feed' <- episode config podcasturl file feed ;;
      range_files config podcasturl rest feed'
  end.

Definition GenerateRss : M unit :=
  r <- ioutil.ReadFile "assets/config/config.json" ;;
  d <- or_panic r ;;
  config <- or_panic (json_Unmarshal d) ;;
  now <- time_Now ;;
  r <- ioutil.ReadDir "podcasts" ;;
  files <- or_Fatal r ;;
  let podcasturl := PodcastUrl config in
  let feed :=
    feeds.mkFeed (Name config)
      (feeds.mkLink podcasturl "" "")
      (Description config)
      (feeds.mkAuthor (Host config) (Email config))
      now
      (feeds.mkImage (Image config))
      [] in
  feed <- range_files config podcasturl files feed ;;
  rss <- or_Fatal (ToRss feed) ;;
  json <- or_Fatal (ToJSON feed) ;;
  _ <- ioutil.WriteFile "assets/web/feed.rss" rss ;;
  _ <- ioutil.WriteFile "assets/web/feed.json" json ;;
  ret tt.

(** ** [watch]: the goroutine that serves the watcher's channels *)

(** One turn of the [for { select { ... } }] loop. *)
Definition serve (m : message) : M unit :=
  match m with
  | FromEvents event =>
      if Z.land (fsnotify.Op event) fsnotify.Write =? fsnotify.Write then GenerateRss else ret tt
  | FromErrors err => log_Println "error:" err
  end.

(** The loop along a trace of steps.  A message delivered while the
    process runs is served to completion before the next step; once the
    process has ended the messages stay unreceived.  The result carries
    the number of messages the loop received. *)
Fixpoint watch_loop (trace : list step) (p : process) (received : nat) (w : World)
    : process * nat * World :=
  match trace with
  | [] => (p, received, w)
  | Deliver m :: trace' =>
      match p with
      | Running =>
          match serve m w with
          | (Done _, w') => watch_loop trace' Running (S received) w'
          | (Panic v, w') => watch_loop trace' (Crashed v) (S received) w'
          | (Exit c, w') => watch_loop trace' (Exited c) (S received) w'
          end
      | _ => watch_loop trace' p received w
      end
  | s :: trace' => watch_loop trace' p received (outside s w)
  end.

End Pipeline.

(** ** The pipeline in pure terms

    What the loop body and [GenerateRss] compute, as functions of the
    files they read; the lemmas [episode_Done] and [GenerateRss_Done]
    relate them to the code above. *)

(** The shownotes path [episode] reads for a file name. *)
Abbreviation shownotes name :=
  ("podcasts/" +:+ strings.Replace name ".mp3" "_SHOWNOTES.md" 2).

(** The entries the loop does not skip. *)
Definition audio (file : FileInfo) : bool := strings.Contains (FileInfo_Name file) ".mp3".

(** The item the loop body adds for [file], when it gets that far. *)
Definition record (config : Config) (podcasturl : string) (fs : gmap string string)
    (file : FileInfo) : option feeds.Item :=
  let name := FileInfo_Name file in
  let s := strings.Split name "_" in
  s1 ← nth_error s 1;
  title ← nth_error (strings.Split s1 ".") 0;
  description ← fs !! shownotes name;
  s0 ← nth_error s 0;
  match time.ParseDate s0 with
  | inl _ => None
  | inr date =>
      let size := fmt.Sprintf_d (FileInfo_Size file) in
      let link := podcasturl +:+ "/download/" +:+ name in
      Some (feeds.mkItem title
              (feeds.mkLink link size "audio/mpeg")
              (feeds.mkEnclosure link size "audio/mpeg")
              description
              (feeds.mkAuthor (Host config) (Email config))
              date)
  end.

(** The feed [GenerateRss] has built once [items] were added. *)
Definition assembled (config : Config) (now : time.Time) (items : list feeds.Item) : feeds.Feed :=
  feeds.mkFeed (Name config)
    (feeds.mkLink (PodcastUrl config) "" "")
    (Description config)
    (feeds.mkAuthor (Host config) (Email config))
    now
    (feeds.mkImage (Image config))
    items.

(** The world after [ioutil.WriteFile(filename, data, perm)]. *)
Definition written (filename data : string) (w : World) : World :=
  if decide (filename ∈ readonly w) then w else write_file filename data w.

(** The world after the two writes that end [GenerateRss]. *)
Definition published (rss json : string) (w : World) : World :=
  written "assets/web/feed.json" json (written "assets/web/feed.rss" rss w).

(** A call that ended without returning left the files alone: a panic
    changes nothing, [log.Fatal] prints one line and exits with status 1. *)
Definition stopped {A : Type} (o : outcome A) (w w' : World) : Prop :=
  match o with
  | Done _ => False
  | Panic _ => w' = w
  | Exit code => code = 1 /\ exists err, w' = add_log (Fatal err) w
  end.

(** Two worlds give [GenerateRss] the same to read: the configuration
    file, the listing of the episode directory and the files in it; and
    they allow the same writes. *)
Definition same_inputs (w w2 : World) : Prop :=
  files w2 !! "assets/config/config.json" = files w !! "assets/config/config.json"
  /\ dirs w2 !! "podcasts" = dirs w !! "podcasts"
  /\ (forall name : string,
        files w2 !! ("podcasts/" +:+ name) = files w !! ("podcasts/" +:+ name))
  /\ readonly w2 = readonly w.

(** The world at the end of a trace, for a process that has ended:
    only the steps of the others count. *)
Definition drift (trace : list step) (w : World) : World :=
  fold_left (fun w s => outside s w) trace w.

(** ** The filename contract of the specification

    Written after the specification, not after the code: a name obeys
    the contract when it ends in [.mp3] and the part before its first
    underscore is a [YYYY-MM-DD] date. *)

Fixpoint has_byte (c : ascii) (s : string) : bool :=
  match s with
  | EmptyString => false
  | String x s' => Ascii.eqb x c || has_byte c s'
  end.

Fixpoint cut (c : ascii) (s : string) : option (string * string) :=
  match s with
  | EmptyString => None
  | String x s' =>
      if Ascii.eqb x c then Some (EmptyString, s')
      else match cut c s' with
           | Some (before, after) => Some (String x before, after)
           | None => None
           end
  end.

Fixpoint HasSuffix (s suffix : string) : bool :=
  String.eqb s suffix ||
  match s with
  | EmptyString => false
  | String _ s' => HasSuffix s' suffix
  end.

Definition naming_contract (name : string) : bool :=
  HasSuffix name ".mp3" &&
  match cut "_" name with
  | Some (date, _) => match time.ParseDate date with inr _ => true | inl _ => false end
  | None => false
  end.

(** What may follow a title: nothing, an underscore or a dot. *)
Definition title_end (r : string) : Prop :=
  r = "" \/ (exists r', r = "_" +:+ r') \/ (exists r', r = "." +:+ r').

(** ** Stand-ins for the libraries, to run the pipeline on examples *)

Module Sample.

Definition dq : string := String "034"%char EmptyString.
Definition quoted (s : string) : string := dq +:+ s +:+ dq.
Definition member (key value : string) : string := quoted key +:+ ":" +:+ quoted value.

(** The configuration document
    [{"Name":"Show","Host":"Alice","Email":"a@x.com","PodcastUrl":"https://x.com"}]. *)
Definition config_json : string :=
  "{" +:+ member "Name" "Show" +:+ "," +:+ member "Host" "Alice" +:+ ","
      +:+ member "Email" "a@x.com" +:+ "," +:+ member "PodcastUrl" "https://x.com" +:+ "}".

Definition config : Config := mkConfig "Show" "Alice" "a@x.com" "" "" "https://x.com".

(** [json.Unmarshal] on the one document above: the keys it lacks
    leave their fields empty.  Every other input is taken as
    undecodable. *)
Definition Unmarshal (d : string) : error + Config :=
  if String.eqb d config_json then inr config
  else inl (UnmarshalError "invalid character").

Definition two (n : Z) : string :=
  if n <? 10 then "0" +:+ fmt.Sprintf_d n else fmt.Sprintf_d n.

Definition stamp (t : time.Time) : string :=
  fmt.Sprintf_d (time.Year t) +:+ "-" +:+ two (time.Month t) +:+ "-" +:+ two (time.Day t)
  +:+ "T" +:+ two (time.Hour t) +:+ ":" +:+ two (time.Minute t) +:+ ":" +:+ two (time.Second t).

Definition element (tag body : string) : string :=
  "<" +:+ tag +:+ ">" +:+ body +:+ "</" +:+ tag +:+ ">".

Definition rss_item (it : feeds.Item) : string :=
  element "item"
    (element "title" (feeds.Item_Title it)
     +:+ element "link" (feeds.Href (feeds.Item_Link it))
     +:+ element "description" (feeds.Item_Description it)
     +:+ element "enclosure" (feeds.Enclosure_Url (feeds.Item_Enclosure it))
     +:+ element "pubDate" (stamp (feeds.Item_Created it))).

(** A plain rendering in the manner of RSS 2.0: the channel carries
    the feed's title, link, description and, as [pubDate], its creation
    time, then one [item] per episode. *)
Definition Rss (feed : feeds.Feed) : error + string :=
  inr (element "rss"
         (element "channel"
            (element "title" (feeds.Feed_Title feed)
             +:+ element "link" (feeds.Href (feeds.Feed_Link feed))
             +:+ element "description" (feeds.Feed_Description feed)
             +:+ element "pubDate" (stamp (feeds.Feed_Created feed))
             +:+ String.concat "" (map rss_item (feeds.Items feed))))).

Definition json_item (it : feeds.Item) : string :=
  "{" +:+ member "title" (feeds.Item_Title it) +:+ ","
      +:+ member "url" (feeds.Href (feeds.Item_Link it)) +:+ ","
      +:+ member "summary" (feeds.Item_Description it) +:+ ","
      +:+ member "date_published" (stamp (feeds.Item_Created it)) +:+ "}".

Definition Json (feed : feeds.Feed) : error + string :=
  inr ("{" +:+ member "title" (feeds.Feed_Title feed) +:+ ","
           +:+ member "home_page_url" (feeds.Href (feeds.Feed_Link feed)) +:+ ","
           +:+ quoted "items" +:+ ":[" +:+ String.concat "," (map json_item (feeds.Items feed))
           +:+ "]}").

Definition libraries : Libraries :=
  {| json_Unmarshal := Unmarshal; ToRss := Rss; ToJSON := Json |}.

(** The directory of the specification's scenario: one episode and its
    shownotes, and the configuration above. *)
Definition pilot : FileInfo := mkFileInfo "2024-01-15_Pilot.mp3" 1000.
Definition notes : FileInfo := mkFileInfo "2024-01-15_Pilot_SHOWNOTES.md" 7.

Definition noon : time.Time := time.Date 2024 1 20 12 0 0 0.

Definition world : World :=
  mkWorld
    (<["assets/config/config.json" := config_json]>
       (<["podcasts/2024-01-15_Pilot_SHOWNOTES.md" := "Welcome"]> ∅))
    (<["podcasts" := [pilot; notes]]> ∅)
    ∅ noon [].

(** The same, with the configuration file gone. *)
Definition world_without_config : World :=
  outside (RemoveFile "assets/config/config.json") world.

(** The same, with a configuration file that is not JSON. *)
Definition world_bad_config : World :=
  outside (PutFile "assets/config/config.json" "not json") world.

(** The same, with the shownotes gone. *)
Definition world_without_notes : World :=
  outside (PutDir "podcasts" [pilot])
    (outside (RemoveFile "podcasts/2024-01-15_Pilot_SHOWNOTES.md") world).

(** The same, with a copy of the episode and of its shownotes kept
    under [.bak] names. *)
Definition pilot_bak : FileInfo := mkFileInfo "2024-01-15_Pilot.mp3.bak" 1000.

Definition world_with_backup : World :=
  outside (PutDir "podcasts" [pilot; pilot_bak; notes])
    (outside (PutFile "podcasts/2024-01-15_Pilot_SHOWNOTES.md.bak" "Welcome") world).

(** Two more episodes, one with an underscore and one with a dot in
    its title. *)
Definition my_show : FileInfo := mkFileInfo "2024-01-15_My_Show.mp3" 2000.
Definition vol_2 : FileInfo := mkFileInfo "2024-02-01_Vol.2.mp3" 3000.

Definition world_more : World :=
  outside (PutDir "podcasts" [pilot; notes; my_show; vol_2])
    (outside (PutFile "podcasts/2024-02-01_Vol.2_SHOWNOTES.md" "Third")
       (outside (PutFile "podcasts/2024-01-15_My_Show_SHOWNOTES.md" "Second") world)).

(** An audio file named without an underscore. *)
Definition unnamed : FileInfo := mkFileInfo "episode.mp3" 10.

(** The record of [pilot]. *)
Definition pilot_item : feeds.Item :=
  feeds.mkItem "Pilot"
    (feeds.mkLink "https://x.com/download/2024-01-15_Pilot.mp3" "1000" "audio/mpeg")
    (feeds.mkEnclosure "https://x.com/download/2024-01-15_Pilot.mp3" "1000" "audio/mpeg")
    "Welcome" (feeds.mkAuthor "Alice" "a@x.com") (time.Date 2024 1 15 0 0 0 0).

Definition write_event (name : string) : message :=
  FromEvents (fsnotify.mkEvent name fsnotify.Write).

Definition later : time.Time := time.Date 2024 1 20 12 0 1 0.

Definition config_path : string := "assets/config/config.json".

(** The configuration file is missing when it is first written to; then
    it is put in place and written to again. *)
Definition recovery : list step :=
  [ Deliver (write_event config_path);
    PutFile config_path config_json;
    Deliver (write_event config_path) ].

Definition empty_feed : feeds.Feed :=
  feeds.mkFeed "" (feeds.mkLink "" "" "") "" (feeds.mkAuthor "" "") noon (feeds.mkImage "") [].

End Sample.

(** The three episodes of [Sample.world_more], in a directory whose
    entries the file system yields in the order [entries]: the listing
    of [ioutil.ReadDir] is [by_name entries]. *)
Module Shelf.

Definition entries : list FileInfo :=
  [Sample.pilot; Sample.notes; Sample.my_show; Sample.vol_2].

Definition world : World :=
  outside (PutDir "podcasts" (by_name entries)) Sample.world_more.

Definition item (title name length description : string) (created : time.Time) : feeds.Item :=
  feeds.mkItem title
    (feeds.mkLink ("https://x.com/download/" +:+ name) length "audio/mpeg")
    (feeds.mkEnclosure ("https://x.com/download/" +:+ name) length "audio/mpeg")
    description (feeds.mkAuthor "Alice" "a@x.com") created.

(** The records of the three episodes, in the order of the feed. *)
Definition items : list feeds.Item :=
  [ item "My" "2024-01-15_My_Show.mp3" "2000" "Second" (time.Date 2024 1 15 0 0 0 0);
    item "Pilot" "2024-01-15_Pilot.mp3" "1000" "Welcome" (time.Date 2024 1 15 0 0 0 0);
    item "Vol" "2024-02-01_Vol.2.mp3" "3000" "Third" (time.Date 2024 2 1 0 0 0 0) ].

End Shelf.

(** ** Dates as the layout writes them *)

(** The byte of a decimal digit. *)
Definition digit_char (n : Z) : ascii := ascii_of_nat (Z.to_nat (48 + n)).

Definition two_digits (n : Z) : string :=
  String (digit_char (n / 10)) (String (digit_char (n mod 10)) EmptyString).

Definition four_digits (n : Z) : string :=
  String (digit_char (n / 1000)) (String (digit_char (n / 100 mod 10)) (two_digits (n mod 100))).

(** A date in the layout [2006-01-02], for a year of at most four
    digits. *)
Definition date_name (year month day : Z) : string :=
  four_digits year +:+ "-" +:+ two_digits month +:+ "-" +:+ two_digits day.

(** Midnight UTC of a day of the calendar. *)
Definition calendar_day (t : time.Time) : Prop :=
  0 <= time.Year t <= 9999
  /\ 1 <= time.Month t <= 12
  /\ 1 <= time.Day t <= time.daysIn (time.Month t) (time.Year t)
  /\ time.Hour t = 0 /\ time.Minute t = 0 /\ time.Second t = 0 /\ time.Nanosecond t = 0.

(** The two files [GenerateRss] writes. *)
Definition output_path (p : string) : Prop :=
  p = "assets/web/feed.rss" \/ p = "assets/web/feed.json".

(** Two worlds whose files differ at most in the two output files:
    every other path holds the same content in both, or is missing in
    both. *)
Definition same_but_outputs (w w' : World) : Prop :=
  forall p : string, ~ output_path p -> files w' !! p = files w !! p.

(** ** More worlds to run the pipeline on *)

Module Cases.

(** The episode directory cannot be listed. *)
Definition world_without_directory : World :=
  mkWorld (files Sample.world) ∅ ∅ Sample.noon [].

(** Libraries whose JSON encoder fails. *)
Definition failing_json : Libraries :=
  {| json_Unmarshal := Sample.Unmarshal;
     ToRss := Sample.Rss;
     ToJSON := fun _ => inl (EncodeError "unsupported value") |}.

(** An old [feed.rss] that cannot be opened for writing. *)
Definition world_locked_rss : World :=
  mkWorld (<["assets/web/feed.rss" := "old feed"]> (files Sample.world))
    (dirs Sample.world) {["assets/web/feed.rss"]} Sample.noon [].

End Cases.

(** ** Messages that trigger no rebuild *)

(** Whether [serve] calls [GenerateRss] on a message. *)
Definition triggers (m : message) : bool :=
  match m with
  | FromEvents event => Z.land (fsnotify.Op event) fsnotify.Write =? fsnotify.Write
  | FromErrors _ => false
  end.

(** The lines the loop prints for the watcher's errors among [ms]. *)
Fixpoint error_lines (ms : list message) : list logline :=
  match ms with
  | [] => []
  | FromErrors err :: ms' => Println "error:" err :: error_lines ms'
  | FromEvents _ :: ms' => error_lines ms'
  end.

(** The world with [lines] added to the log. *)
Definition add_logs (lines : list logline) (w : World) : World :=
  mkWorld (files w) (dirs w) (readonly w) (clock w) (logged w ++ lines).

Module Scenes.

(** Only the shownotes are left in the episode directory. *)
Definition world_notes_only : World :=
  outside (PutDir "podcasts" [Sample.notes]) Sample.world.

(** An episode is removed, the watcher reports an error, a file is
    created and its mode changed. *)
Definition quiet_messages : list message :=
  [ FromEvents (fsnotify.mkEvent "podcasts/2024-01-15_Pilot.mp3" fsnotify.Remove);
    FromErrors (WatchError "queue overflow");
    FromEvents (fsnotify.mkEvent "podcasts/new.mp3" (Z.lor fsnotify.Create fsnotify.Chmod)) ].

(** A day in the life of the watcher: an episode is written, the
    configuration is removed and written to, then restored. *)
Definition busy : list step :=
  [ Deliver (Sample.write_event "podcasts/2024-01-15_Pilot.mp3");
    PutFile "podcasts/notes.txt" "draft";
    RemoveFile Sample.config_path;
    Deliver (Sample.write_event Sample.config_path);
    PutFile Sample.config_path Sample.config_json;
    Deliver (Sample.write_event Sample.config_path) ].

(** An episode is written just after the episode directory was added
    to the watcher; then the configuration file is removed. *)
Definition removal : list step :=
  [ Deliver (Sample.write_event "podcasts/2024-01-15_Pilot.mp3");
    RemoveFile Sample.config_path ].

End Scenes.

(** ** [watch]: the start of the watcher

    [watch] creates the watcher, starts the goroutine of the loop, then
    adds the episode directory, then the configuration file, and blocks.
    The loop is running while the two paths are added: a message that
    the watcher delivers once the directory is watched is served whether
    or not the configuration file is added later.  What
    [fsnotify.NewWatcher] and [watcher.Add] answer is outside the
    program. *)

Class Notifier : Type :=
  { NewWatcher : option error;
    watcher_Add : string -> World -> option error }.

(** [if err != nil { log.Fatal(err) }], for a call that returns only an
    error. *)
Definition check_Fatal (err : option error) : M unit :=
  match err with
  | Some err => log_Fatal err
  | None => ret tt
  end.

Section Start.

Context `{Libraries} `{Notifier}.

(** [err = watcher.Add(name); if err != nil { log.Fatal(err) }] *)
Definition add_watch (name : string) : M unit :=
  fun w => check_Fatal (watcher_Add name w) w.

(** The process after a call of the main goroutine. *)
Definition process_after {A : Type} (o : outcome A) : process :=
  match o with
  | Done _ => Running
  | Panic v => Crashed v
  | Exit code => Exited code
  end.

(** [watch] along two traces: [early] holds the steps between the
    return of [watcher.Add("podcasts/")] and the call of
    [watcher.Add("assets/config/config.json")], [late] the steps after
    that call.  Before the first [Add] the watcher watches nothing and has
    nothing to deliver.  The goroutine was started before the first
    [Add], so that the messages of [early] are served; when one of them
    has ended the process, the main goroutine never calls the second
    [Add].  As in [watch_loop], a message is served to completion before
    the next step: the second [Add] falls between two turns of the
    loop. *)
Definition watch (early late : list step) (w : World) : process * nat * World :=
  match check_Fatal NewWatcher w with
  | (Done _, w0) =>
      (* go func() { for { select { ... } } }() *)
      match add_watch "podcasts/" w0 with
      | (Done _, w1) =>
          match watch_loop early Running 0 w1 with
          | (Running, received, w2) =>
              match add_watch "assets/config/config.json" w2 with
              | (o, w3) => watch_loop late (process_after o) received w3
              end
          | (p, received, w2) => watch_loop late p received w2
          end
      | (o, w1) => watch_loop (early ++ late) (process_after o) 0 w1
      end
  | (o, w0) => watch_loop (early ++ late) (process_after o) 0 w0
  end.

End Start.

Module Inotify.

(** A path without its trailing slash. *)
Fixpoint trim (name : string) : string :=
  match name with
  | EmptyString => EmptyString
  | String c rest =>
      match rest with
      | EmptyString => if Ascii.eqb c "/" then EmptyString else name
      | _ => String c (trim rest)
      end
  end.

(** A watcher that can be created and that watches the files and
    directories that exist. *)
Definition notifier : Notifier :=
  {| NewWatcher := None;
     watcher_Add := fun name w =>
       match files w !! trim name, dirs w !! trim name with
       | None, None => Some (PathError "inotify_add_watch" (trim name))
       | _, _ => None
       end |}.

End Inotify.

(** * The router

    The handlers of package [router], over the same world.  A request
    is taken with its form already read; the state of the
    [http.ResponseWriter] is the header the handlers have set, the status
    once it is fixed, and the body written so far. *)

Module http.

Definition StatusOK : Z := 200.
Definition StatusTemporaryRedirect : Z := 307.
Definition StatusBadRequest : Z := 400.
Definition StatusUnauthorized : Z := 401.
Definition StatusNotFound : Z := 404.
Definition StatusInternalServerError : Z := 500.

(** [url.Values]. *)
Abbreviation Values := (gmap string (list string)).

(** [values[key]]: no values for a missing key. *)
Definition values_of (v : Values) (key : string) : list string :=
  match v !! key with
  | Some l => l
  | None => []
  end.

(** [values.Get(key)]: the first value, or the empty string. *)
Definition Get (v : Values) (key : string) : string :=
  match values_of v key with
  | x :: _ => x
  | [] => EmptyString
  end.

(** A request: [ParseForm] and [ParseMultipartForm] hold the error of
    the call and [r.Form] as the call leaves it. *)
Record Request : Type := mkRequest
  { Method : string;
    Path : string;
    ParseForm : option error * Values;
    ParseMultipartForm : option error * Values }.

Record ResponseWriter : Type := mkResponseWriter
  { Header : gmap string (list string);
    Status : option Z;
    Body : string }.

(** [w.Header().Set(key, value)] and [w.Header().Add(key, value)], for
    a key in canonical form. *)
Definition Header_Set (key value : string) (w : ResponseWriter) : ResponseWriter :=
  mkResponseWriter (<[key := [value]]> (Header w)) (Status w) (Body w).

Definition Header_Add (key value : string) (w : ResponseWriter) : ResponseWriter :=
  mkResponseWriter
    (<[key := match Header w !! key with Some l => l ++ [value] | None => [value] end]>
       (Header w))
    (Status w) (Body w).

(** [w.Write(data)]: the first write fixes the status at 200 when no
    status was written. *)
Definition Write (data : string) (w : ResponseWriter) : ResponseWriter :=
  mkResponseWriter (Header w)
    (Some match Status w with Some code => code | None => StatusOK end)
    (Body w +:+ data).

End http.

(** [strings.Join(elems, sep)]. *)
Fixpoint strings_Join (elems : list string) (sep : string) : string :=
  match elems with
  | [] => EmptyString
  | [x] => x
  | x :: rest => x +:+ sep +:+ strings_Join rest sep
  end.

(** [common.HTTPError], by the fields the handlers set. *)
Record HTTPError : Type := mkHTTPError { Message : string; HTTPError_StatusCode : Z }.

Record NewConfig : Type := mkNewConfig
  { NewConfig_Name : string;
    NewConfig_Host : string;
    NewConfig_Email : string;
    NewConfig_Description : string;
    NewConfig_Image : string;
    NewConfig_PodcastURL : string }.

(** [common.RouterContext]: the handlers of this package pass it on
    untouched. *)
Class Common : Type :=
  { RouterContext : Type;
    new_RouterContext : RouterContext }.

(** A [common.Handler]: from the context, the response so far and the
    request to an error or none, with the context and the response as the
    handler leaves them. *)
Definition Handler `{Common} : Type :=
  RouterContext -> http.ResponseWriter -> http.Request ->
  M (option HTTPError * RouterContext * http.ResponseWriter).

(** What the router calls outside this file. *)
Class Web `{Common} : Type :=
  { StatusText : Z -> string;                       (* http.StatusText *)
    Printf_v : HTTPError -> logline;                (* the line of log.Printf("%v", err) *)
    Sprintf_v : error -> string;                    (* fmt.Sprintf("%v", err) *)
    Redirect : http.ResponseWriter -> http.Request -> string -> Z -> http.ResponseWriter;
                                                    (* http.Redirect *)
    ReadAndServeFile : string -> http.ResponseWriter -> M (option HTTPError * http.ResponseWriter);
                                                    (* common.ReadAndServeFile *)
    DecryptCookie : http.Request -> option error;   (* the error of auth.DecryptCookie *)
    CreateSession : string -> error + string;       (* auth.CreateSession, then c.String() *)
    Unmarshal_users : string -> gmap string string; (* u after json.Unmarshal(d, &u) *)
    json_Marshal : NewConfig -> error + string;     (* json.Marshal *)
    RequireAuthorization : Handler;                 (* auth.RequireAuthorization() *)
    CreateEpisode : Handler;                        (* admin.CreateEpisode() *)
    RemoveEpisode : Handler;                        (* admin.RemoveEpisode() *)
    CustomCss : Handler }.                          (* admin.CustomCss() *)

Section Router.

Context `{Web}.

(** The loop of [Handle] from the handlers that are left. *)
Fixpoint range_handlers (handlers : list Handler) (rc : RouterContext)
    (w : http.ResponseWriter) (r : http.Request) : M http.ResponseWriter :=
  match handlers with
  | [] => ret w
  | handler :: rest =>
      res <- handler rc w r ;;
      let '(err, rc', w') := res in
      match err with
      | Some err =>
          _ <- log_print (Printf_v err) ;;
          ret (http.Write (StatusText (HTTPError_StatusCode err)) w')
      | None => range_handlers rest rc' w' r
      end
  end.

(** [Handle(handlers...)], as the function that serves a request. *)
Definition Handle (handlers : list Handler) (w : http.ResponseWriter) (r : http.Request)
    : M http.ResponseWriter :=
  range_handlers handlers new_RouterContext w r.

(** [return common.ReadAndServeFile(file, w)] *)
Definition serve_file (file : string) (rc : RouterContext) (w : http.ResponseWriter)
    : M (option HTTPError * RouterContext * http.ResponseWriter) :=
  res <- ReadAndServeFile file w ;;
  ret (fst res, rc, snd res).

(** The loop of [loginHandler] over the users, in the order the map
    yields them. *)
Fixpoint range_users (u : list (string * string)) (username password : string)
    (rc : RouterContext) (w : http.ResponseWriter) (r : http.Request)
    : M (option HTTPError * RouterContext * http.ResponseWriter) :=
  match u with
  | [] => ret (Some (mkHTTPError "Invalid credentials!" http.StatusUnauthorized), rc, w)
  | (k, v) :: rest =>
      if String.eqb k username && String.eqb v password then
        match CreateSession k with
        | inl err =>
            ret (Some (mkHTTPError (Sprintf_v err) http.StatusInternalServerError), rc, w)
        | inr c =>
            ret (None, rc,
                 Redirect (http.Header_Add "Set-Cookie" c w) r "/admin"
                   http.StatusTemporaryRedirect)
        end
      else range_users rest username password rc w r
  end.

Definition loginHandler : Handler := fun rc w r =>
  match DecryptCookie r with
  | None => ret (None, rc, Redirect w r "/admin" http.StatusTemporaryRedirect)
  | Some _ =>
      if String.eqb (http.Method r) "GET" then
        serve_file "assets/web/login.html" rc (http.Header_Set "Content-Type" "text/html" w)
      else
        d <- ioutil.ReadFile "assets/config/users.json" ;;
        match d with
        | inl err =>
            ret (Some (mkHTTPError ("error in reading users.json: " +:+ Sprintf_v err)
                         http.StatusInternalServerError), rc, w)
        | inr d =>
            match fst (http.ParseForm r) with
            | Some err =>
                ret (Some (mkHTTPError ("error in parsing form: " +:+ Sprintf_v err)
                             http.StatusBadRequest), rc, w)
            | None =>
                let username := http.Get (snd (http.ParseForm r)) "username" in
                let password := http.Get (snd (http.ParseForm r)) "password" in
                if String.eqb username "" || String.eqb password "" then
                  ret (Some (mkHTTPError "username or password is empty"
                               http.StatusBadRequest), rc, w)
                else
                  range_users (map_to_list (Unmarshal_users d)) username password rc w r
            end
        end
  end.

Definition rootHandler : Handler := fun rc w r =>
  if String.eqb (http.Path r) "/rss" then
    serve_file "assets/web/feed.rss" rc
      (http.Header_Set "Content-Type" "application/rss+xml" w)
  else if String.eqb (http.Path r) "/json" then
    serve_file "assets/web/feed.json" rc
      (http.Header_Set "Content-Type" "application/json" w)
  else if String.eqb (http.Path r) "/" then
    serve_file "assets/web/index.html" rc (http.Header_Set "Content-Type" "text/html" w)
  else
    ret (Some (mkHTTPError (http.Path r +:+ ": Not Found") http.StatusNotFound), rc, w).

Definition adminHandler : Handler := fun rc w r =>
  serve_file "assets/web/admin.html" rc w.

Definition serveSetup : Handler := fun rc w r =>
  if String.eqb (http.Method r) "GET" then
    serve_file "assets/web/setup.html" rc w
  else
    let form := snd (http.ParseMultipartForm r) in
    let cnf :=
      mkNewConfig
        (strings_Join (http.values_of form "podcastname") "")
        (strings_Join (http.values_of form "podcasthost") "")
        (strings_Join (http.values_of form "podcastemail") "")
        "" "" "" in
    b <- or_panic (json_Marshal cnf) ;;
    _ <- ioutil.WriteFile "assets/config/config.json" b ;;
    ret (None, rc, http.Write "Done" w).

(** ** [Init]: the routes *)

(** What a route hands the request to: a file server on a directory,
    with the path left after [http.StripPrefix], or a chain of handlers
    under [Handle]. *)
Inductive target : Type :=
  | FileServer (dir path : string)
  | Chain (handlers : list Handler).

(** A route: a path to match exactly or as a prefix, and the methods
    it is restricted to (none: any method). *)
Record route : Type := mkRoute
  { PathPrefix : bool;
    template : string;
    Methods : list string;
    serves : string -> target }.

(** [http.StripPrefix(prefix, ...)] on a path that starts with it. *)
Definition StripPrefix (prefix path : string) : string :=
  String.substring (String.length prefix) (String.length path - String.length prefix) path.

Definition Init : list route :=
  [ mkRoute true "/assets/" []
      (fun path => FileServer "assets/web/static" (StripPrefix "/assets/" path));
    mkRoute true "/download/" []
      (fun path => FileServer "podcasts" (StripPrefix "/download/" path));
    mkRoute false "/" ["GET"] (fun _ => Chain [rootHandler]);
    mkRoute false "/rss" ["GET"] (fun _ => Chain [rootHandler]);
    mkRoute false "/json" ["GET"] (fun _ => Chain [rootHandler]);
    mkRoute false "/admin" ["GET"; "POST"] (fun _ => Chain [RequireAuthorization; adminHandler]);
    mkRoute false "/login" ["GET"; "POST"] (fun _ => Chain [loginHandler]);
    mkRoute false "/admin/publish" ["POST"] (fun _ => Chain [RequireAuthorization; CreateEpisode]);
    mkRoute false "/admin/delete" ["GET"] (fun _ => Chain [RequireAuthorization; RemoveEpisode]);
    mkRoute false "/admin/css" ["GET"; "POST"] (fun _ => Chain [RequireAuthorization; CustomCss]);
    mkRoute false "/setup" ["GET"; "POST"] (fun _ => Chain [serveSetup]) ].

(** Whether a route matches a request. *)
Definition matches (rt : route) (r : http.Request) : bool :=
  (if PathPrefix rt then strings.HasPrefix (http.Path r) (template rt)
   else String.eqb (http.Path r) (template rt))
  && match Methods rt with
     | [] => true
     | ms => existsb (String.eqb (http.Method r)) ms
     end.

(** The router hands a request to the first route that matches. *)
Fixpoint Match (routes : list route) (r : http.Request) : option target :=
  match routes with
  | [] => None
  | rt :: rest => if matches rt r then Some (serves rt (http.Path r)) else Match rest r
  end.

End Router.


Section Passing.

Context `{Web}.

(** The handlers of a chain up to the first error: the error or none,
    with the context and the response as the last handler that ran left
    them. *)
Fixpoint pass (handlers : list Handler) (rc : RouterContext) (w : http.ResponseWriter)
    (r : http.Request) : M (option HTTPError * RouterContext * http.ResponseWriter) :=
  match handlers with
  | [] => ret (None, rc, w)
  | handler :: rest =>
      res <- handler rc w r ;;
      let '(err, rc', w') := res in
      match err with
      | Some err => ret (Some err, rc', w')
      | None => pass rest rc' w' r
      end
  end.

(** What [loginHandler] answers to a user it has found. *)
Definition welcome (username : string) (rc : RouterContext) (w : http.ResponseWriter)
    (r : http.Request) : option HTTPError * RouterContext * http.ResponseWriter :=
  match CreateSession username with
  | inl err => (Some (mkHTTPError (Sprintf_v err) http.StatusInternalServerError), rc, w)
  | inr c =>
      (None, rc,
       Redirect (http.Header_Add "Set-Cookie" c w) r "/admin" http.StatusTemporaryRedirect)
  end.

(** The status a response goes out with once something was written. *)
Definition sent_status (w : http.ResponseWriter) : Z :=
  match http.Status w with
  | Some code => code
  | None => http.StatusOK
  end.

End Passing.


(** The configuration [serveSetup] makes of a form. *)
Definition setup_config (form : http.Values) : NewConfig :=
  mkNewConfig
    (strings_Join (http.values_of form "podcastname") "")
    (strings_Join (http.values_of form "podcasthost") "")
    (strings_Join (http.values_of form "podcastemail") "")
    "" "" "".

(** A [NewConfig] read back as a [Config], field by field. *)
Definition as_Config (cnf : NewConfig) : Config :=
  mkConfig (NewConfig_Name cnf) (NewConfig_Host cnf) (NewConfig_Email cnf)
    (NewConfig_Description cnf) (NewConfig_Image cnf) (NewConfig_PodcastURL cnf).


(** ** Stand-ins for what the router calls, to run it on examples *)

Module Site.

Definition common : Common := {| RouterContext := unit; new_RouterContext := tt |}.

Definition status_text (code : Z) : string :=
  if code =? 200 then "OK"
  else if code =? 307 then "Temporary Redirect"
  else if code =? 400 then "Bad Request"
  else if code =? 401 then "Unauthorized"
  else if code =? 404 then "Not Found"
  else if code =? 500 then "Internal Server Error"
  else "".

Definition error_text (err : error) : string :=
  match err with
  | PathError op path => op +:+ " " +:+ path +:+ ": no such file or directory"
  | UnmarshalError msg | EncodeError msg | WatchError msg => msg
  | ParseError layout value => "parsing time " +:+ value
  end.

Definition redirect (w : http.ResponseWriter) (r : http.Request) (url : string) (code : Z)
    : http.ResponseWriter :=
  http.mkResponseWriter (<["Location" := [url]]> (http.Header w)) (Some code) (http.Body w).

(** A file is served as it is; a file that cannot be read is an
    Internal Server Error. *)
Definition read_and_serve (file : string) (w : http.ResponseWriter)
    : M (option HTTPError * http.ResponseWriter) :=
  fun world =>
    match files world !! file with
    | Some data => (Done (None, http.Write data w), world)
    | None =>
        (Done (Some (mkHTTPError ("error in reading: " +:+ file)
                       http.StatusInternalServerError), w), world)
    end.

(** The users file [{"alice":"secret"}]. *)
Definition users_json : string :=
  "{" +:+ Sample.member "alice" "secret" +:+ "}".

Definition users (d : string) : gmap string string :=
  if String.eqb d users_json then {["alice" := "secret"]} else ∅.

Definition marshal (cnf : NewConfig) : error + string :=
  inr ("{" +:+ Sample.member "Name" (NewConfig_Name cnf) +:+ ","
           +:+ Sample.member "Host" (NewConfig_Host cnf) +:+ ","
           +:+ Sample.member "Email" (NewConfig_Email cnf) +:+ ","
           +:+ Sample.member "Description" (NewConfig_Description cnf) +:+ ","
           +:+ Sample.member "Image" (NewConfig_Image cnf) +:+ ","
           +:+ Sample.member "PodcastURL" (NewConfig_PodcastURL cnf) +:+ "}").

(** Nobody is logged in. *)
Definition unauthorized : @Handler common :=
  fun rc w r => ret (Some (mkHTTPError "not logged in" http.StatusUnauthorized), rc, w).

Definition done : @Handler common := fun rc w r => ret (None, rc, http.Write "ok" w).

Definition web : @Web common :=
  {| StatusText := status_text;
     Printf_v := fun err => Println (Message err) (WatchError "http");
     Sprintf_v := error_text;
     Redirect := redirect;
     ReadAndServeFile := read_and_serve;
     DecryptCookie := fun _ => Some (WatchError "http: named cookie not present");
     CreateSession := fun username => inr ("POGO_SESSION=" +:+ username);
     Unmarshal_users := users;
     json_Marshal := marshal;
     RequireAuthorization := unauthorized;
     CreateEpisode := done;
     RemoveEpisode := done;
     CustomCss := done |}.

(** The same, where no session can be created. *)
Definition web_without_sessions : @Web common :=
  {| StatusText := status_text;
     Printf_v := fun err => Println (Message err) (WatchError "http");
     Sprintf_v := error_text;
     Redirect := redirect;
     ReadAndServeFile := read_and_serve;
     DecryptCookie := fun _ => Some (WatchError "http: named cookie not present");
     CreateSession := fun _ => inl (EncodeError "securecookie: the value is too long");
     Unmarshal_users := users;
     json_Marshal := marshal;
     RequireAuthorization := unauthorized;
     CreateEpisode := done;
     RemoveEpisode := done;
     CustomCss := done |}.

(** The setup form as a browser posts it. *)
Definition setup_form : http.Values :=
  <["podcastname" := ["Show"]]>
    (<["podcasthost" := ["Alice"]]>
       (<["podcastemail" := ["a@x.com"]]>
          (<["podcastdescription" := ["About things"]]> ∅))).

Definition post_setup : http.Request :=
  http.mkRequest "POST" "/setup" (None, setup_form) (None, setup_form).

Definition setup_json : string :=
  "{" +:+ Sample.member "Name" "Show" +:+ ","
      +:+ Sample.member "Host" "Alice" +:+ ","
      +:+ Sample.member "Email" "a@x.com" +:+ ","
      +:+ Sample.member "Description" "" +:+ ","
      +:+ Sample.member "Image" "" +:+ ","
      +:+ Sample.member "PodcastURL" "" +:+ "}".

(** Libraries that decode the configuration the setup form writes. *)
Definition libraries : Libraries :=
  {| json_Unmarshal := fun d =>
       if String.eqb d setup_json then inr (mkConfig "Show" "Alice" "a@x.com" "" "" "")
       else inl (UnmarshalError "invalid character");
     ToRss := Sample.Rss;
     ToJSON := Sample.Json |}.

Definition login_form (username password : string) : http.Values :=
  <["username" := [username]]> (<["password" := [password]]> ∅).

Definition post_login (username password : string) : http.Request :=
  http.mkRequest "POST" "/login" (None, login_form username password)
    (None, login_form username password).

(** The world of the examples, with the users file. *)
Definition world : World :=
  outside (PutFile "assets/config/users.json" users_json) Sample.world.

Definition blank : http.ResponseWriter := http.mkResponseWriter ∅ None "".

End Site.


(** * Properties *)

(** ** The library models on examples *)

Example Split_two : strings.Split "2024-01-15_Pilot.mp3" "_" = ["2024-01-15"; "Pilot.mp3"].
Proof. reflexivity. Qed.

Example Split_three :
  strings.Split "2024-01-15_My_Show.mp3" "_" = ["2024-01-15"; "My"; "Show.mp3"].
Proof. reflexivity. Qed.

Example Split_none : strings.Split "episode.mp3" "_" = ["episode.mp3"].
Proof. reflexivity. Qed.

Example Split_trailing : strings.Split "a_" "_" = ["a"; ""].
Proof. reflexivity. Qed.

Example Split_long_sep : strings.Split "a--b---c" "--" = ["a"; "b"; "-c"].
Proof. reflexivity. Qed.

Example Replace_once :
  strings.Replace "2024-01-15_Pilot.mp3" ".mp3" "_SHOWNOTES.md" 2
  = "2024-01-15_Pilot_SHOWNOTES.md".
Proof. reflexivity. Qed.

Example Replace_limit : strings.Replace "a.mp3.mp3.mp3" ".mp3" "!" 2 = "a!!.mp3".
Proof. reflexivity. Qed.

Example Sprintf_d_1000 : fmt.Sprintf_d 1000 = "1000".
Proof. reflexivity. Qed.

Example ParseDate_ok : time.ParseDate "2024-01-15" = inr (time.Date 2024 1 15 0 0 0 0).
Proof. reflexivity. Qed.

Example ParseDate_leap : time.ParseDate "2023-02-29" = inl (ParseError "2006-01-02" "2023-02-29").
Proof. reflexivity. Qed.

Example ParseDate_short : time.ParseDate "2024-1-15" = inl (ParseError "2006-01-02" "2024-1-15").
Proof. reflexivity. Qed.

(** ** Strings *)

Lemma HasPrefix_app (p s : string) : strings.HasPrefix (p +:+ s) p = true.
Proof.
  induction p as [|c p IH]; simpl.
  - now destruct s.
  - now rewrite Ascii.eqb_refl.
Qed.

Lemma HasPrefix_empty (s : string) : strings.HasPrefix s "" = true.
Proof. now destruct s. Qed.

Lemma Contains_HasPrefix (s sub : string) :
  strings.HasPrefix s sub = true -> strings.Contains s sub = true.
Proof. intros Hp. destruct s; cbn [strings.Contains]; rewrite Hp; reflexivity. Qed.

Lemma Contains_app (a sub b : string) : strings.Contains (a +:+ sub +:+ b) sub = true.
Proof.
  induction a as [|c a IH].
  - apply Contains_HasPrefix. exact (HasPrefix_app sub b).
  - simpl. rewrite IH. apply orb_true_r.
Qed.

Lemma has_byte_app (c : ascii) (a b : string) :
  has_byte c (a +:+ b) = has_byte c a || has_byte c b.
Proof.
  induction a as [|x a IH]; simpl; [reflexivity|].
  rewrite IH. apply orb_assoc.
Qed.

Lemma Contains_has_byte (c : ascii) (sub s : string) :
  has_byte c s = false -> strings.Contains s (String c sub) = false.
Proof.
  induction s as [|x s IH]; simpl; intros Hs; [reflexivity|].
  apply orb_false_iff in Hs as [Hx Hs].
  rewrite Hx, IH by assumption. reflexivity.
Qed.

Lemma genSplit_nonempty (sep : string) (k : nat) (s : string) : strings.genSplit sep k s <> [].
Proof.
  revert k. induction s as [|c s IH]; intros k; cbn [strings.genSplit]; [discriminate|].
  destruct k; [|apply IH].
  destruct (strings.HasPrefix (String c s) sep); [discriminate|].
  destruct (strings.genSplit sep 0 s); discriminate.
Qed.

(** Splitting on one byte: a string without it is one piece. *)
Lemma Split_byte_none (c : ascii) (s : string) :
  has_byte c s = false -> strings.Split s (String c "") = [s].
Proof.
  unfold strings.Split.
  induction s as [|x s IH]; simpl; intros Hs; [reflexivity|].
  apply orb_false_iff in Hs as [Hx Hs].
  rewrite Hx, IH by assumption. reflexivity.
Qed.

(** Splitting on one byte: the first piece ends at its first occurrence. *)
Lemma Split_byte_cut (c : ascii) (a b : string) :
  has_byte c a = false ->
  strings.Split (a +:+ String c b) (String c "") = a :: strings.Split b (String c "").
Proof.
  unfold strings.Split.
  induction a as [|x a IH]; simpl; intros Ha.
  - rewrite Ascii.eqb_refl, HasPrefix_empty. reflexivity.
  - apply orb_false_iff in Ha as [Hx Ha].
    rewrite Hx, IH by assumption. reflexivity.
Qed.

(** A split on a non-empty separator has a first piece. *)
Lemma Split_first (s : string) (c : ascii) (sep : string) :
  exists h t, strings.Split s (String c sep) = h :: t.
Proof.
  unfold strings.Split.
  destruct (strings.genSplit (String c sep) 0 s) eqn:E; [|eauto].
  now apply genSplit_nonempty in E.
Qed.

Lemma replaceN_skip (old new o b : string) (n : nat) :
  strings.replaceN old new n (String.length o) (o +:+ b) = strings.replaceN old new n 0 b.
Proof.
  induction o as [|x o IH]; simpl; [|exact IH].
  destruct b; reflexivity.
Qed.

(** Replacing [old]: the text before its first occurrence is kept when
    it does not hold the first byte of [old]. *)
Lemma replaceN_first (c : ascii) (old' new a b : string) (n : nat) :
  has_byte c a = false ->
  strings.replaceN (String c old') new (S n) 0 (a +:+ String c old' +:+ b)
  = a +:+ new +:+ strings.replaceN (String c old') new n 0 b.
Proof.
  induction a as [|x a IH]; intros Ha.
  - change ("" +:+ String c old' +:+ b) with (String c (old' +:+ b)).
    cbn [strings.replaceN]. cbn [strings.HasPrefix].
    rewrite Ascii.eqb_refl, HasPrefix_app. cbn [andb String.length].
    replace (S (String.length old') - 1)%nat with (String.length old') by lia.
    rewrite replaceN_skip. reflexivity.
  - simpl in Ha. apply orb_false_iff in Ha as [Hx Ha].
    change (String x a +:+ String c old' +:+ b) with (String x (a +:+ String c old' +:+ b)).
    cbn [strings.replaceN strings.HasPrefix]. rewrite Hx. cbn [andb].
    rewrite IH by assumption. reflexivity.
Qed.

(** The shownotes name of [<stem>.mp3], for a stem without a dot. *)
Lemma Replace_shownotes (stem : string) :
  has_byte "." stem = false ->
  strings.Replace (stem +:+ ".mp3") ".mp3" "_SHOWNOTES.md" 2 = stem +:+ "_SHOWNOTES.md".
Proof.
  intros Hs. unfold strings.Replace.
  change (String.eqb ".mp3" "_SHOWNOTES.md") with false. cbv iota.
  change (if 2 <? 0 then _ else Z.to_nat 2) with 2%nat.
  pose proof (replaceN_first "." "mp3" "_SHOWNOTES.md" stem "" 1 Hs) as E.
  cbn [strings.replaceN] in E. exact E.
Qed.

(** ** Dates *)

Lemma isDigit_neq (x c : ascii) :
  time.isDigit x = true -> time.isDigit c = false -> Ascii.eqb x c = false.
Proof.
  intros Hx Hc. destruct (Ascii.eqb x c) eqn:E; [|reflexivity].
  apply Ascii.eqb_eq in E. congruence.
Qed.

Lemma getyear_inv (s : string) (y : Z) (rest : string) :
  time.getyear s = Some (y, rest) ->
  exists a b c d, s = String a (String b (String c (String d rest)))
    /\ time.isDigit a = true /\ time.isDigit b = true
    /\ time.isDigit c = true /\ time.isDigit d = true.
Proof.
  destruct s as [|a [|b [|c [|d r]]]]; try discriminate. simpl.
  destruct (time.isDigit a) eqn:Ha, (time.isDigit b) eqn:Hb,
    (time.isDigit c) eqn:Hc, (time.isDigit d) eqn:Hd; try discriminate.
  intros [= _ ->]. exists a, b, c, d. auto.
Qed.

Lemma getnum2_inv (s : string) (n : Z) (rest : string) :
  time.getnum2 s = Some (n, rest) ->
  exists a b, s = String a (String b rest)
    /\ time.isDigit a = true /\ time.isDigit b = true.
Proof.
  destruct s as [|a [|b r]]; try discriminate. simpl.
  destruct (time.isDigit a) eqn:Ha, (time.isDigit b) eqn:Hb; try discriminate.
  intros [= _ ->]. exists a, b. auto.
Qed.

Lemma skip_dash_inv (s rest : string) : time.skip s "-" = Some rest -> s = String "-" rest.
Proof.
  destruct s as [|x s]; simpl; [discriminate|].
  destruct (Ascii.eqb x "-") eqn:E; [|discriminate].
  apply Ascii.eqb_eq in E. subst x. destruct s; intros [= ->]; reflexivity.
Qed.

(** A value that [time.ParseDate] accepts is ten bytes, digits and
    dashes: it holds no byte that is neither. *)
Lemma ParseDate_bytes (value : string) (t : time.Time) (c : ascii) :
  time.ParseDate value = inr t ->
  time.isDigit c = false -> Ascii.eqb "-" c = false ->
  has_byte c value = false.
Proof.
  unfold time.ParseDate. intros Hp Hc Hd.
  destruct (time.getyear value) as [[year v1]|] eqn:E1; [|discriminate].
  destruct (time.skip v1 "-") as [v2|] eqn:E2; [|discriminate].
  destruct (time.getnum2 v2) as [[month v3]|] eqn:E3; [|discriminate].
  destruct ((month <=? 0) || (12 <? month)); [discriminate|].
  destruct (time.skip v3 "-") as [v4|] eqn:E4; [|discriminate].
  destruct (time.getnum2 v4) as [[day v5]|] eqn:E5; [|discriminate].
  destruct v5 as [|x v5]; [|discriminate].
  apply getyear_inv in E1 as (y1 & y2 & y3 & y4 & -> & ? & ? & ? & ?).
  apply skip_dash_inv in E2 as ->.
  apply getnum2_inv in E3 as (m1 & m2 & -> & ? & ?).
  apply skip_dash_inv in E4 as ->.
  apply getnum2_inv in E5 as (d1 & d2 & -> & ? & ?).
  cbn [has_byte]. rewrite Hd.
  repeat (rewrite isDigit_neq by assumption). reflexivity.
Qed.

Lemma ParseDate_no_underscore (value : string) (t : time.Time) :
  time.ParseDate value = inr t -> has_byte "_" value = false.
Proof. intros Hp. now apply (ParseDate_bytes value t "_" Hp). Qed.

Lemma ParseDate_no_dot (value : string) (t : time.Time) :
  time.ParseDate value = inr t -> has_byte "." value = false.
Proof. intros Hp. now apply (ParseDate_bytes value t "." Hp). Qed.

(** ** The loop body, case by case *)

Lemma episode_cases (config : Config) (podcasturl : string) (file : FileInfo)
    (feed : feeds.Feed) (w : World) :
  let name := FileInfo_Name file in
  let s := strings.Split name "_" in
  episode config podcasturl file feed w =
    if strings.Contains name ".mp3" then
      match nth_error s 1 with
      | None => (Panic (IndexOutOfRange 1 (List.length s)), w)
      | Some s1 =>
      match nth_error (strings.Split s1 ".") 0 with
      | None => (Panic (IndexOutOfRange 0 (List.length (strings.Split s1 "."))), w)
      | Some title =>
      match files w !! shownotes name with
      | None => (Exit 1, add_log (Fatal (PathError "open" (shownotes name))) w)
      | Some description =>
      match nth_error s 0 with
      | None => (Panic (IndexOutOfRange 0 (List.length s)), w)
      | Some s0 =>
      match time.ParseDate s0 with
      | inl err => (Exit 1, add_log (Fatal err) w)
      | inr date =>
          let size := fmt.Sprintf_d (FileInfo_Size file) in
          let link := podcasturl +:+ "/download/" +:+ name in
          (Done (feeds.Add feed
                   (feeds.mkItem title
                      (feeds.mkLink link size "audio/mpeg")
                      (feeds.mkEnclosure link size "audio/mpeg")
                      description
                      (feeds.mkAuthor (Host config) (Email config))
                      date)), w)
      end end end end end
    else (Done feed, w).
Proof.
  intros name s. unfold episode. fold name. fold s.
  destruct (strings.Contains name ".mp3"); [|reflexivity].
  unfold bind, index, ret, panic, ioutil.ReadFile, or_Fatal, log_Fatal, log_print, bind.
  destruct (nth_error s 1) as [s1|]; [|reflexivity].
  destruct (nth_error (strings.Split s1 ".") 0) as [title|]; [|reflexivity].
  destruct (files w !! shownotes name) as [description|]; [|reflexivity].
  destruct (nth_error s 0) as [s0|]; [|reflexivity].
  destruct (time.ParseDate s0) as [err|date]; reflexivity.
Qed.

Lemma episode_skip (config : Config) (podcasturl : string) (file : FileInfo)
    (feed : feeds.Feed) (w : World) :
  audio file = false -> episode config podcasturl file feed w = (Done feed, w).
Proof. unfold audio. intros Hc. rewrite episode_cases. cbv zeta. now rewrite Hc. Qed.

Local Ltac dead_end :=
  split;
  [ let Hx := fresh in intros Hx; discriminate Hx
  | let Hx := fresh in intros [_ (? & Hx & _)]; discriminate Hx ].

(** The loop body returns exactly when it skips the entry or builds its
    [record]; the world is as before. *)
Lemma episode_Done (config : Config) (podcasturl : string) (file : FileInfo)
    (feed feed' : feeds.Feed) (w w' : World) :
  episode config podcasturl file feed w = (Done feed', w') <->
  w' = w /\
  if audio file
  then exists item, record config podcasturl (files w) file = Some item
                    /\ feed' = feeds.Add feed item
  else feed' = feed.
Proof.
  rewrite episode_cases. unfold record, audio. cbv zeta.
  destruct (strings.Contains (FileInfo_Name file) ".mp3").
  2:{ split; [intros [= <- <-]; auto | intros [-> ->]; reflexivity]. }
  destruct (nth_error (strings.Split (FileInfo_Name file) "_") 1) as [s1|];
    cbn [mbind option_bind]; [|dead_end].
  destruct (nth_error (strings.Split s1 ".") 0) as [title|];
    cbn [mbind option_bind]; [|dead_end].
  destruct (files w !! shownotes (FileInfo_Name file)) as [description|];
    cbn [mbind option_bind]; [|dead_end].
  destruct (nth_error (strings.Split (FileInfo_Name file) "_") 0) as [s0|];
    cbn [mbind option_bind]; [|dead_end].
  destruct (time.ParseDate s0) as [err|date]; [dead_end|].
  split.
  - intros [= <- <-]. eauto.
  - intros [-> (item & [= <-] & ->)]. reflexivity.
Qed.

(** When the loop body does not return, nothing was written. *)
Lemma episode_stopped (config : Config) (podcasturl : string) (file : FileInfo)
    (feed : feeds.Feed) (w w' : World) (o : outcome feeds.Feed) :
  episode config podcasturl file feed w = (o, w') ->
  (exists feed', o = Done feed' /\ w' = w) \/ stopped o w w'.
Proof.
  rewrite episode_cases. cbv zeta.
  repeat match goal with
         | |- context [match ?x with _ => _ end] => destruct x
         | |- context [if ?x then _ else _] => destruct x
         end;
    intros [= <- <-]; simpl; eauto.
Qed.

(** ** The loop over the directory *)

Lemma Add_Items (feed : feeds.Feed) (item : feeds.Item) :
  feeds.Items (feeds.Add feed item) = feeds.Items feed ++ [item].
Proof. reflexivity. Qed.

Lemma assembled_Add (config : Config) (now : time.Time) (items : list feeds.Item)
    (item : feeds.Item) :
  feeds.Add (assembled config now items) item = assembled config now (items ++ [item]).
Proof. reflexivity. Qed.

(** When the records of all audio entries exist, the loop body returns
    on the first entry. *)
Lemma episode_needed (config : Config) (now : time.Time) (file : FileInfo)
    (items0 : list feeds.Item) (listing : list FileInfo) (items : list feeds.Item)
    (w w1 : World) (o : outcome feeds.Feed) :
  episode config (PodcastUrl config) file (assembled config now items0) w = (o, w1) ->
  Forall2 (fun file item => record config (PodcastUrl config) (files w) file = Some item)
    (List.filter audio (file :: listing)) items ->
  exists feed1, o = Done feed1.
Proof.
  intros E HF. cbn [List.filter] in HF.
  destruct (audio file) eqn:Ha.
  - inversion HF as [|? item ? items' Hr HF']; subst.
    assert (episode config (PodcastUrl config) file (assembled config now items0) w
            = (Done (feeds.Add (assembled config now items0) item), w)) as E2.
    { apply episode_Done. rewrite Ha. eauto. }
    rewrite E2 in E. injection E as <- _. eauto.
  - rewrite episode_skip in E by assumption. injection E as <- _. eauto.
Qed.

(** The loop returns exactly when every audio entry has a record; the
    feed then holds the records in the order of the listing, after the
    items it started with. *)
Lemma range_files_Done (config : Config) (now : time.Time) (listing : list FileInfo) :
  forall (items0 : list feeds.Item) (feed' : feeds.Feed) (w w' : World),
  range_files config (PodcastUrl config) listing (assembled config now items0) w
    = (Done feed', w') <->
  w' = w /\
  exists items,
    Forall2 (fun file item => record config (PodcastUrl config) (files w) file = Some item)
      (List.filter audio listing) items
    /\ feed' = assembled config now (items0 ++ items).
Proof.
  induction listing as [|file listing IH]; intros items0 feed' w w'.
  - cbn [range_files List.filter]. unfold ret. split.
    + intros [= <- <-]. split; [reflexivity|]. exists []. rewrite app_nil_r. auto.
    + intros [-> (items & HF & ->)]. inversion HF. now rewrite app_nil_r.
  - cbn [range_files List.filter]. unfold bind at 1.
    destruct (episode config (PodcastUrl config) file (assembled config now items0) w)
      as [[feed1|v|c] w1] eqn:E.
    + apply episode_Done in E as [-> E].
      destruct (audio file) eqn:Ha.
      * destruct E as (item & Hr & ->). rewrite assembled_Add, IH.
        split.
        -- intros [-> (items & HF & ->)]. split; [reflexivity|].
           exists (item :: items). rewrite <- app_assoc. split; [|reflexivity].
           constructor; assumption.
        -- intros [-> (items & HF & ->)]. split; [reflexivity|].
           inversion HF as [|? item' ? items' Hr' HF']; subst.
           assert (item' = item) as -> by congruence.
           exists items'. rewrite <- app_assoc. auto.
      * subst feed1. rewrite IH. reflexivity.
    + split; [intros Hx; discriminate Hx|].
      intros [-> (items & HF & ->)]. exfalso.
      destruct (episode_needed config now file items0 listing items w w1 _ E HF) as [? Hx].
      discriminate Hx.
    + split; [intros Hx; discriminate Hx|].
      intros [-> (items & HF & ->)]. exfalso.
      destruct (episode_needed config now file items0 listing items w w1 _ E HF) as [? Hx].
      discriminate Hx.
Qed.

(** When the loop does not return, nothing was written. *)
Lemma range_files_stopped (config : Config) (podcasturl : string) (listing : list FileInfo) :
  forall (feed : feeds.Feed) (w w' : World) (o : outcome feeds.Feed),
  range_files config podcasturl listing feed w = (o, w') ->
  (exists feed', o = Done feed' /\ w' = w) \/ stopped o w w'.
Proof.
  induction listing as [|file listing IH]; intros feed w w' o.
  - cbn [range_files]. unfold ret. intros [= <- <-]. eauto.
  - cbn [range_files]. unfold bind.
    destruct (episode config podcasturl file feed w) as [[feed1|v|c] w1] eqn:E.
    + apply episode_stopped in E as [(? & _ & ->)|[]]. apply IH.
    + apply episode_stopped in E as [(? & Hx & _)|Hs]; [discriminate Hx|].
      intros [= <- <-]. now right.
    + apply episode_stopped in E as [(? & Hx & _)|Hs]; [discriminate Hx|].
      intros [= <- <-]. now right.
Qed.

(** ** [GenerateRss], case by case *)

Section Rebuild.

Context `{Libraries}.

Lemma WriteFile_written (filename data : string) (w : World) :
  exists r, ioutil.WriteFile filename data w = (Done r, written filename data w).
Proof.
  unfold ioutil.WriteFile, written.
  destruct (decide (filename ∈ readonly w)); eauto.
Qed.

(** [GenerateRss] returns when the configuration decodes, the
    directory is listed, every audio entry has a record and both
    encoders succeed on the assembled feed; it has then written the two
    documents. *)
Lemma GenerateRss_returns (w : World) (d : string) (config : Config)
    (listing : list FileInfo) (items : list feeds.Item) (rss json : string) :
  files w !! "assets/config/config.json" = Some d ->
  json_Unmarshal d = inr config ->
  dirs w !! "podcasts" = Some listing ->
  Forall2 (fun file item => record config (PodcastUrl config) (files w) file = Some item)
    (List.filter audio listing) items ->
  ToRss (assembled config (clock w) items) = inr rss ->
  ToJSON (assembled config (clock w) items) = inr json ->
  GenerateRss w = (Done tt, published rss json w).
Proof.
  intros Ed Ej El HF Erss Ejson.
  assert (range_files config (PodcastUrl config) listing (assembled config (clock w) []) w
          = (Done (assembled config (clock w) items), w)) as Er.
  { apply range_files_Done. split; [reflexivity|]. exists items. auto. }
  unfold GenerateRss, published.
  unfold bind at 1. unfold ioutil.ReadFile at 1. rewrite Ed.
  unfold bind at 1. cbn [or_panic]. unfold ret at 1.
  unfold bind at 1. rewrite Ej. cbn [or_panic]. unfold ret at 1.
  unfold bind at 1. unfold time_Now.
  unfold bind at 1. unfold ioutil.ReadDir. rewrite El.
  unfold bind at 1. cbn [or_Fatal]. unfold ret at 1.
  unfold bind at 1.
  change (feeds.mkFeed (Name config) _ _ _ (clock w) _ [])
    with (assembled config (clock w) []).
  rewrite Er.
  unfold bind at 1. rewrite Erss. cbn [or_Fatal]. unfold ret at 1.
  unfold bind at 1. rewrite Ejson. cbn [or_Fatal]. unfold ret at 1.
  unfold bind at 1.
  destruct (WriteFile_written "assets/web/feed.rss" rss w) as [r1 ->].
  unfold bind at 1.
  destruct (WriteFile_written "assets/web/feed.json" json
              (written "assets/web/feed.rss" rss w)) as [r2 ->].
  reflexivity.
Qed.

(** Conversely, a [GenerateRss] that returned went through all of
    these. *)
Lemma GenerateRss_Done (w w' : World) (u : unit) :
  GenerateRss w = (Done u, w') ->
  exists d config listing items rss json,
    files w !! "assets/config/config.json" = Some d
    /\ json_Unmarshal d = inr config
    /\ dirs w !! "podcasts" = Some listing
    /\ Forall2 (fun file item => record config (PodcastUrl config) (files w) file = Some item)
         (List.filter audio listing) items
    /\ ToRss (assembled config (clock w) items) = inr rss
    /\ ToJSON (assembled config (clock w) items) = inr json
    /\ w' = published rss json w.
Proof.
  unfold GenerateRss, published.
  unfold bind at 1. unfold ioutil.ReadFile at 1.
  destruct (files w !! "assets/config/config.json") as [d|] eqn:Ed;
    [|intros Hx; discriminate Hx].
  unfold bind at 1. cbn [or_panic]. unfold ret at 1.
  unfold bind at 1.
  destruct (json_Unmarshal d) as [err|config] eqn:Ej; cbn [or_panic];
    [intros Hx; discriminate Hx|].
  unfold ret at 1. unfold bind at 1. unfold time_Now.
  unfold bind at 1. unfold ioutil.ReadDir.
  destruct (dirs w !! "podcasts") as [listing|] eqn:El;
    [|intros Hx; discriminate Hx].
  unfold bind at 1. cbn [or_Fatal]. unfold ret at 1.
  unfold bind at 1.
  change (feeds.mkFeed (Name config) _ _ _ (clock w) _ [])
    with (assembled config (clock w) []).
  destruct (range_files config (PodcastUrl config) listing (assembled config (clock w) []) w)
    as [[feed|v|c] w1] eqn:Er; [|intros Hx; discriminate Hx..].
  apply range_files_Done in Er as [-> (items & HF & ->)]. cbn [app].
  unfold bind at 1.
  destruct (ToRss (assembled config (clock w) items)) as [err|rss] eqn:Erss;
    [intros Hx; discriminate Hx|].
  cbn [or_Fatal]. unfold ret at 1. unfold bind at 1.
  destruct (ToJSON (assembled config (clock w) items)) as [err|json] eqn:Ejson;
    [intros Hx; discriminate Hx|].
  cbn [or_Fatal]. unfold ret at 1. unfold bind at 1.
  destruct (WriteFile_written "assets/web/feed.rss" rss w) as [r1 ->].
  unfold bind at 1.
  destruct (WriteFile_written "assets/web/feed.json" json
              (written "assets/web/feed.rss" rss w)) as [r2 ->].
  unfold ret. intros [= <-].
  exists d, config, listing, items, rss, json. auto 10.
Qed.

(** When [GenerateRss] does not return, nothing was written. *)
Lemma GenerateRss_stopped (w w' : World) (o : outcome unit) :
  GenerateRss w = (o, w') -> (exists u, o = Done u) \/ stopped o w w'.
Proof.
  unfold GenerateRss.
  unfold bind at 1. unfold ioutil.ReadFile at 1.
  destruct (files w !! "assets/config/config.json") as [d|] eqn:Ed.
  2:{ unfold bind, or_panic, panic. intros [= <- <-]. now right. }
  unfold bind at 1. cbn [or_panic]. unfold ret at 1.
  unfold bind at 1.
  destruct (json_Unmarshal d) as [err|config] eqn:Ej; cbn [or_panic].
  { unfold panic. intros [= <- <-]. now right. }
  unfold ret at 1. unfold bind at 1. unfold time_Now.
  unfold bind at 1. unfold ioutil.ReadDir.
  destruct (dirs w !! "podcasts") as [listing|] eqn:El.
  2:{ unfold bind, or_Fatal, log_Fatal, bind, log_print. intros [= <- <-].
      right. simpl. eauto. }
  unfold bind at 1. cbn [or_Fatal]. unfold ret at 1.
  unfold bind at 1.
  destruct (range_files _ _ _ _ w) as [[feed|v|c] w1] eqn:Er.
  2,3: apply range_files_stopped in Er as [(? & Hx & _)|Hs]; [discriminate Hx|];
       intros [= <- <-]; now right.
  apply range_files_stopped in Er as [(? & _ & ->)|[]].
  unfold bind at 1.
  destruct (ToRss feed) as [err|rss] eqn:Erss.
  { unfold or_Fatal, log_Fatal, bind, log_print. intros [= <- <-]. right. simpl. eauto. }
  cbn [or_Fatal]. unfold ret at 1. unfold bind at 1.
  destruct (ToJSON feed) as [err|json] eqn:Ejson.
  { unfold or_Fatal, log_Fatal, bind, log_print. intros [= <- <-]. right. simpl. eauto. }
  cbn [or_Fatal]. unfold ret at 1. unfold bind at 1.
  destruct (WriteFile_written "assets/web/feed.rss" rss w) as [r1 ->].
  unfold bind at 1.
  destruct (WriteFile_written "assets/web/feed.json" json
              (written "assets/web/feed.rss" rss w)) as [r2 ->].
  unfold ret. intros [= <- _]. eauto.
Qed.

End Rebuild.

(** ** The configuration loader *)

Section Loader.

Context `{Libraries}.

(** C8: when the configuration file cannot be read, [GenerateRss]
    panics with the error of the read, and when its bytes do not decode,
    with the error of the decoder (the specification's
    [ConfigUnreadable] and [ConfigMalformed]); either way the world is
    left as it was: no configuration value is made up and nothing is
    published. *)
Theorem config_failure_stops_rebuild (w : World) :
  (files w !! "assets/config/config.json" = None ->
   GenerateRss w
   = (Panic (PanicError (PathError "open" "assets/config/config.json")), w))
  /\ (forall (d : string) (err : error),
        files w !! "assets/config/config.json" = Some d ->
        json_Unmarshal d = inl err ->
        GenerateRss w = (Panic (PanicError err), w)).
Proof.
  split.
  - intros Ed. unfold GenerateRss.
    unfold bind at 1. unfold ioutil.ReadFile at 1. rewrite Ed.
    reflexivity.
  - intros d err Ed Ej. unfold GenerateRss.
    unfold bind at 1. unfold ioutil.ReadFile at 1. rewrite Ed.
    unfold bind at 1. cbn [or_panic]. unfold ret at 1.
    unfold bind at 1. rewrite Ej. reflexivity.
Qed.

End Loader.

Lemma config_failure_stops_rebuild_witness :
  @GenerateRss Sample.libraries Sample.world_without_config
  = (Panic (PanicError (PathError "open" "assets/config/config.json")),
     Sample.world_without_config)
  /\ @GenerateRss Sample.libraries Sample.world_bad_config
     = (Panic (PanicError (UnmarshalError "invalid character")), Sample.world_bad_config).
Proof.
  split.
  - apply (proj1 (@config_failure_stops_rebuild Sample.libraries Sample.world_without_config)).
    vm_compute. reflexivity.
  - apply (proj2 (@config_failure_stops_rebuild Sample.libraries Sample.world_bad_config)
             "not json").
    + vm_compute. reflexivity.
    + vm_compute. reflexivity.
Defined.

(** ** Records *)

(** What a record is made of. *)
Lemma record_Some (config : Config) (podcasturl : string) (fs : gmap string string)
    (file : FileInfo) (item : feeds.Item) :
  record config podcasturl fs file = Some item ->
  exists s1 title description s0 date,
    nth_error (strings.Split (FileInfo_Name file) "_") 1 = Some s1
    /\ nth_error (strings.Split s1 ".") 0 = Some title
    /\ fs !! shownotes (FileInfo_Name file) = Some description
    /\ nth_error (strings.Split (FileInfo_Name file) "_") 0 = Some s0
    /\ time.ParseDate s0 = inr date
    /\ item = feeds.mkItem title
                (feeds.mkLink (podcasturl +:+ "/download/" +:+ FileInfo_Name file)
                   (fmt.Sprintf_d (FileInfo_Size file)) "audio/mpeg")
                (feeds.mkEnclosure (podcasturl +:+ "/download/" +:+ FileInfo_Name file)
                   (fmt.Sprintf_d (FileInfo_Size file)) "audio/mpeg")
                description
                (feeds.mkAuthor (Host config) (Email config))
                date.
Proof.
  unfold record. cbv zeta.
  destruct (nth_error (strings.Split (FileInfo_Name file) "_") 1) as [s1|] eqn:E1;
    cbn [mbind option_bind]; [|intros Hx; discriminate Hx].
  destruct (nth_error (strings.Split s1 ".") 0) as [title|] eqn:E2;
    cbn [mbind option_bind]; [|intros Hx; discriminate Hx].
  destruct (fs !! shownotes (FileInfo_Name file)) as [description|] eqn:E3;
    cbn [mbind option_bind]; [|intros Hx; discriminate Hx].
  destruct (nth_error (strings.Split (FileInfo_Name file) "_") 0) as [s0|] eqn:E4;
    cbn [mbind option_bind]; [|intros Hx; discriminate Hx].
  destruct (time.ParseDate s0) as [err|date] eqn:E5; [intros Hx; discriminate Hx|].
  intros [= <-]. exists s1, title, description, s0, date.
  repeat split; assumption || reflexivity.
Qed.

(** A record reads one file: the shownotes. *)
Lemma record_ext (config : Config) (podcasturl : string) (fs fs' : gmap string string)
    (file : FileInfo) :
  fs' !! shownotes (FileInfo_Name file) = fs !! shownotes (FileInfo_Name file) ->
  record config podcasturl fs' file = record config podcasturl fs file.
Proof. intros E. unfold record. now rewrite E. Qed.


(** Decimal printing loses nothing. *)
Lemma decimal_Sprintf_d (n : Z) : fmt.decimal (fmt.Sprintf_d n) = Some n.
Proof.
  unfold fmt.decimal, fmt.Sprintf_d.
  rewrite NilZero.isi.
  - cbn [option_map]. now rewrite DecimalZ.of_to.
  - destruct n; simpl; try discriminate.
    intros [= E]. now apply Unsigned.to_uint_nonnil in E.
  - destruct n; simpl; try discriminate.
    intros [= E]. now apply Unsigned.to_uint_nonnil in E.
Qed.

(** ** What the two writes leave behind *)

Lemma stopped_files {A : Type} (o : outcome A) (w w' : World) :
  stopped o w w' ->
  files w' = files w /\ dirs w' = dirs w /\ readonly w' = readonly w /\ clock w' = clock w.
Proof.
  destruct o as [a|v|c]; simpl.
  - intros [].
  - intros ->. auto.
  - intros [_ [err ->]]. auto.
Qed.

Lemma written_files (filename data : string) (w : World) (p : string) :
  files (written filename data w) !! p
  = if decide (filename = p /\ filename ∉ readonly w) then Some data else files w !! p.
Proof.
  unfold written.
  destruct (decide (filename ∈ readonly w)) as [Hr|Hr].
  - rewrite decide_False by tauto. reflexivity.
  - cbn [write_file files]. rewrite lookup_insert.
    destruct (decide (filename = p)) as [->|Hne].
    + rewrite decide_True by tauto. reflexivity.
    + rewrite decide_False by tauto. reflexivity.
Qed.

Lemma written_frame (filename data : string) (w : World) :
  dirs (written filename data w) = dirs w
  /\ readonly (written filename data w) = readonly w
  /\ clock (written filename data w) = clock w
  /\ logged (written filename data w) = logged w.
Proof. unfold written. destruct (decide (filename ∈ readonly w)); auto. Qed.

Lemma published_frame (rss json : string) (w : World) :
  dirs (published rss json w) = dirs w
  /\ readonly (published rss json w) = readonly w
  /\ clock (published rss json w) = clock w
  /\ logged (published rss json w) = logged w.
Proof.
  unfold published.
  destruct (written_frame "assets/web/feed.json" json (written "assets/web/feed.rss" rss w))
    as (-> & -> & -> & ->).
  apply written_frame.
Qed.

(** The two writes touch the two output paths only. *)
Lemma published_elsewhere (rss json : string) (w : World) (p : string) :
  p <> "assets/web/feed.rss" -> p <> "assets/web/feed.json" ->
  files (published rss json w) !! p = files w !! p.
Proof.
  intros H1 H2. unfold published. rewrite !written_files.
  rewrite !decide_False by (intros [E _]; congruence). reflexivity.
Qed.

Lemma published_rss (rss json : string) (w : World) :
  "assets/web/feed.rss" ∉ readonly w ->
  files (published rss json w) !! "assets/web/feed.rss" = Some rss.
Proof.
  intros Hw. unfold published. rewrite !written_files.
  rewrite decide_False by (intros [E _]; discriminate E).
  rewrite decide_True by auto. reflexivity.
Qed.

Lemma published_json (rss json : string) (w : World) :
  "assets/web/feed.json" ∉ readonly w ->
  files (published rss json w) !! "assets/web/feed.json" = Some json.
Proof.
  intros Hw. unfold published. rewrite written_files.
  destruct (written_frame "assets/web/feed.rss" rss w) as (_ & -> & _).
  rewrite decide_True by auto. reflexivity.
Qed.

(** ** The order of a listing *)

Lemma ltb_leb (s t : string) : String.ltb s t = negb (String.leb t s).
Proof.
  unfold String.ltb, String.leb. rewrite (String.compare_antisym s t).
  destruct (String.compare t s); reflexivity.
Qed.

Lemma String_leb_trans (s1 s2 s3 : string) :
  String.leb s1 s2 = true -> String.leb s2 s3 = true -> String.leb s1 s3 = true.
Proof.
  unfold String.leb. revert s2 s3.
  induction s1 as [|a s1 IH]; intros [|b s2] [|c s3]; cbn [String.compare]; try easy.
  change (Ascii.compare a b) with (N.compare (N_of_ascii a) (N_of_ascii b)).
  change (Ascii.compare b c) with (N.compare (N_of_ascii b) (N_of_ascii c)).
  change (Ascii.compare a c) with (N.compare (N_of_ascii a) (N_of_ascii c)).
  destruct (N.compare_spec (N_of_ascii a) (N_of_ascii b)) as [E1|E1|E1];
    destruct (N.compare_spec (N_of_ascii b) (N_of_ascii c)) as [E2|E2|E2];
    destruct (N.compare_spec (N_of_ascii a) (N_of_ascii c)) as [E3|E3|E3];
    try lia; try easy.
  apply IH.
Qed.

Lemma name_before_leb (a b : FileInfo) :
  name_before a b <-> String.leb (FileInfo_Name a) (FileInfo_Name b) = true.
Proof.
  unfold name_before. rewrite ltb_leb. destruct (String.leb _ _); cbn; split; congruence.
Qed.

Lemma name_before_trans (a b c : FileInfo) :
  name_before a b -> name_before b c -> name_before a c.
Proof. rewrite !name_before_leb. apply String_leb_trans. Qed.

Lemma insert_by_name_Permutation (file : FileInfo) (l : list FileInfo) :
  Permutation (file :: l) (insert_by_name file l).
Proof.
  induction l as [|x l IH]; cbn [insert_by_name]; [reflexivity|].
  destruct (String.ltb _ _); [reflexivity|].
  rewrite perm_swap. now apply perm_skip.
Qed.

(** Sorting loses and adds no entry. *)
Lemma by_name_Permutation (entries : list FileInfo) : Permutation entries (by_name entries).
Proof.
  induction entries as [|x l IH]; cbn [by_name fold_right]; [reflexivity|].
  rewrite <- insert_by_name_Permutation. now apply perm_skip.
Qed.

Lemma insert_by_name_sorted (file : FileInfo) (l : list FileInfo) :
  StronglySorted name_before l -> StronglySorted name_before (insert_by_name file l).
Proof.
  induction 1 as [|x l Hl IH Hx]; cbn [insert_by_name].
  - repeat constructor.
  - destruct (String.ltb (FileInfo_Name file) (FileInfo_Name x)) eqn:E.
    + assert (name_before file x) as Hfx.
      { apply name_before_leb. rewrite ltb_leb in E.
        destruct (String.leb_total (FileInfo_Name file) (FileInfo_Name x)) as [T|T]; [exact T|].
        rewrite T in E. discriminate E. }
      constructor; [now constructor|].
      constructor; [exact Hfx|].
      eapply List.Forall_impl; [|exact Hx]. intros y Hy. eapply name_before_trans; eassumption.
    + constructor; [exact IH|].
      eapply Permutation_Forall; [apply insert_by_name_Permutation|].
      constructor; [exact E | exact Hx].
Qed.

(** The listing is in ascending order of name. *)
Lemma by_name_sorted (entries : list FileInfo) : StronglySorted name_before (by_name entries).
Proof.
  induction entries as [|x l IH]; cbn [by_name fold_right]; [constructor|].
  now apply insert_by_name_sorted.
Qed.

Lemma StronglySorted_List_filter {A : Type} (R : A -> A -> Prop) (p : A -> bool) (l : list A) :
  StronglySorted R l -> StronglySorted R (List.filter p l).
Proof.
  induction 1 as [|x l Hl IH Hx]; cbn [List.filter]; [constructor|].
  destruct (p x); [|exact IH].
  constructor; [exact IH|].
  rewrite List.Forall_forall in *. intros y Hy. apply Hx.
  apply List.filter_In in Hy. tauto.
Qed.

Lemma Permutation_List_filter {A : Type} (p : A -> bool) (l l' : list A) :
  Permutation l l' -> Permutation (List.filter p l) (List.filter p l').
Proof.
  induction 1 as [|x l l' _ IH|x y l|l l' l'' _ IH1 _ IH2]; cbn [List.filter].
  - reflexivity.
  - destruct (p x); [now apply perm_skip | exact IH].
  - destruct (p x), (p y); try reflexivity. apply perm_swap.
  - now rewrite IH1.
Qed.

(** ** The rebuild *)

Section Properties.

Context `{Libraries}.


(** C10: a [GenerateRss] that returns has encoded one feed value
    twice: the RSS document and the JSON document it has written are
    [ToRss] and [ToJSON] of the same feed, whose title, author and link
    are the configuration's and whose items are the records of the
    audio files, in order. *)
Theorem both_documents_encode_one_feed (w w' : World) (u : unit) :
  GenerateRss w = (Done u, w') ->
  exists (config : Config) (listing : list FileInfo) (feed : feeds.Feed) (rss json : string),
    ToRss feed = inr rss
    /\ ToJSON feed = inr json
    /\ w' = published rss json w
    /\ ("assets/web/feed.rss" ∉ readonly w ->
        files w' !! "assets/web/feed.rss" = Some rss)
    /\ ("assets/web/feed.json" ∉ readonly w ->
        files w' !! "assets/web/feed.json" = Some json)
    /\ (exists d, files w !! "assets/config/config.json" = Some d
                  /\ json_Unmarshal d = inr config)
    /\ dirs w !! "podcasts" = Some listing
    /\ feeds.Feed_Title feed = Name config
    /\ feeds.Feed_Author feed = feeds.mkAuthor (Host config) (Email config)
    /\ feeds.Feed_Link feed = feeds.mkLink (PodcastUrl config) "" ""
    /\ Forall2
         (fun file item => record config (PodcastUrl config) (files w) file = Some item)
         (List.filter audio listing) (feeds.Items feed).
Proof.
  intros E.
  apply GenerateRss_Done in E
    as (d & config & listing & items & rss & json & Ed & Ej & El & HF & Er & Eo & ->).
  exists config, listing, (assembled config (clock w) items), rss, json.
  repeat match goal with |- _ /\ _ => split end; try assumption; try reflexivity.
  - apply published_rss.
  - apply published_json.
  - exists d. auto.
Qed.

(** C5, as the code has it: the file system yields the entries of the
    episode directory in some order, [entries], and [ioutil.ReadDir]
    returns them sorted by name.  In the feed that a returning
    [GenerateRss] has encoded, the items are the records of the audio
    entries of that sorted listing, one for one and in its order: the
    audio files the file system yielded, each once, in ascending order of
    their names compared byte by byte, whatever the order the file system
    yielded them in.  [GenerateRss] itself sorts nothing. *)
Theorem episodes_in_name_order (w w' : World) (u : unit) (entries : list FileInfo) :
  dirs w !! "podcasts" = Some (by_name entries) ->
  GenerateRss w = (Done u, w') ->
  exists (config : Config) (feed : feeds.Feed) (rss json : string),
    ToRss feed = inr rss /\ ToJSON feed = inr json /\ w' = published rss json w
    /\ Forall2
         (fun file item => record config (PodcastUrl config) (files w) file = Some item)
         (List.filter audio (by_name entries)) (feeds.Items feed)
    /\ map (fun item => feeds.Href (feeds.Item_Link item)) (feeds.Items feed)
       = map (fun file => PodcastUrl config +:+ "/download/" +:+ FileInfo_Name file)
           (List.filter audio (by_name entries))
    /\ Permutation (List.filter audio entries) (List.filter audio (by_name entries))
    /\ StronglySorted name_before (List.filter audio (by_name entries)).
Proof.
  intros Hl E.
  apply GenerateRss_Done in E
    as (d & config & listing & items & rss & json & Ed & Ej & El & HF & Er & Eo & ->).
  rewrite Hl in El. injection El as <-.
  exists config, (assembled config (clock w) items), rss, json.
  repeat match goal with |- _ /\ _ => split end; try assumption; try reflexivity.
  - cbn [assembled feeds.Items].
    clear - HF. induction HF as [|file item files' items' Hr HF IH]; [reflexivity|].
    cbn [map]. rewrite IH.
    apply record_Some in Hr as (? & ? & ? & ? & ? & _ & _ & _ & _ & _ & ->).
    reflexivity.
  - apply Permutation_List_filter, by_name_Permutation.
  - apply StronglySorted_List_filter, by_name_sorted.
Qed.

(** C9: the item that the loop body builds for an audio file has as
    its link the base URL, then [/download/], then the file's name; its
    length is the file's size in decimal; its type is [audio/mpeg]; and
    its enclosure carries the same three.  In a [GenerateRss] that
    returns, the base URL is the configuration's [PodcastUrl] and the
    items of the encoded feed are these, one per audio file. *)
Theorem record_link_length_type (w w' : World) (u : unit) :
  (forall (config : Config) (podcasturl : string) (file : FileInfo)
          (feed feed' : feeds.Feed) (w0 w0' : World),
     audio file = true ->
     episode config podcasturl file feed w0 = (Done feed', w0') ->
     exists item,
       feed' = feeds.Add feed item
       /\ feeds.Href (feeds.Item_Link item)
          = podcasturl +:+ "/download/" +:+ FileInfo_Name file
       /\ feeds.Length (feeds.Item_Link item) = fmt.Sprintf_d (FileInfo_Size file)
       /\ fmt.decimal (feeds.Length (feeds.Item_Link item)) = Some (FileInfo_Size file)
       /\ feeds.Type_ (feeds.Item_Link item) = "audio/mpeg")
  /\ (GenerateRss w = (Done u, w') ->
      exists (config : Config) (listing : list FileInfo) (feed : feeds.Feed)
             (rss json : string),
        (exists d, files w !! "assets/config/config.json" = Some d
                   /\ json_Unmarshal d = inr config)
        /\ dirs w !! "podcasts" = Some listing
        /\ ToRss feed = inr rss /\ ToJSON feed = inr json /\ w' = published rss json w
        /\ Forall2
             (fun file item =>
                let link := PodcastUrl config +:+ "/download/" +:+ FileInfo_Name file in
                feeds.Href (feeds.Item_Link item) = link
                /\ feeds.Length (feeds.Item_Link item) = fmt.Sprintf_d (FileInfo_Size file)
                /\ fmt.decimal (feeds.Length (feeds.Item_Link item))
                   = Some (FileInfo_Size file)
                /\ feeds.Type_ (feeds.Item_Link item) = "audio/mpeg"
                /\ feeds.Item_Enclosure item
                   = feeds.mkEnclosure link (fmt.Sprintf_d (FileInfo_Size file)) "audio/mpeg")
             (List.filter audio listing) (feeds.Items feed)).
Proof.
  split.
  - intros config podcasturl file feed feed' w0 w0' Ha E.
    apply episode_Done in E as [_ E]. rewrite Ha in E. destruct E as (item & Hr & ->).
    exists item. split; [reflexivity|].
    apply record_Some in Hr as (? & ? & ? & ? & ? & _ & _ & _ & _ & _ & ->).
    cbn [feeds.Item_Link feeds.Href feeds.Length feeds.Type_].
    rewrite decimal_Sprintf_d. auto.
  - intros E.
    apply GenerateRss_Done in E
      as (d & config & listing & items & rss & json & Ed & Ej & El & HF & Er & Eo & ->).
    exists config, listing, (assembled config (clock w) items), rss, json.
    repeat match goal with |- _ /\ _ => split end; try assumption; try reflexivity.
    + exists d. auto.
    + cbn [assembled feeds.Items].
      clear - HF. induction HF as [|file item files' items' Hr HF IH]; constructor.
      * apply record_Some in Hr as (? & ? & ? & ? & ? & _ & _ & _ & _ & _ & ->).
        cbn [feeds.Item_Link feeds.Href feeds.Length feeds.Type_ feeds.Item_Enclosure].
        rewrite decimal_Sprintf_d. auto.
      * exact IH.
Qed.

End Properties.


Lemma both_documents_encode_one_feed_witness :
  let w := Sample.world in
  let w' := snd (@GenerateRss Sample.libraries w) in
  @GenerateRss Sample.libraries w = (Done tt, w')
  /\ exists (config : Config) (listing : list FileInfo) (feed : feeds.Feed) (rss json : string),
      Sample.Rss feed = inr rss
      /\ Sample.Json feed = inr json
      /\ w' = published rss json w
      /\ ("assets/web/feed.rss" ∉ readonly w ->
          files w' !! "assets/web/feed.rss" = Some rss)
      /\ ("assets/web/feed.json" ∉ readonly w ->
          files w' !! "assets/web/feed.json" = Some json)
      /\ (exists d, files w !! "assets/config/config.json" = Some d
                    /\ Sample.Unmarshal d = inr config)
      /\ dirs w !! "podcasts" = Some listing
      /\ feeds.Feed_Title feed = Name config
      /\ feeds.Feed_Author feed = feeds.mkAuthor (Host config) (Email config)
      /\ feeds.Feed_Link feed = feeds.mkLink (PodcastUrl config) "" ""
      /\ Forall2
           (fun file item => record config (PodcastUrl config) (files w) file = Some item)
           (List.filter audio listing) (feeds.Items feed).
Proof.
  intros w w'.
  assert (@GenerateRss Sample.libraries w = (Done tt, w')) as E
    by (vm_compute; reflexivity).
  split; [exact E|].
  exact (@both_documents_encode_one_feed Sample.libraries w w' tt E).
Defined.

Lemma episodes_in_name_order_witness :
  let w := Shelf.world in
  let w' := snd (@GenerateRss Sample.libraries w) in
  dirs w !! "podcasts" = Some (by_name Shelf.entries)
  /\ @GenerateRss Sample.libraries w = (Done tt, w')
  /\ exists (config : Config) (feed : feeds.Feed) (rss json : string),
      Sample.Rss feed = inr rss /\ Sample.Json feed = inr json
      /\ w' = published rss json w
      /\ Forall2
           (fun file item => record config (PodcastUrl config) (files w) file = Some item)
           (List.filter audio (by_name Shelf.entries)) (feeds.Items feed)
      /\ map (fun item => feeds.Href (feeds.Item_Link item)) (feeds.Items feed)
         = map (fun file => PodcastUrl config +:+ "/download/" +:+ FileInfo_Name file)
             (List.filter audio (by_name Shelf.entries))
      /\ Permutation (List.filter audio Shelf.entries)
           (List.filter audio (by_name Shelf.entries))
      /\ StronglySorted name_before (List.filter audio (by_name Shelf.entries)).
Proof.
  intros w w'.
  assert (dirs w !! "podcasts" = Some (by_name Shelf.entries)) as Hl
    by (vm_compute; reflexivity).
  assert (@GenerateRss Sample.libraries w = (Done tt, w')) as E
    by (vm_compute; reflexivity).
  split; [exact Hl|]. split; [exact E|].
  exact (@episodes_in_name_order Sample.libraries w w' tt Shelf.entries Hl E).
Defined.

(** C5, as the claim has it, fails: the file system yields
    [2024-01-15_Pilot.mp3] before [2024-01-15_My_Show.mp3];
    [ioutil.ReadDir] returns them sorted by name, and the feed that
    [GenerateRss] writes has the episode of [2024-01-15_My_Show.mp3]
    first.  The order of the records is not the order in which the file
    system lists the audio files. *)
Lemma name_order_not_filesystem_order :
  let w := Shelf.world in
  map FileInfo_Name (List.filter audio Shelf.entries)
  = ["2024-01-15_Pilot.mp3"; "2024-01-15_My_Show.mp3"; "2024-02-01_Vol.2.mp3"]
  /\ dirs w !! "podcasts" = Some (by_name Shelf.entries)
  /\ map FileInfo_Name (List.filter audio (by_name Shelf.entries))
     = ["2024-01-15_My_Show.mp3"; "2024-01-15_Pilot.mp3"; "2024-02-01_Vol.2.mp3"]
  /\ Forall2
       (fun file item => record Sample.config "https://x.com" (files w) file = Some item)
       (List.filter audio (by_name Shelf.entries)) Shelf.items
  /\ (exists rss json : string,
        Sample.Rss (assembled Sample.config (clock w) Shelf.items) = inr rss
        /\ Sample.Json (assembled Sample.config (clock w) Shelf.items) = inr json
        /\ @GenerateRss Sample.libraries w = (Done tt, published rss json w))
  /\ map feeds.Item_Title Shelf.items = ["My"; "Pilot"; "Vol"]
  /\ map (fun item => feeds.Href (feeds.Item_Link item)) Shelf.items
     <> map (fun file => "https://x.com/download/" +:+ FileInfo_Name file)
          (List.filter audio Shelf.entries)
  /\ ~ Forall2
         (fun file item => record Sample.config "https://x.com" (files w) file = Some item)
         (List.filter audio Shelf.entries) Shelf.items.
Proof.
  intros w.
  split; [vm_compute; reflexivity|].
  split; [vm_compute; reflexivity|].
  split; [vm_compute; reflexivity|].
  split.
  { change (List.filter audio (by_name Shelf.entries))
      with [Sample.my_show; Sample.pilot; Sample.vol_2].
    repeat constructor; vm_compute; reflexivity. }
  split.
  { eexists. eexists. split; [reflexivity|]. split; [reflexivity|].
    vm_compute. reflexivity. }
  split; [reflexivity|].
  split.
  { intros Hx. vm_compute in Hx. discriminate Hx. }
  intros HF. inversion HF as [|file item l l' Hr _]; subst.
  vm_compute in Hr. discriminate Hr.
Qed.

Lemma record_link_length_type_witness :
  let w := Sample.world in
  let w' := snd (@GenerateRss Sample.libraries w) in
  (exists item,
     feeds.Add Sample.empty_feed Sample.pilot_item = feeds.Add Sample.empty_feed item
     /\ feeds.Href (feeds.Item_Link item) = "https://x.com/download/2024-01-15_Pilot.mp3"
     /\ feeds.Length (feeds.Item_Link item) = "1000"
     /\ fmt.decimal (feeds.Length (feeds.Item_Link item)) = Some 1000
     /\ feeds.Type_ (feeds.Item_Link item) = "audio/mpeg")
  /\ @GenerateRss Sample.libraries w = (Done tt, w')
  /\ exists (config : Config) (listing : list FileInfo) (feed : feeds.Feed) (rss json : string),
      (exists d, files w !! "assets/config/config.json" = Some d
                 /\ Sample.Unmarshal d = inr config)
      /\ dirs w !! "podcasts" = Some listing
      /\ Sample.Rss feed = inr rss /\ Sample.Json feed = inr json
      /\ w' = published rss json w
      /\ Forall2
           (fun file item =>
              let link := PodcastUrl config +:+ "/download/" +:+ FileInfo_Name file in
              feeds.Href (feeds.Item_Link item) = link
              /\ feeds.Length (feeds.Item_Link item) = fmt.Sprintf_d (FileInfo_Size file)
              /\ fmt.decimal (feeds.Length (feeds.Item_Link item)) = Some (FileInfo_Size file)
              /\ feeds.Type_ (feeds.Item_Link item) = "audio/mpeg"
              /\ feeds.Item_Enclosure item
                 = feeds.mkEnclosure link (fmt.Sprintf_d (FileInfo_Size file)) "audio/mpeg")
           (List.filter audio listing) (feeds.Items feed).
Proof.
  intros w w'.
  assert (@GenerateRss Sample.libraries w = (Done tt, w')) as E
    by (vm_compute; reflexivity).
  split; [|split; [exact E|]].
  - apply (proj1 (@record_link_length_type Sample.libraries w w' tt)
             Sample.config "https://x.com" Sample.pilot Sample.empty_feed _ w w).
    + reflexivity.
    + vm_compute. reflexivity.
  - exact (proj2 (@record_link_length_type Sample.libraries w w' tt) E).
Defined.

(** ** Titles and dates from file names *)

Lemma append_assoc (a b c : string) : (a +:+ b) +:+ c = a +:+ (b +:+ c).
Proof.
  induction a as [|x a IH]; [reflexivity|].
  change (String x ((a +:+ b) +:+ c) = String x (a +:+ (b +:+ c))). now rewrite IH.
Qed.

Lemma append_nil_r (a : string) : a +:+ "" = a.
Proof.
  induction a as [|x a IH]; [reflexivity|].
  change (String x (a +:+ "") = String x a). now rewrite IH.
Qed.

(** Splitting on one byte: a prefix without that byte stays glued to the
    first piece of what follows. *)
Lemma Split_byte_glue (c : ascii) (a b : string) :
  has_byte c a = false ->
  exists h t, strings.Split b (String c "") = h :: t
              /\ strings.Split (a +:+ b) (String c "") = (a +:+ h) :: t.
Proof.
  intros Ha. induction a as [|x a IH].
  - destruct (Split_first b c "") as (h & t & E). exists h, t. auto.
  - cbn [has_byte] in Ha. apply orb_false_iff in Ha as [Hx Ha].
    destruct (IH Ha) as (h & t & E1 & E2). exists h, t. split; [assumption|].
    unfold strings.Split in *.
    change (String x a +:+ b) with (String x (a +:+ b)).
    change (String x a +:+ h) with (String x (a +:+ h)).
    cbn [strings.genSplit strings.HasPrefix].
    rewrite Hx, E2. reflexivity.
Qed.

(** In [<date>_<title><rest>] the split on underscores gives the date
    first, and the second piece starts with the title, which the split
    on dots then isolates. *)
Lemma Split_date_title (d t r : string) :
  has_byte "_" d = false ->
  has_byte "_" t = false -> has_byte "." t = false ->
  title_end r ->
  exists s1 rest,
    strings.Split (d +:+ "_" +:+ t +:+ r) "_" = d :: s1 :: rest
    /\ nth_error (strings.Split s1 ".") 0 = Some t.
Proof.
  intros Hd Ht Htd Hr.
  change (d +:+ "_" +:+ t +:+ r) with (d +:+ String "_" (t +:+ r)).
  rewrite Split_byte_cut by assumption.
  destruct (Split_byte_glue "_" t r Ht) as (h & rest & Er & ->).
  exists (t +:+ h), rest. split; [reflexivity|].
  assert (h = "" \/ exists h', h = String "." h') as [->|[h' ->]].
  { destruct Hr as [->|[[r' ->]|[r' ->]]].
    - injection Er as <- _. now left.
    - change ("_" +:+ r') with ("" +:+ String "_" r') in Er.
      rewrite Split_byte_cut in Er by reflexivity. injection Er as <- _. now left.
    - destruct (Split_byte_glue "_" "." r' eq_refl) as (h' & t' & _ & E2).
      rewrite E2 in Er. injection Er as <- _. right. now exists h'. }
  - rewrite append_nil_r, Split_byte_none by assumption. reflexivity.
  - rewrite Split_byte_cut by assumption. reflexivity.
Qed.

(** The record of a file, from the pieces of its name. *)
Lemma record_of_pieces (config : Config) (podcasturl : string) (fs : gmap string string)
    (file : FileInfo) (s0 s1 title description : string) (rest : list string)
    (date : time.Time) :
  strings.Split (FileInfo_Name file) "_" = s0 :: s1 :: rest ->
  nth_error (strings.Split s1 ".") 0 = Some title ->
  fs !! shownotes (FileInfo_Name file) = Some description ->
  time.ParseDate s0 = inr date ->
  record config podcasturl fs file
  = Some (feeds.mkItem title
            (feeds.mkLink (podcasturl +:+ "/download/" +:+ FileInfo_Name file)
               (fmt.Sprintf_d (FileInfo_Size file)) "audio/mpeg")
            (feeds.mkEnclosure (podcasturl +:+ "/download/" +:+ FileInfo_Name file)
               (fmt.Sprintf_d (FileInfo_Size file)) "audio/mpeg")
            description
            (feeds.mkAuthor (Host config) (Email config))
            date).
Proof.
  intros Es Et Ed Ep. unfold record. cbv zeta. rewrite Es.
  change (nth_error (s0 :: s1 :: rest) 1) with (Some s1).
  change (nth_error (s0 :: s1 :: rest) 0) with (Some s0).
  cbn [mbind option_bind]. rewrite Et. cbn [mbind option_bind]. rewrite Ed. cbn [mbind option_bind].
  rewrite Ep. reflexivity.
Qed.

(** A name without an underscore makes the loop body panic on [s[1]]. *)
Lemma episode_no_underscore (config : Config) (podcasturl : string) (file : FileInfo)
    (feed : feeds.Feed) (w : World) :
  audio file = true ->
  has_byte "_" (FileInfo_Name file) = false ->
  episode config podcasturl file feed w = (Panic (IndexOutOfRange 1 1), w).
Proof.
  unfold audio. intros Ha Hn. rewrite episode_cases. cbv zeta.
  rewrite Ha, Split_byte_none by assumption. reflexivity.
Qed.

Lemma HasPrefix_refl (s : string) : strings.HasPrefix s s = true.
Proof. induction s as [|c s IH]; simpl; [reflexivity|]. now rewrite Ascii.eqb_refl. Qed.

Lemma HasSuffix_Contains (s suffix : string) :
  HasSuffix s suffix = true -> strings.Contains s suffix = true.
Proof.
  induction s as [|c s IH]; cbn [HasSuffix]; intros Hs.
  - rewrite orb_false_r in Hs. apply String.eqb_eq in Hs as <-. reflexivity.
  - apply orb_true_iff in Hs as [Hs|Hs].
    + apply String.eqb_eq in Hs as <-. apply Contains_HasPrefix, HasPrefix_refl.
    + cbn [strings.Contains]. rewrite (IH Hs). apply orb_true_r.
Qed.

Lemma cut_None (c : ascii) (s : string) : cut c s = None -> has_byte c s = false.
Proof.
  induction s as [|x s IH]; cbn [cut has_byte]; [reflexivity|].
  destruct (Ascii.eqb x c); [intros Hx; discriminate Hx|].
  destruct (cut c s) as [[a b]|]; [intros Hx; discriminate Hx|].
  intros _. now rewrite IH.
Qed.

Lemma cut_Some (c : ascii) (s a b : string) :
  cut c s = Some (a, b) -> s = a +:+ String c b /\ has_byte c a = false.
Proof.
  revert a. induction s as [|x s IH]; intros a; cbn [cut]; [intros Hx; discriminate Hx|].
  destruct (Ascii.eqb x c) eqn:Ex.
  - intros [= <- <-]. apply Ascii.eqb_eq in Ex as ->. auto.
  - destruct (cut c s) as [[a' b']|]; [|intros Hx; discriminate Hx].
    intros [= <- <-]. destruct (IH a' eq_refl) as [-> Ha].
    cbn [has_byte]. rewrite Ex, Ha. auto.
Qed.

(** ** The extractor and the filename contract *)

(** C4, as the code has it: the name is split at every underscore; the
    date is the piece before the first one and the title is the piece
    between the first and the second (or the end of the name), up to its
    first dot. *)
Theorem title_is_second_piece (config : Config) (podcasturl : string) (file : FileInfo)
    (feed feed' : feeds.Feed) (w w' : World) (d t r : string) :
  FileInfo_Name file = d +:+ "_" +:+ t +:+ r ->
  has_byte "_" d = false ->
  has_byte "_" t = false -> has_byte "." t = false ->
  title_end r ->
  audio file = true ->
  episode config podcasturl file feed w = (Done feed', w') ->
  exists item, feed' = feeds.Add feed item
               /\ feeds.Item_Title item = t
               /\ time.ParseDate d = inr (feeds.Item_Created item).
Proof.
  intros En Hd Ht Htd Hr Ha E.
  apply episode_Done in E as [_ E]. rewrite Ha in E. destruct E as (item & Hrec & ->).
  exists item. split; [reflexivity|].
  destruct (Split_date_title d t r Hd Ht Htd Hr) as (s1 & rest & Es & Et).
  apply record_Some in Hrec
    as (s1' & title & description & s0 & date & E1 & E2 & _ & E0 & Ep & ->).
  rewrite En, Es in E1, E0. injection E1 as <-. injection E0 as <-.
  rewrite Et in E2. injection E2 as <-. auto.
Qed.

Lemma title_is_second_piece_witness :
  exists item,
    feeds.Add Sample.empty_feed
      (feeds.mkItem "My"
         (feeds.mkLink "https://x.com/download/2024-01-15_My_Show.mp3" "2000" "audio/mpeg")
         (feeds.mkEnclosure "https://x.com/download/2024-01-15_My_Show.mp3" "2000" "audio/mpeg")
         "Second" (feeds.mkAuthor "Alice" "a@x.com") (time.Date 2024 1 15 0 0 0 0))
    = feeds.Add Sample.empty_feed item
    /\ feeds.Item_Title item = "My"
    /\ time.ParseDate "2024-01-15" = inr (feeds.Item_Created item).
Proof.
  apply (title_is_second_piece Sample.config "https://x.com" Sample.my_show
           Sample.empty_feed _ Sample.world_more Sample.world_more
           "2024-01-15" "My" "_Show.mp3").
  - reflexivity.
  - reflexivity.
  - reflexivity.
  - reflexivity.
  - right. left. exists "Show.mp3". reflexivity.
  - reflexivity.
  - vm_compute. reflexivity.
Defined.

(** C4, as the claim has it, fails: the title of
    [2024-01-15_My_Show.mp3] is [My], not [My_Show]. *)
Lemma title_stops_at_second_underscore :
  exists item,
    episode Sample.config "https://x.com" Sample.my_show Sample.empty_feed Sample.world_more
    = (Done (feeds.Add Sample.empty_feed item), Sample.world_more)
    /\ feeds.Item_Title item = "My"
    /\ feeds.Item_Title item <> "My_Show".
Proof.
  eexists. split; [vm_compute; reflexivity|]. split; [reflexivity|]. discriminate.
Qed.

(** C6, as the code has it: for a name [<date>_<title>.mp3] whose
    date is valid, whose title holds neither an underscore nor a dot and
    whose shownotes are readable, the loop body adds exactly one item,
    with that title and that date; for an entry whose name does not
    contain [.mp3] it adds none. *)
Theorem dated_file_gives_one_record (config : Config) (podcasturl : string)
    (file : FileInfo) (feed : feeds.Feed) (w : World) (d t description : string)
    (date : time.Time) :
  FileInfo_Name file = d +:+ "_" +:+ t +:+ ".mp3" ->
  time.ParseDate d = inr date ->
  has_byte "_" t = false -> has_byte "." t = false ->
  files w !! ("podcasts/" +:+ d +:+ "_" +:+ t +:+ "_SHOWNOTES.md") = Some description ->
  (exists item,
     episode config podcasturl file feed w = (Done (feeds.Add feed item), w)
     /\ feeds.Items (feeds.Add feed item) = feeds.Items feed ++ [item]
     /\ feeds.Item_Title item = t
     /\ feeds.Item_Created item = date
     /\ feeds.Item_Description item = description)
  /\ (forall other : FileInfo,
        strings.Contains (FileInfo_Name other) ".mp3" = false ->
        episode config podcasturl other feed w = (Done feed, w)).
Proof.
  intros En Ep Ht Htd Ed. split; [|intros other Ho; now apply episode_skip].
  assert (has_byte "_" d = false) as Hd by (eapply ParseDate_no_underscore; eassumption).
  assert (has_byte "." d = false) as Hdd by (eapply ParseDate_no_dot; eassumption).
  assert (audio file = true) as Ha.
  { unfold audio. rewrite En.
    replace (d +:+ "_" +:+ t +:+ ".mp3") with ((d +:+ "_" +:+ t) +:+ ".mp3" +:+ "")
      by (now rewrite !append_assoc).
    apply Contains_app. }
  assert (shownotes (FileInfo_Name file) = "podcasts/" +:+ d +:+ "_" +:+ t +:+ "_SHOWNOTES.md")
    as Esn.
  { rewrite En.
    replace (d +:+ "_" +:+ t +:+ ".mp3") with ((d +:+ "_" +:+ t) +:+ ".mp3")
      by (now rewrite !append_assoc).
    rewrite Replace_shownotes.
    - now rewrite !append_assoc.
    - rewrite !has_byte_app, Hdd, Htd. reflexivity. }
  destruct (Split_date_title d t ".mp3" Hd Ht Htd) as (s1 & rest & Es & Et).
  { right. right. now exists "mp3". }
  rewrite <- En in Es. rewrite <- Esn in Ed.
  pose proof (record_of_pieces config podcasturl (files w) file d s1 t description rest date
                Es Et Ed Ep) as Hrec.
  eexists. split.
  - apply episode_Done. rewrite Ha. split; [reflexivity|]. eexists. split; [exact Hrec|].
    reflexivity.
  - repeat split; reflexivity.
Qed.

Lemma dated_file_gives_one_record_witness :
  (exists item,
     episode Sample.config "https://x.com" Sample.pilot Sample.empty_feed Sample.world
     = (Done (feeds.Add Sample.empty_feed item), Sample.world)
     /\ feeds.Items (feeds.Add Sample.empty_feed item) = feeds.Items Sample.empty_feed ++ [item]
     /\ feeds.Item_Title item = "Pilot"
     /\ feeds.Item_Created item = time.Date 2024 1 15 0 0 0 0
     /\ feeds.Item_Description item = "Welcome")
  /\ (forall other : FileInfo,
        strings.Contains (FileInfo_Name other) ".mp3" = false ->
        episode Sample.config "https://x.com" other Sample.empty_feed Sample.world
        = (Done Sample.empty_feed, Sample.world)).
Proof.
  apply (dated_file_gives_one_record Sample.config "https://x.com" Sample.pilot
           Sample.empty_feed Sample.world "2024-01-15" "Pilot" "Welcome"
           (time.Date 2024 1 15 0 0 0 0)).
  - reflexivity.
  - reflexivity.
  - reflexivity.
  - reflexivity.
  - vm_compute. reflexivity.
Defined.

(** C6, as the claim has it, fails: [2024-02-01_Vol.2.mp3] has a valid
    date and readable shownotes, and its record carries the title [Vol],
    not [Vol.2]. *)
Lemma dotted_title_is_cut :
  FileInfo_Name Sample.vol_2 = "2024-02-01" +:+ "_" +:+ "Vol.2" +:+ ".mp3"
  /\ time.ParseDate "2024-02-01" = inr (time.Date 2024 2 1 0 0 0 0)
  /\ files Sample.world_more !! shownotes (FileInfo_Name Sample.vol_2) = Some "Third"
  /\ exists item,
       episode Sample.config "https://x.com" Sample.vol_2 Sample.empty_feed Sample.world_more
       = (Done (feeds.Add Sample.empty_feed item), Sample.world_more)
       /\ feeds.Item_Title item = "Vol"
       /\ feeds.Item_Title item <> "Vol.2".
Proof.
  split; [reflexivity|]. split; [reflexivity|]. split; [vm_compute; reflexivity|].
  eexists. split; [vm_compute; reflexivity|]. split; [reflexivity|]. discriminate.
Qed.

(** C3, as the code has it: an entry whose name does not contain
    [.mp3] is skipped; an entry whose name ends in [.mp3] but breaks the
    rest of the contract (no underscore, or no valid date before the
    first one) stops the rebuild, so no record is built for it either;
    and whenever a record is built, its title and its date depend on the
    file name alone. *)
Theorem records_follow_file_names (config : Config) (podcasturl : string) (file : FileInfo)
    (feed : feeds.Feed) (w : World) :
  (audio file = false -> episode config podcasturl file feed w = (Done feed, w))
  /\ (HasSuffix (FileInfo_Name file) ".mp3" = true ->
      naming_contract (FileInfo_Name file) = false ->
      exists o w', episode config podcasturl file feed w = (o, w') /\ stopped o w w')
  /\ (forall (config2 : Config) (podcasturl2 : string) (file2 : FileInfo)
             (feed2 feed' feed2' : feeds.Feed) (w2 w' w2' : World),
        audio file = true ->
        FileInfo_Name file2 = FileInfo_Name file ->
        episode config podcasturl file feed w = (Done feed', w') ->
        episode config2 podcasturl2 file2 feed2 w2 = (Done feed2', w2') ->
        exists item item2,
          feed' = feeds.Add feed item /\ feed2' = feeds.Add feed2 item2
          /\ feeds.Item_Title item2 = feeds.Item_Title item
          /\ feeds.Item_Created item2 = feeds.Item_Created item).
Proof.
  split; [apply episode_skip|]. split.
  - intros Hs Hc.
    destruct (episode config podcasturl file feed w) as [o w'] eqn:E. exists o, w'.
    split; [reflexivity|].
    destruct (episode_stopped _ _ _ _ _ _ _ E) as [(feed' & -> & ->)|Hst]; [|assumption].
    exfalso. apply episode_Done in E as [_ E].
    unfold audio in E. rewrite (HasSuffix_Contains _ _ Hs) in E.
    destruct E as (item & Hrec & _).
    apply record_Some in Hrec as (s1 & ? & ? & s0 & date & E1 & _ & _ & E0 & Ep & _).
    unfold naming_contract in Hc. rewrite Hs in Hc. cbn [andb] in Hc.
    destruct (cut "_" (FileInfo_Name file)) as [[a b]|] eqn:Ec.
    + apply cut_Some in Ec as [En Ha].
      rewrite En, Split_byte_cut in E0 by assumption. injection E0 as <-.
      rewrite Ep in Hc. discriminate Hc.
    + apply cut_None in Ec. rewrite Split_byte_none in E1 by assumption.
      discriminate E1.
  - intros config2 podcasturl2 file2 feed2 feed' feed2' w2 w' w2' Ha En E E2.
    apply episode_Done in E as [_ E]. rewrite Ha in E. destruct E as (item & Hrec & ->).
    apply episode_Done in E2 as [_ E2]. unfold audio in E2, Ha. rewrite En, Ha in E2.
    destruct E2 as (item2 & Hrec2 & ->).
    exists item, item2. split; [reflexivity|]. split; [reflexivity|].
    apply record_Some in Hrec as (s1 & ? & ? & s0 & ? & E1 & Et & _ & E0 & Ep & ->).
    apply record_Some in Hrec2 as (s1' & ? & ? & s0' & ? & E1' & Et' & _ & E0' & Ep' & ->).
    rewrite En in E1', E0'. rewrite E1 in E1'. injection E1' as <-.
    rewrite E0 in E0'. injection E0' as <-.
    rewrite Et in Et'. injection Et' as <-.
    rewrite Ep in Ep'. injection Ep' as <-.
    auto.
Qed.

Lemma records_follow_file_names_witness :
  episode Sample.config "https://x.com" Sample.notes Sample.empty_feed Sample.world
  = (Done Sample.empty_feed, Sample.world)
  /\ (exists o w',
        episode Sample.config "https://x.com" Sample.unnamed Sample.empty_feed Sample.world
        = (o, w')
        /\ stopped o Sample.world w')
  /\ (exists item item2,
        feeds.Add Sample.empty_feed Sample.pilot_item = feeds.Add Sample.empty_feed item
        /\ feeds.Add Sample.empty_feed Sample.pilot_item = feeds.Add Sample.empty_feed item2
        /\ feeds.Item_Title item2 = feeds.Item_Title item
        /\ feeds.Item_Created item2 = feeds.Item_Created item).
Proof.
  split; [|split].
  - apply (proj1 (records_follow_file_names Sample.config "https://x.com" Sample.notes
                    Sample.empty_feed Sample.world)).
    reflexivity.
  - apply (proj1 (proj2 (records_follow_file_names Sample.config "https://x.com"
                           Sample.unnamed Sample.empty_feed Sample.world))).
    + reflexivity.
    + reflexivity.
  - apply (proj2 (proj2 (records_follow_file_names Sample.config "https://x.com"
                           Sample.pilot Sample.empty_feed Sample.world))
             Sample.config "https://x.com" Sample.pilot Sample.empty_feed
             _ _ Sample.world_with_backup Sample.world Sample.world_with_backup).
    + reflexivity.
    + reflexivity.
    + vm_compute. reflexivity.
    + vm_compute. reflexivity.
Defined.

(** C3, as the claim has it, fails: [2024-01-15_Pilot.mp3.bak] does not
    end in [.mp3], yet its name contains [.mp3], and with the shownotes
    that [strings.Replace] names for it the loop body builds a record. *)
Lemma backup_name_gets_record :
  naming_contract (FileInfo_Name Sample.pilot_bak) = false
  /\ shownotes (FileInfo_Name Sample.pilot_bak) = "podcasts/2024-01-15_Pilot_SHOWNOTES.md.bak"
  /\ exists item,
       episode Sample.config "https://x.com" Sample.pilot_bak Sample.empty_feed
         Sample.world_with_backup
       = (Done (feeds.Add Sample.empty_feed item), Sample.world_with_backup)
       /\ feeds.Item_Title item = "Pilot"
       /\ feeds.Href (feeds.Item_Link item) = "https://x.com/download/2024-01-15_Pilot.mp3.bak"
       /\ feeds.Add Sample.empty_feed item <> Sample.empty_feed.
Proof.
  split; [reflexivity|]. split; [reflexivity|].
  eexists. split; [vm_compute; reflexivity|].
  split; [reflexivity|]. split; [reflexivity|]. discriminate.
Qed.

(** ** Rebuilding twice *)

Lemma written_twice (filename data : string) (w : World) :
  written filename data (written filename data w) = written filename data w.
Proof.
  unfold written at 1.
  destruct (written_frame filename data w) as (_ & -> & _).
  destruct (decide (filename ∈ readonly w)) as [Hr|Hr]; [reflexivity|].
  unfold written. rewrite decide_False by assumption.
  unfold write_file. cbn [files dirs readonly clock logged].
  now rewrite insert_insert_eq.
Qed.

Lemma written_swap (f1 d1 f2 d2 : string) (w : World) :
  f1 <> f2 ->
  written f1 d1 (written f2 d2 w) = written f2 d2 (written f1 d1 w).
Proof.
  intros Hne. unfold written at 1 3.
  destruct (written_frame f2 d2 w) as (_ & -> & _).
  destruct (written_frame f1 d1 w) as (_ & -> & _).
  unfold written.
  destruct (decide (f1 ∈ readonly w)), (decide (f2 ∈ readonly w)); try reflexivity.
  unfold write_file. cbn [files dirs readonly clock logged].
  now rewrite insert_insert_ne.
Qed.

Lemma published_twice (rss json : string) (w : World) :
  published rss json (published rss json w) = published rss json w.
Proof.
  unfold published.
  rewrite (written_swap "assets/web/feed.rss" rss "assets/web/feed.json" json)
    by discriminate.
  now rewrite !written_twice.
Qed.

Lemma same_inputs_published (rss json : string) (w : World) :
  same_inputs w (published rss json w).
Proof.
  unfold same_inputs. repeat split.
  - now apply published_elsewhere.
  - now destruct (published_frame rss json w) as (-> & _).
  - intros name. now apply published_elsewhere.
  - now destruct (published_frame rss json w) as (_ & -> & _).
Qed.

Lemma stopped_not_Done {A : Type} (o : outcome A) (w w' : World) :
  stopped o w w' -> forall a, o <> Done a.
Proof. destruct o; simpl; [intros []|discriminate..]. Qed.

Section Twice.

Context `{Libraries}.

(** With the same inputs and the same clock, [GenerateRss] writes the
    same two documents. *)
Lemma GenerateRss_same_inputs (w w1 w2 : World) (u : unit) :
  GenerateRss w = (Done u, w1) ->
  same_inputs w w2 -> clock w2 = clock w ->
  exists rss json,
    w1 = published rss json w
    /\ GenerateRss w2 = (Done tt, published rss json w2).
Proof.
  intros E (Ec & Ed & Ef & Er) Et.
  apply GenerateRss_Done in E
    as (d & config & listing & items & rss & json & Hd & Hj & Hl & HF & Hr & Ho & ->).
  exists rss, json. split; [reflexivity|].
  apply (GenerateRss_returns w2 d config listing items rss json).
  - now rewrite Ec.
  - assumption.
  - now rewrite Ed.
  - clear - HF Ef. induction HF as [|file item l l' Hrec HF IH]; constructor; [|exact IH].
    rewrite <- Hrec. apply record_ext, Ef.
  - now rewrite Et.
  - now rewrite Et.
Qed.

(** C2, as the code has it: [GenerateRss] stamps the feed with the
    time of the rebuild, so it repeats itself when the clock reads the
    same: right after a rebuild that returned, a second one returns and
    leaves every file as the first left it; and from any world with the
    same configuration, directory and clock it writes the same two
    documents. *)
Theorem rebuild_twice_same_clock (w w1 : World) (u : unit) :
  GenerateRss w = (Done u, w1) ->
  GenerateRss w1 = (Done tt, w1)
  /\ (forall w2 : World,
        same_inputs w w2 -> clock w2 = clock w ->
        exists rss json,
          w1 = published rss json w
          /\ GenerateRss w2 = (Done tt, published rss json w2)).
Proof.
  intros E. split.
  - destruct (GenerateRss_Done w w1 u E)
      as (d & config & listing & items & rss & json & _ & _ & _ & _ & _ & _ & E1).
    assert (same_inputs w w1) as Hs by (subst w1; apply same_inputs_published).
    assert (clock w1 = clock w) as Ht
      by (subst w1; now destruct (published_frame rss json w) as (_ & _ & -> & _)).
    destruct (GenerateRss_same_inputs w w1 w1 u E Hs Ht) as (rss' & json' & E1' & E2).
    rewrite E2, E1'. now rewrite published_twice.
  - intros w2. now apply GenerateRss_same_inputs with (u := u).
Qed.

End Twice.

Lemma rebuild_twice_same_clock_witness :
  let w := Sample.world in
  let w1 := snd (@GenerateRss Sample.libraries w) in
  @GenerateRss Sample.libraries w = (Done tt, w1)
  /\ @GenerateRss Sample.libraries w1 = (Done tt, w1)
  /\ (forall w2 : World,
        same_inputs w w2 -> clock w2 = clock w ->
        exists rss json,
          w1 = published rss json w
          /\ @GenerateRss Sample.libraries w2 = (Done tt, published rss json w2)).
Proof.
  intros w w1.
  assert (@GenerateRss Sample.libraries w = (Done tt, w1)) as E
    by (vm_compute; reflexivity).
  split; [exact E|].
  exact (@rebuild_twice_same_clock Sample.libraries w w1 tt E).
Defined.

(** C2, as the claim has it, fails: with the configuration and the
    directory untouched, a rebuild one second after another writes a
    different [feed.rss], since the feed carries the time of its
    creation. *)
Lemma rebuild_depends_on_clock :
  let w1 := snd (@GenerateRss Sample.libraries Sample.world) in
  let w2 := snd (@GenerateRss Sample.libraries (outside (Tick Sample.later) w1)) in
  fst (@GenerateRss Sample.libraries Sample.world) = Done tt
  /\ fst (@GenerateRss Sample.libraries (outside (Tick Sample.later) w1)) = Done tt
  /\ same_inputs Sample.world (outside (Tick Sample.later) w1)
  /\ files w2 !! "assets/web/feed.rss" <> files w1 !! "assets/web/feed.rss".
Proof.
  intros w1 w2. split; [vm_compute; reflexivity|]. split; [vm_compute; reflexivity|].
  split.
  - assert (@GenerateRss Sample.libraries Sample.world = (Done tt, w1)) as E
      by (vm_compute; reflexivity).
    apply GenerateRss_Done in E as (? & ? & ? & ? & rss & json & _ & _ & _ & _ & _ & _ & E).
    rewrite E. apply (same_inputs_published rss json Sample.world).
  - vm_compute. discriminate.
Qed.

(** ** The watch loop *)

Section Watch.

Context `{Libraries}.

(** Once the process has ended, the loop receives nothing more. *)
Lemma watch_loop_ended (trace : list step) (p : process) (received : nat) (w : World) :
  p <> Running -> watch_loop trace p received w = (p, received, drift trace w).
Proof.
  intros Hp. revert w. induction trace as [|s trace IH]; intros w; [reflexivity|].
  destruct s as [path data|path|path listing|now|m]; cbn [watch_loop drift fold_left];
    try apply IH.
  destruct p; [contradiction|apply IH..].
Qed.

(** A turn of the loop that does not return is a rebuild that was
    triggered by a write event. *)
Lemma serve_stopped (m : message) (w w' : World) (o : outcome unit) :
  serve m w = (o, w') -> (forall u, o <> Done u) ->
  exists event, m = FromEvents event
                /\ Z.land (fsnotify.Op event) fsnotify.Write = fsnotify.Write
                /\ GenerateRss w = (o, w').
Proof.
  destruct m as [event|err]; cbn [serve].
  - destruct (Z.land (fsnotify.Op event) fsnotify.Write =? fsnotify.Write) eqn:Eop.
    + intros E _. exists event. apply Z.eqb_eq in Eop. auto.
    + unfold ret. intros [= <- _] Ho. now destruct (Ho tt).
  - unfold log_Println, log_print. intros [= <- _] Ho. now destruct (Ho tt).
Qed.

(** C1, as the code has it: a rebuild that meets an error does not
    return to the loop.  It was triggered by a write event; it has
    written no file; it ended the process, by a panic (a configuration
    error, or a name without an underscore) that the logger does not
    print, or by [log.Fatal], which prints the error and exits with
    status 1; and the loop receives none of the messages that follow. *)
Theorem failed_rebuild_ends_watch (m : message) (w w' : World) (o : outcome unit)
    (trace : list step) (received : nat) :
  serve m w = (o, w') ->
  (forall u, o <> Done u) ->
  (exists event, m = FromEvents event
                 /\ Z.land (fsnotify.Op event) fsnotify.Write = fsnotify.Write
                 /\ GenerateRss w = (o, w'))
  /\ files w' = files w
  /\ ((exists v, o = Panic v /\ w' = w
                 /\ watch_loop (Deliver m :: trace) Running received w
                    = (Crashed v, S received, drift trace w'))
      \/ (exists err, o = Exit 1 /\ w' = add_log (Fatal err) w
                      /\ watch_loop (Deliver m :: trace) Running received w
                         = (Exited 1, S received, drift trace w'))).
Proof.
  intros E Ho.
  destruct (serve_stopped m w w' o E Ho) as (event & -> & Eop & Eg).
  split; [eauto|].
  destruct (GenerateRss_stopped w w' o Eg) as [[u ->]|Hs]; [now destruct (Ho u)|].
  split; [now apply stopped_files in Hs|].
  cbn [watch_loop]. rewrite E.
  destruct o as [u|v|code]; [now destruct (Ho u)| |].
  - left. exists v. simpl in Hs. subst w'.
    rewrite watch_loop_ended by discriminate. auto.
  - right. destruct Hs as [-> [err ->]]. exists err.
    rewrite watch_loop_ended by discriminate. auto.
Qed.

End Watch.

Lemma failed_rebuild_ends_watch_witness :
  let m := Sample.write_event Sample.config_path in
  let w := Sample.world_without_config in
  let o := Panic (PanicError (PathError "open" "assets/config/config.json")) in
  let trace := [PutFile Sample.config_path Sample.config_json; Deliver m] in
  (exists event, m = FromEvents event
                 /\ Z.land (fsnotify.Op event) fsnotify.Write = fsnotify.Write
                 /\ @GenerateRss Sample.libraries w = (o, w))
  /\ files w = files w
  /\ ((exists v, o = Panic v /\ w = w
                 /\ @watch_loop Sample.libraries (Deliver m :: trace) Running 0 w
                    = (Crashed v, 1%nat, drift trace w))
      \/ (exists err, o = Exit 1 /\ w = add_log (Fatal err) w
                      /\ @watch_loop Sample.libraries (Deliver m :: trace) Running 0 w
                         = (Exited 1, 1%nat, drift trace w))).
Proof.
  intros m w o trace.
  apply (@failed_rebuild_ends_watch Sample.libraries m w w o trace 0%nat).
  - vm_compute. reflexivity.
  - intros u. discriminate.
Defined.

(** C1, as the claim has it, fails: the configuration file is missing
    at a write event, the rebuild panics, and the process is gone: when
    the file is in place again and a second write event is delivered,
    the loop does not receive it and no feed is written, although a
    rebuild would now return. *)
Lemma watch_ends_with_failed_rebuild :
  let w := Sample.world_without_config in
  let end_ := @watch_loop Sample.libraries Sample.recovery Running 0 w in
  fst (@GenerateRss Sample.libraries w)
  = Panic (PanicError (PathError "open" "assets/config/config.json"))
  /\ fst (fst end_) = Crashed (PanicError (PathError "open" "assets/config/config.json"))
  /\ snd (fst end_) = 1%nat
  /\ logged (snd end_) = []
  /\ files (snd end_) !! "assets/web/feed.rss" = None
  /\ fst (@GenerateRss Sample.libraries (snd end_)) = Done tt
  /\ end_ <> @watch_loop Sample.libraries (tl Sample.recovery) Running 1
               (snd (@GenerateRss Sample.libraries w)).
Proof.
  intros w end_.
  split; [vm_compute; reflexivity|]. split; [vm_compute; reflexivity|].
  split; [vm_compute; reflexivity|]. split; [vm_compute; reflexivity|].
  split; [vm_compute; reflexivity|]. split; [vm_compute; reflexivity|].
  intros E. apply (f_equal (fun r => snd (fst r))) in E. vm_compute in E. discriminate E.
Qed.

(** * Further properties of [generate_rss.go] *)

(** ** What a rebuild touches *)

Lemma same_but_outputs_refl (w : World) : same_but_outputs w w.
Proof. intros p _. reflexivity. Qed.

Lemma same_but_outputs_trans (w1 w2 w3 : World) :
  same_but_outputs w1 w2 -> same_but_outputs w2 w3 -> same_but_outputs w1 w3.
Proof.
  intros F1 F2 p Hp. rewrite F2, F1 by assumption. reflexivity.
Qed.

Lemma same_but_outputs_published (rss json : string) (w : World) :
  same_but_outputs w (published rss json w).
Proof.
  intros p Hp. apply published_elsewhere; intros ->; apply Hp; [now left | now right].
Qed.

Section Touches.

Context `{Libraries}.

(** [GenerateRss] leaves alone what it reads. *)
Lemma GenerateRss_frame (w w' : World) (o : outcome unit) :
  GenerateRss w = (o, w') -> same_but_outputs w w'.
Proof.
  intros E.
  destruct (GenerateRss_stopped w w' o E) as [[u ->]|Hs].
  - apply GenerateRss_Done in E as (? & ? & ? & ? & rss & json & _ & _ & _ & _ & _ & _ & ->).
    apply same_but_outputs_published.
  - apply stopped_files in Hs as (F & _).
    intros p _. now rewrite F.
Qed.

(** X1: however it ends, by a return, a panic or [log.Fatal],
    [GenerateRss] leaves the content of every file other than
    [assets/web/feed.rss] and [assets/web/feed.json] as it was, and it
    logs nothing unless it ends in [log.Fatal], which logs one line. *)
Theorem GenerateRss_touches_outputs_only (w w' : World) (o : outcome unit) :
  GenerateRss w = (o, w') ->
  same_but_outputs w w'
  /\ (logged w' = logged w
      \/ exists err, o = Exit 1 /\ logged w' = logged w ++ [Fatal err]).
Proof.
  intros E.
  destruct (GenerateRss_stopped w w' o E) as [[u ->]|Hs].
  - apply GenerateRss_Done in E as (? & ? & ? & ? & rss & json & _ & _ & _ & _ & _ & _ & ->).
    split; [apply same_but_outputs_published|].
    left. now destruct (published_frame rss json w) as (_ & _ & _ & ->).
  - destruct o as [u|v|code]; simpl in Hs.
    + destruct Hs.
    + subst w'. split; [apply same_but_outputs_refl | now left].
    + destruct Hs as [-> [err ->]]. split.
      * intros p _. reflexivity.
      * right. exists err. auto.
Qed.

(** X2: with a configuration that decodes, an episode directory that
    cannot be listed ends the rebuild in [log.Fatal]: the error of
    [ioutil.ReadDir] is logged, the status is 1 and no file is written. *)
Theorem unreadable_directory_is_fatal (w : World) (d : string) (config : Config) :
  files w !! "assets/config/config.json" = Some d ->
  json_Unmarshal d = inr config ->
  dirs w !! "podcasts" = None ->
  GenerateRss w = (Exit 1, add_log (Fatal (PathError "open" "podcasts")) w).
Proof.
  intros Ed Ej El. unfold GenerateRss.
  unfold bind at 1. unfold ioutil.ReadFile at 1. rewrite Ed.
  unfold bind at 1. cbn [or_panic]. unfold ret at 1.
  unfold bind at 1. rewrite Ej. cbn [or_panic]. unfold ret at 1.
  unfold bind at 1. unfold time_Now.
  unfold bind at 1. unfold ioutil.ReadDir. rewrite El.
  reflexivity.
Qed.

(** X3: when an encoder fails on the assembled feed, the rebuild ends
    in [log.Fatal] with the encoder's error and neither file is written;
    a failure of [ToJSON] leaves [feed.rss] unwritten too, although the
    RSS document was already rendered. *)
Theorem encoder_failure_writes_nothing (w : World) (d : string) (config : Config)
    (listing : list FileInfo) (items : list feeds.Item) (err : error) :
  files w !! "assets/config/config.json" = Some d ->
  json_Unmarshal d = inr config ->
  dirs w !! "podcasts" = Some listing ->
  Forall2 (fun file item => record config (PodcastUrl config) (files w) file = Some item)
    (List.filter audio listing) items ->
  ToRss (assembled config (clock w) items) = inl err
  \/ ((exists rss, ToRss (assembled config (clock w) items) = inr rss)
      /\ ToJSON (assembled config (clock w) items) = inl err) ->
  GenerateRss w = (Exit 1, add_log (Fatal err) w)
  /\ files (add_log (Fatal err) w) = files w.
Proof.
  intros Ed Ej El HF He. split; [|reflexivity].
  assert (range_files config (PodcastUrl config) listing (assembled config (clock w) []) w
          = (Done (assembled config (clock w) items), w)) as Er.
  { apply range_files_Done. split; [reflexivity|]. exists items. auto. }
  unfold GenerateRss.
  unfold bind at 1. unfold ioutil.ReadFile at 1. rewrite Ed.
  unfold bind at 1. cbn [or_panic]. unfold ret at 1.
  unfold bind at 1. rewrite Ej. cbn [or_panic]. unfold ret at 1.
  unfold bind at 1. unfold time_Now.
  unfold bind at 1. unfold ioutil.ReadDir. rewrite El.
  unfold bind at 1. cbn [or_Fatal]. unfold ret at 1.
  unfold bind at 1.
  change (feeds.mkFeed (Name config) _ _ _ (clock w) _ [])
    with (assembled config (clock w) []).
  rewrite Er. unfold bind at 1.
  destruct He as [Erss|[[rss Erss] Ejson]].
  - rewrite Erss. reflexivity.
  - rewrite Erss. cbn [or_Fatal]. unfold ret at 1.
    unfold bind at 1. rewrite Ejson. reflexivity.
Qed.

(** X4: [GenerateRss] drops the errors of [ioutil.WriteFile].  When
    [feed.rss] cannot be opened for writing and [feed.json] can, a rebuild
    still returns and logs nothing: [feed.rss] keeps its old content next
    to the new [feed.json]. *)
Theorem write_failure_is_silent (w w' : World) (u : unit) :
  GenerateRss w = (Done u, w') ->
  "assets/web/feed.rss" ∈ readonly w ->
  "assets/web/feed.json" ∉ readonly w ->
  exists (feed : feeds.Feed) (rss json : string),
    ToRss feed = inr rss /\ ToJSON feed = inr json
    /\ files w' !! "assets/web/feed.rss" = files w !! "assets/web/feed.rss"
    /\ files w' !! "assets/web/feed.json" = Some json
    /\ logged w' = logged w.
Proof.
  intros E Hr Hj.
  apply GenerateRss_Done in E
    as (d & config & listing & items & rss & json & _ & _ & _ & _ & Er & Eo & ->).
  exists (assembled config (clock w) items), rss, json.
  split; [assumption|]. split; [assumption|]. split; [|split].
  - unfold published. rewrite !written_files.
    rewrite decide_False by (intros [Hx _]; discriminate Hx).
    rewrite decide_False by tauto. reflexivity.
  - now apply published_json.
  - now destruct (published_frame rss json w) as (_ & _ & _ & ->).
Qed.

End Touches.

Lemma GenerateRss_touches_outputs_only_witness :
  let w := Sample.world_without_notes in
  let r := @GenerateRss Sample.libraries w in
  same_but_outputs w (snd r)
  /\ (logged (snd r) = logged w
      \/ exists err, fst r = Exit 1 /\ logged (snd r) = logged w ++ [Fatal err]).
Proof.
  intros w r.
  apply (@GenerateRss_touches_outputs_only Sample.libraries w (snd r) (fst r)).
  vm_compute. reflexivity.
Defined.

Lemma unreadable_directory_is_fatal_witness :
  @GenerateRss Sample.libraries Cases.world_without_directory
  = (Exit 1, add_log (Fatal (PathError "open" "podcasts")) Cases.world_without_directory).
Proof.
  apply (@unreadable_directory_is_fatal Sample.libraries Cases.world_without_directory
           Sample.config_json Sample.config).
  - vm_compute. reflexivity.
  - vm_compute. reflexivity.
  - vm_compute. reflexivity.
Defined.

Lemma encoder_failure_writes_nothing_witness :
  @GenerateRss Cases.failing_json Sample.world
  = (Exit 1, add_log (Fatal (EncodeError "unsupported value")) Sample.world)
  /\ files (add_log (Fatal (EncodeError "unsupported value")) Sample.world)
     = files Sample.world.
Proof.
  apply (@encoder_failure_writes_nothing Cases.failing_json Sample.world
           Sample.config_json Sample.config [Sample.pilot; Sample.notes]
           [Sample.pilot_item]).
  - vm_compute. reflexivity.
  - vm_compute. reflexivity.
  - vm_compute. reflexivity.
  - change (List.filter audio [Sample.pilot; Sample.notes]) with [Sample.pilot].
    constructor; [vm_compute; reflexivity | constructor].
  - right. split; [eexists; reflexivity | reflexivity].
Defined.

Lemma write_failure_is_silent_witness :
  let w := Cases.world_locked_rss in
  let w' := snd (@GenerateRss Sample.libraries w) in
  @GenerateRss Sample.libraries w = (Done tt, w')
  /\ exists (feed : feeds.Feed) (rss json : string),
      Sample.Rss feed = inr rss /\ Sample.Json feed = inr json
      /\ files w' !! "assets/web/feed.rss" = files w !! "assets/web/feed.rss"
      /\ files w' !! "assets/web/feed.json" = Some json
      /\ logged w' = logged w.
Proof.
  intros w w'.
  assert (@GenerateRss Sample.libraries w = (Done tt, w')) as E
    by (vm_compute; reflexivity).
  split; [exact E|].
  apply (@write_failure_is_silent Sample.libraries w w' tt E).
  - vm_compute. reflexivity.
  - intros Hx. vm_compute in Hx. discriminate Hx.
Defined.

(** ** The loop over the directory, piece by piece *)

(** X5: the loop over [l1 ++ l2] is the loop over [l1] followed by the
    loop over [l2] on the feed built so far; when it stops in [l1], the
    entries of [l2] are not examined: the first entry that fails decides
    how the loop ends. *)
Theorem range_files_app (config : Config) (podcasturl : string) (l1 l2 : list FileInfo)
    (feed : feeds.Feed) (w : World) :
  range_files config podcasturl (l1 ++ l2) feed w
  = bind (range_files config podcasturl l1 feed) (range_files config podcasturl l2) w
  /\ (forall (o : outcome feeds.Feed) (w' : World),
        range_files config podcasturl l1 feed w = (o, w') ->
        (forall feed', o <> Done feed') ->
        range_files config podcasturl (l1 ++ l2) feed w = (o, w')).
Proof.
  assert (forall feed0 w0,
            range_files config podcasturl (l1 ++ l2) feed0 w0
            = bind (range_files config podcasturl l1 feed0)
                (range_files config podcasturl l2) w0) as Happ.
  { induction l1 as [|file l1 IH]; intros feed0 w0.
    - reflexivity.
    - cbn [app range_files]. unfold bind at 1 2 3.
      destruct (episode config podcasturl file feed0 w0) as [[feed1|v|c] w1];
        [|reflexivity..].
      rewrite IH. reflexivity. }
  split; [apply Happ|].
  intros o w' E Ho. rewrite Happ. unfold bind. rewrite E.
  destruct o as [feed'|v|c]; [now destruct (Ho feed')|reflexivity..].
Qed.

Section Quiet.

Context `{Libraries}.

(** X6: when no entry of the listing has [.mp3] in its name (an empty
    directory, shownotes only, or audio under another extension) and the
    encoders accept the feed, the rebuild returns and publishes a feed
    without items. *)
Theorem no_audio_empty_feed (w : World) (d : string) (config : Config)
    (listing : list FileInfo) (rss json : string) :
  files w !! "assets/config/config.json" = Some d ->
  json_Unmarshal d = inr config ->
  dirs w !! "podcasts" = Some listing ->
  (forall file, In file listing -> strings.Contains (FileInfo_Name file) ".mp3" = false) ->
  ToRss (assembled config (clock w) []) = inr rss ->
  ToJSON (assembled config (clock w) []) = inr json ->
  GenerateRss w = (Done tt, published rss json w)
  /\ feeds.Items (assembled config (clock w) []) = [].
Proof.
  intros Ed Ej El Hn Er Eo. split; [|reflexivity].
  apply (GenerateRss_returns w d config listing [] rss json); try assumption.
  assert (List.filter audio listing = []) as ->; [|constructor].
  clear - Hn. induction listing as [|file listing IH]; [reflexivity|].
  cbn [List.filter]. unfold audio at 1. rewrite (Hn file) by now left.
  apply IH. intros f Hf. apply Hn. now right.
Qed.

(** One message that triggers no rebuild. *)
Lemma serve_quiet (m : message) (w : World) :
  triggers m = false -> serve m w = (Done tt, add_logs (error_lines [m]) w).
Proof.
  destruct m as [event|err]; cbn [triggers serve error_lines]; intros Ht.
  - rewrite Ht. unfold ret, add_logs. rewrite app_nil_r. now destruct w.
  - reflexivity.
Qed.

(** X9: events whose [Op] lacks the [Write] bit (a file created,
    removed, renamed, or its mode changed) and errors of the watcher
    trigger no rebuild: the loop receives them all and keeps running, no
    file changes, and the log grows by one line per error, in order. *)
Theorem quiet_messages_keep_watching (ms : list message) (received : nat) (w : World) :
  forallb (fun m => negb (triggers m)) ms = true ->
  watch_loop (map Deliver ms) Running received w
  = (Running, (received + List.length ms)%nat, add_logs (error_lines ms) w).
Proof.
  revert received w. induction ms as [|m ms IH]; intros received w Hq.
  - cbn. rewrite Nat.add_0_r. unfold add_logs. rewrite app_nil_r. now destruct w.
  - cbn [forallb] in Hq. apply andb_true_iff in Hq as [Hm Hq].
    apply negb_true_iff in Hm.
    cbn [map watch_loop]. rewrite (serve_quiet m w Hm).
    rewrite IH by assumption. f_equal; [f_equal; cbn [List.length]; lia|].
    unfold add_logs. cbn [files dirs readonly clock logged].
    rewrite <- app_assoc. f_equal.
    destruct m; reflexivity.
Qed.

Lemma same_but_outputs_outside (s : step) (w w' : World) :
  same_but_outputs w w' -> same_but_outputs (outside s w) (outside s w').
Proof.
  intros F p Hp.
  destruct s as [path data|path|path listing|now|m];
    cbn [outside write_file files]; try (now apply F).
  - rewrite !lookup_insert. case_decide; [reflexivity | now apply F].
  - rewrite !lookup_delete. case_decide; [reflexivity | now apply F].
Qed.

Lemma serve_touches_outputs_only (m : message) (w w' : World) (o : outcome unit) :
  serve m w = (o, w') -> same_but_outputs w w'.
Proof.
  destruct m as [event|err]; cbn [serve].
  - destruct (Z.land (fsnotify.Op event) fsnotify.Write =? fsnotify.Write).
    + intros E. now apply GenerateRss_frame in E.
    + unfold ret. intros [= _ <-]. apply same_but_outputs_refl.
  - unfold log_Println, log_print. intros [= _ <-].
    intros p _. reflexivity.
Qed.

(** X10: the loop of [watch] never changes the files it reads.  At the
    end of any trace of messages and of changes made by others, the
    content of every file other than [assets/web/feed.rss] and
    [assets/web/feed.json] is what the changes of the others alone would
    have made it, however many rebuilds ran and however the process
    ended. *)
Theorem watch_touches_outputs_only (trace : list step) (p p' : process)
    (received received' : nat) (w w' : World) :
  watch_loop trace p received w = (p', received', w') ->
  same_but_outputs (drift trace w) w'.
Proof.
  assert (forall wd wa p0 n0,
            same_but_outputs wd wa ->
            watch_loop trace p0 n0 wa = (p', received', w') ->
            same_but_outputs (drift trace wd) w') as Hgen.
  { induction trace as [|s trace IH]; intros wd wa p0 n0 Hs E.
    - cbn [watch_loop] in E. injection E as _ _ <-. exact Hs.
    - assert (forall wa', same_but_outputs (outside s wd) wa' ->
                forall p1 n1, watch_loop trace p1 n1 wa' = (p', received', w') ->
                same_but_outputs (drift (s :: trace) wd) w') as Hstep
        by (intros wa' Hs' p1 n1 E'; exact (IH _ _ _ _ Hs' E')).
      destruct s as [path data|path|path listing|now|m]; cbn [watch_loop] in E;
        try (eapply Hstep; [apply same_but_outputs_outside; exact Hs | exact E]).
      destruct p0.
      + destruct (serve m wa) as [[u|v|c] wa'] eqn:Em;
          (eapply Hstep; [|exact E]);
          cbn [outside];
          (eapply same_but_outputs_trans; [exact Hs|]);
          exact (serve_touches_outputs_only m wa wa' _ Em).
      + eapply Hstep; [exact Hs | exact E].
      + eapply Hstep; [exact Hs | exact E]. }
  intros E. exact (Hgen w w p received (same_but_outputs_refl w) E).
Qed.

End Quiet.

Lemma range_files_app_witness :
  range_files Sample.config "https://x.com" ([Sample.unnamed] ++ [Sample.pilot])
    Sample.empty_feed Sample.world
  = (Panic (IndexOutOfRange 1 1), Sample.world).
Proof.
  apply (proj2 (range_files_app Sample.config "https://x.com" [Sample.unnamed]
                  [Sample.pilot] Sample.empty_feed Sample.world)).
  - vm_compute. reflexivity.
  - intros feed'. discriminate.
Defined.

Lemma no_audio_empty_feed_witness :
  exists rss json,
    @GenerateRss Sample.libraries Scenes.world_notes_only
    = (Done tt, published rss json Scenes.world_notes_only)
    /\ feeds.Items (assembled Sample.config (clock Scenes.world_notes_only) []) = [].
Proof.
  eexists. eexists.
  apply (@no_audio_empty_feed Sample.libraries Scenes.world_notes_only
           Sample.config_json Sample.config [Sample.notes]).
  - vm_compute. reflexivity.
  - vm_compute. reflexivity.
  - vm_compute. reflexivity.
  - intros file [<-|[]]. reflexivity.
  - reflexivity.
  - reflexivity.
Defined.

Lemma quiet_messages_keep_watching_witness :
  @watch_loop Sample.libraries (map Deliver Scenes.quiet_messages) Running 0 Sample.world
  = (Running, 3%nat,
     add_logs [Println "error:" (WatchError "queue overflow")] Sample.world).
Proof.
  apply (@quiet_messages_keep_watching Sample.libraries Scenes.quiet_messages 0 Sample.world).
  reflexivity.
Defined.

Lemma watch_touches_outputs_only_witness :
  let r := @watch_loop Sample.libraries Scenes.busy Running 0 Sample.world in
  fst (fst r) = Crashed (PanicError (PathError "open" "assets/config/config.json"))
  /\ snd (fst r) = 2%nat
  /\ same_but_outputs (drift Scenes.busy Sample.world) (snd r).
Proof.
  intros r. split; [vm_compute; reflexivity|]. split; [vm_compute; reflexivity|].
  apply (@watch_touches_outputs_only Sample.libraries Scenes.busy Running (fst (fst r))
           0 (snd (fst r)) Sample.world (snd r)).
  vm_compute. reflexivity.
Defined.

(** ** Dates in file names *)

Lemma isDigit_range (c : ascii) :
  time.isDigit c = true -> 0 <= time.digit c <= 9.
Proof.
  unfold time.isDigit, time.digit. intros Hc.
  apply andb_true_iff in Hc as [H1 H2].
  apply Nat.leb_le in H1, H2. lia.
Qed.

Lemma digit_char_digit (c : ascii) :
  time.isDigit c = true -> digit_char (time.digit c) = c.
Proof.
  intros Hc. pose proof (isDigit_range c Hc) as Hr.
  unfold digit_char, time.digit in *.
  replace (Z.to_nat (48 + (Z.of_nat (nat_of_ascii c) - 48))) with (nat_of_ascii c) by lia.
  apply ascii_nat_embedding.
Qed.

Lemma digit_char_isDigit (n : Z) :
  0 <= n <= 9 -> time.isDigit (digit_char n) = true /\ time.digit (digit_char n) = n.
Proof.
  intros Hn. rewrite <- (Z2Nat.id n) by lia.
  assert (Z.to_nat n < 10)%nat as Hm by lia.
  destruct (Z.to_nat n) as [|m]; [split; reflexivity|].
  do 9 (destruct m as [|m]; [split; reflexivity|]). lia.
Qed.

Lemma getnum2_value (s : string) (n : Z) (rest : string) :
  time.getnum2 s = Some (n, rest) -> 0 <= n <= 99 /\ s = two_digits n +:+ rest.
Proof.
  destruct s as [|a [|b r]]; try discriminate. cbn [time.getnum2].
  destruct (time.isDigit a) eqn:Ha, (time.isDigit b) eqn:Hb; try discriminate.
  cbn [andb]. intros [= <- <-].
  pose proof (isDigit_range a Ha) as Ra. pose proof (isDigit_range b Hb) as Rb.
  split; [lia|]. unfold two_digits.
  replace ((time.digit a * 10 + time.digit b) / 10) with (time.digit a)
    by (Z.div_mod_to_equations; lia).
  replace ((time.digit a * 10 + time.digit b) mod 10) with (time.digit b)
    by (Z.div_mod_to_equations; lia).
  rewrite !digit_char_digit by assumption. reflexivity.
Qed.

Lemma getyear_value (s : string) (n : Z) (rest : string) :
  time.getyear s = Some (n, rest) -> 0 <= n <= 9999 /\ s = four_digits n +:+ rest.
Proof.
  destruct s as [|a [|b [|c [|d r]]]]; try discriminate. cbn [time.getyear].
  destruct (time.isDigit a) eqn:Ha, (time.isDigit b) eqn:Hb,
    (time.isDigit c) eqn:Hc, (time.isDigit d) eqn:Hd; try discriminate.
  cbn [andb]. intros [= <- <-].
  pose proof (isDigit_range a Ha) as Ra. pose proof (isDigit_range b Hb) as Rb.
  pose proof (isDigit_range c Hc) as Rc. pose proof (isDigit_range d Hd) as Rd.
  split; [lia|]. unfold four_digits, two_digits.
  set (y := ((time.digit a * 10 + time.digit b) * 10 + time.digit c) * 10 + time.digit d).
  replace (y / 1000) with (time.digit a) by (subst y; Z.div_mod_to_equations; lia).
  replace (y / 100 mod 10) with (time.digit b) by (subst y; Z.div_mod_to_equations; lia).
  replace (y mod 100 / 10) with (time.digit c) by (subst y; Z.div_mod_to_equations; lia).
  replace (y mod 100 mod 10) with (time.digit d) by (subst y; Z.div_mod_to_equations; lia).
  rewrite !digit_char_digit by assumption. reflexivity.
Qed.

Lemma getnum2_two_digits (n : Z) (rest : string) :
  0 <= n <= 99 -> time.getnum2 (two_digits n +:+ rest) = Some (n, rest).
Proof.
  intros Hn. unfold two_digits.
  change (String ?a (String ?b "") +:+ rest) with (String a (String b rest)).
  cbn [time.getnum2].
  destruct (digit_char_isDigit (n / 10)) as [-> ->]; [Z.div_mod_to_equations; lia|].
  destruct (digit_char_isDigit (n mod 10)) as [-> ->]; [Z.div_mod_to_equations; lia|].
  cbn [andb]. do 2 f_equal. Z.div_mod_to_equations; lia.
Qed.

Lemma getyear_four_digits (n : Z) (rest : string) :
  0 <= n <= 9999 -> time.getyear (four_digits n +:+ rest) = Some (n, rest).
Proof.
  intros Hn. unfold four_digits, two_digits.
  change (String ?a (String ?b (String ?c (String ?d ""))) +:+ rest)
    with (String a (String b (String c (String d rest)))).
  cbn [time.getyear].
  destruct (digit_char_isDigit (n / 1000)) as [-> ->]; [Z.div_mod_to_equations; lia|].
  destruct (digit_char_isDigit (n / 100 mod 10)) as [-> ->]; [Z.div_mod_to_equations; lia|].
  destruct (digit_char_isDigit (n mod 100 / 10)) as [-> ->]; [Z.div_mod_to_equations; lia|].
  destruct (digit_char_isDigit (n mod 100 mod 10)) as [-> ->]; [Z.div_mod_to_equations; lia|].
  cbn [andb]. do 2 f_equal. Z.div_mod_to_equations; lia.
Qed.

(** What [time.ParseDate] accepts is the name of a calendar day, and it
    returns that day. *)
Lemma ParseDate_calendar_day (value : string) (t : time.Time) :
  time.ParseDate value = inr t ->
  calendar_day t /\ value = date_name (time.Year t) (time.Month t) (time.Day t).
Proof.
  unfold time.ParseDate. intros Hp.
  destruct (time.getyear value) as [[year v1]|] eqn:E1; [|discriminate].
  destruct (time.skip v1 "-") as [v2|] eqn:E2; [|discriminate].
  destruct (time.getnum2 v2) as [[month v3]|] eqn:E3; [|discriminate].
  destruct ((month <=? 0) || (12 <? month)) eqn:Em; [discriminate|].
  destruct (time.skip v3 "-") as [v4|] eqn:E4; [|discriminate].
  destruct (time.getnum2 v4) as [[day v5]|] eqn:E5; [|discriminate].
  destruct v5 as [|x v5]; [|discriminate]. cbn [String.length Nat.eqb negb] in Hp.
  destruct ((day <? 1) || (time.daysIn month year <? day)) eqn:Ed; [discriminate|].
  injection Hp as <-.
  apply orb_false_iff in Em as [Em1 Em2]. apply orb_false_iff in Ed as [Ed1 Ed2].
  apply Z.leb_gt in Em1. apply Z.ltb_ge in Em2, Ed1, Ed2.
  apply getyear_value in E1 as [Hy ->].
  apply skip_dash_inv in E2 as ->.
  apply getnum2_value in E3 as [_ ->].
  apply skip_dash_inv in E4 as ->.
  apply getnum2_value in E5 as [_ E5]. rewrite append_nil_r in E5. subst v4.
  split.
  - unfold calendar_day. cbn [time.Year time.Month time.Day time.Hour time.Minute
                              time.Second time.Nanosecond]. repeat split; lia.
  - cbn [time.Year time.Month time.Day]. unfold date_name. reflexivity.
Qed.

Lemma skip_dash (s : string) : time.skip ("-" +:+ s) "-" = Some s.
Proof. destruct s; reflexivity. Qed.

(** The name of a calendar day parses to that day. *)
Lemma ParseDate_date_name (year month day : Z) :
  0 <= year <= 9999 -> 1 <= month <= 12 -> 1 <= day <= time.daysIn month year ->
  time.ParseDate (date_name year month day) = inr (time.Date year month day 0 0 0 0).
Proof.
  intros Hy Hm Hd.
  assert (time.daysIn month year <= 31) as Hmax.
  { unfold time.daysIn. repeat match goal with |- context [if ?b then _ else _] => destruct b end; lia. }
  unfold time.ParseDate, date_name.
  rewrite getyear_four_digits by assumption.
  rewrite skip_dash.
  rewrite getnum2_two_digits by lia.
  replace ((month <=? 0) || (12 <? month)) with false
    by (symmetry; apply orb_false_iff; split; [apply Z.leb_gt | apply Z.ltb_ge]; lia).
  rewrite skip_dash.
  rewrite <- (append_nil_r (two_digits day)).
  rewrite getnum2_two_digits by lia.
  cbn [String.length Nat.eqb negb].
  replace ((day <? 1) || (time.daysIn month year <? day)) with false
    by (symmetry; apply orb_false_iff; split; apply Z.ltb_ge; lia).
  reflexivity.
Qed.

(** A split on one byte with at least two pieces: the string starts
    with the first piece and that byte. *)
Lemma Split_byte_two (c : ascii) (s a b : string) (rest : list string) :
  strings.Split s (String c "") = a :: b :: rest ->
  strings.HasPrefix s (a +:+ String c "") = true.
Proof.
  intros Es. destruct (cut c s) as [[a' b']|] eqn:Ec.
  - apply cut_Some in Ec as [-> Ha].
    rewrite Split_byte_cut in Es by assumption. injection Es as <- _.
    change (String c b') with (String c "" +:+ b').
    rewrite <- append_assoc. apply HasPrefix_app.
  - apply cut_None in Ec. rewrite Split_byte_none in Es by assumption. discriminate Es.
Qed.

Section Dates.

Context `{Libraries}.

(** X7: in the feed that a returning [GenerateRss] has encoded, the
    date of every item is midnight of a day of the calendar (the month in
    1..12, the day within the month, leap years counted), and the name of
    the item's file starts with that day written [YYYY-MM-DD] and an
    underscore. *)
Theorem item_dates_are_calendar_days (w w' : World) (u : unit) :
  GenerateRss w = (Done u, w') ->
  exists (listing : list FileInfo) (feed : feeds.Feed) (rss json : string),
    dirs w !! "podcasts" = Some listing
    /\ ToRss feed = inr rss /\ ToJSON feed = inr json /\ w' = published rss json w
    /\ Forall2
         (fun file item =>
            let t := feeds.Item_Created item in
            calendar_day t
            /\ strings.HasPrefix (FileInfo_Name file)
                 (date_name (time.Year t) (time.Month t) (time.Day t) +:+ "_") = true)
         (List.filter audio listing) (feeds.Items feed).
Proof.
  intros E.
  apply GenerateRss_Done in E
    as (d & config & listing & items & rss & json & _ & _ & El & HF & Er & Eo & ->).
  exists listing, (assembled config (clock w) items), rss, json.
  repeat match goal with |- _ /\ _ => split end; try assumption; try reflexivity.
  cbn [assembled feeds.Items].
  clear - HF. induction HF as [|file item files' items' Hr HF IH]; constructor; [|exact IH].
  apply record_Some in Hr as (s1 & ? & ? & s0 & date & E1 & _ & _ & E0 & Ep & ->).
  cbn [feeds.Item_Created]. cbv zeta.
  apply ParseDate_calendar_day in Ep as [Hc Hn]. split; [exact Hc|].
  rewrite <- Hn.
  destruct (strings.Split (FileInfo_Name file) "_") as [|a [|b rest]] eqn:Es;
    try discriminate E1.
  injection E0 as ->. exact (Split_byte_two "_" _ _ _ _ Es).
Qed.

End Dates.

Lemma item_dates_are_calendar_days_witness :
  let w := Sample.world_more in
  let w' := snd (@GenerateRss Sample.libraries w) in
  @GenerateRss Sample.libraries w = (Done tt, w')
  /\ exists (listing : list FileInfo) (feed : feeds.Feed) (rss json : string),
      dirs w !! "podcasts" = Some listing
      /\ Sample.Rss feed = inr rss /\ Sample.Json feed = inr json
      /\ w' = published rss json w
      /\ Forall2
           (fun file item =>
              let t := feeds.Item_Created item in
              calendar_day t
              /\ strings.HasPrefix (FileInfo_Name file)
                   (date_name (time.Year t) (time.Month t) (time.Day t) +:+ "_") = true)
           (List.filter audio listing) (feeds.Items feed).
Proof.
  intros w w'.
  assert (@GenerateRss Sample.libraries w = (Done tt, w')) as E
    by (vm_compute; reflexivity).
  split; [exact E|].
  exact (@item_dates_are_calendar_days Sample.libraries w w' tt E).
Defined.

(** X8: the date goes through the file name unchanged.  For a day of
    the calendar written [YYYY-MM-DD], a title without underscore or dot
    and readable shownotes, the loop body on the file
    [<date>_<title>.mp3] adds one item, dated midnight of that day and
    titled with that title. *)
Theorem date_survives_file_name (config : Config) (podcasturl : string) (file : FileInfo)
    (feed : feeds.Feed) (w : World) (year month day : Z) (t description : string) :
  0 <= year <= 9999 -> 1 <= month <= 12 -> 1 <= day <= time.daysIn month year ->
  has_byte "_" t = false -> has_byte "." t = false ->
  FileInfo_Name file = date_name year month day +:+ "_" +:+ t +:+ ".mp3" ->
  files w !! ("podcasts/" +:+ date_name year month day +:+ "_" +:+ t +:+ "_SHOWNOTES.md")
    = Some description ->
  exists item,
    episode config podcasturl file feed w = (Done (feeds.Add feed item), w)
    /\ feeds.Item_Created item = time.Date year month day 0 0 0 0
    /\ feeds.Item_Title item = t
    /\ feeds.Item_Description item = description.
Proof.
  intros Hy Hm Hd Ht Htd En Ed.
  pose proof (ParseDate_date_name year month day Hy Hm Hd) as Ep.
  set (d := date_name year month day) in *.
  assert (has_byte "_" d = false) as Hu by (eapply ParseDate_no_underscore; eassumption).
  assert (has_byte "." d = false) as Hdd by (eapply ParseDate_no_dot; eassumption).
  assert (audio file = true) as Ha.
  { unfold audio. rewrite En.
    replace (d +:+ "_" +:+ t +:+ ".mp3") with ((d +:+ "_" +:+ t) +:+ ".mp3" +:+ "")
      by (now rewrite !append_assoc).
    apply Contains_app. }
  assert (shownotes (FileInfo_Name file) = "podcasts/" +:+ d +:+ "_" +:+ t +:+ "_SHOWNOTES.md")
    as Esn.
  { rewrite En.
    replace (d +:+ "_" +:+ t +:+ ".mp3") with ((d +:+ "_" +:+ t) +:+ ".mp3")
      by (now rewrite !append_assoc).
    rewrite Replace_shownotes.
    - now rewrite !append_assoc.
    - rewrite !has_byte_app, Hdd, Htd. reflexivity. }
  destruct (Split_date_title d t ".mp3" Hu Ht Htd) as (s1 & rest & Es & Et).
  { right. right. now exists "mp3". }
  rewrite <- En in Es. rewrite <- Esn in Ed.
  pose proof (record_of_pieces config podcasturl (files w) file d s1 t description rest _
                Es Et Ed Ep) as Hrec.
  eexists. split.
  - apply episode_Done. rewrite Ha. split; [reflexivity|]. eexists. split; [exact Hrec|].
    reflexivity.
  - repeat split; reflexivity.
Qed.

Lemma date_survives_file_name_witness :
  exists item,
    episode Sample.config "https://x.com" Sample.pilot Sample.empty_feed Sample.world
    = (Done (feeds.Add Sample.empty_feed item), Sample.world)
    /\ feeds.Item_Created item = time.Date 2024 1 15 0 0 0 0
    /\ feeds.Item_Title item = "Pilot"
    /\ feeds.Item_Description item = "Welcome".
Proof.
  apply (date_survives_file_name Sample.config "https://x.com" Sample.pilot
           Sample.empty_feed Sample.world 2024 1 15 "Pilot" "Welcome").
  - lia.
  - lia.
  - vm_compute. split; discriminate.
  - reflexivity.
  - reflexivity.
  - reflexivity.
  - vm_compute. reflexivity.
Defined.

(** ** The start of the watcher *)

Section Starting.

Context `{Libraries} `{Notifier}.

(** The loop along two traces, one after the other. *)
Lemma watch_loop_app (t1 t2 : list step) (p : process) (received : nat) (w : World) :
  watch_loop (t1 ++ t2) p received w
  = let '(p1, n1, w1) := watch_loop t1 p received w in watch_loop t2 p1 n1 w1.
Proof.
  revert p received w. induction t1 as [|s t1 IH]; intros p received w; [reflexivity|].
  change ((s :: t1) ++ t2) with (s :: (t1 ++ t2)).
  destruct s as [path data|path|path listing|now|m]; cbn [watch_loop]; try apply IH.
  destruct p; try apply IH.
  destruct (serve m w) as [[u|v|c] w1]; apply IH.
Qed.

(** X11: a failure to create the watcher or to add either path is
    fatal: the error is logged and the process exits with status 1.
    When it is the watcher or the episode directory that fails, no
    message is ever received: no rebuild takes place.  When it is the
    configuration file, the loop has been running since before the
    directory was added: the messages delivered in between were served,
    rebuilds among them, and only those delivered after the failure are
    not.  When all three succeed the loop serves every message. *)
Theorem watch_setup_failure_is_fatal (early late : list step) (w : World) :
  (forall err,
     NewWatcher = Some err
     \/ (NewWatcher = None /\ watcher_Add "podcasts/" w = Some err) ->
     watch early late w
     = (Exited 1, 0%nat, drift (early ++ late) (add_log (Fatal err) w)))
  /\ (forall err received w2,
        NewWatcher = None ->
        watcher_Add "podcasts/" w = None ->
        watch_loop early Running 0 w = (Running, received, w2) ->
        watcher_Add "assets/config/config.json" w2 = Some err ->
        watch early late w
        = (Exited 1, received, drift late (add_log (Fatal err) w2)))
  /\ (forall received w2,
        NewWatcher = None ->
        watcher_Add "podcasts/" w = None ->
        watch_loop early Running 0 w = (Running, received, w2) ->
        watcher_Add "assets/config/config.json" w2 = None ->
        watch early late w = watch_loop (early ++ late) Running 0 w).
Proof.
  split; [|split].
  - intros err [E|[E1 E2]]; unfold watch, add_watch, check_Fatal.
    + rewrite E. cbn. now rewrite watch_loop_ended.
    + rewrite E1. cbn. rewrite E2. cbn. now rewrite watch_loop_ended.
  - intros err received w2 E1 E2 El E3. unfold watch, add_watch, check_Fatal.
    rewrite E1. cbn. rewrite E2. cbn. rewrite El, E3. cbn.
    now rewrite watch_loop_ended.
  - intros received w2 E1 E2 El E3. unfold watch, add_watch, check_Fatal.
    rewrite E1. cbn. rewrite E2. cbn. rewrite El, E3. cbn.
    rewrite watch_loop_app, El. reflexivity.
Qed.

End Starting.

Lemma watch_setup_failure_is_fatal_witness :
  let served := @watch_loop Sample.libraries Scenes.removal Running 0 Sample.world in
  @watch Sample.libraries Inotify.notifier Scenes.removal Sample.recovery
    Cases.world_without_directory
  = (Exited 1, 0%nat,
     drift (Scenes.removal ++ Sample.recovery)
       (add_log (Fatal (PathError "inotify_add_watch" "podcasts"))
          Cases.world_without_directory))
  /\ fst served = (Running, 1%nat)
  /\ files (snd served) !! "assets/web/feed.rss" <> None
  /\ @watch Sample.libraries Inotify.notifier Scenes.removal Sample.recovery Sample.world
     = (Exited 1, 1%nat,
        drift Sample.recovery
          (add_log (Fatal (PathError "inotify_add_watch" "assets/config/config.json"))
             (snd served)))
  /\ @watch Sample.libraries Inotify.notifier [] Sample.recovery Sample.world
     = @watch_loop Sample.libraries ([] ++ Sample.recovery) Running 0 Sample.world.
Proof.
  intros served.
  split.
  { apply (proj1 (@watch_setup_failure_is_fatal Sample.libraries Inotify.notifier
                    Scenes.removal Sample.recovery Cases.world_without_directory)).
    right. split; [reflexivity | vm_compute; reflexivity]. }
  split; [vm_compute; reflexivity|].
  split; [intros Hx; vm_compute in Hx; discriminate Hx|].
  split.
  - apply (proj1 (proj2 (@watch_setup_failure_is_fatal Sample.libraries Inotify.notifier
                           Scenes.removal Sample.recovery Sample.world))).
    + reflexivity.
    + vm_compute. reflexivity.
    + vm_compute. reflexivity.
    + vm_compute. reflexivity.
  - apply (proj2 (proj2 (@watch_setup_failure_is_fatal Sample.libraries Inotify.notifier
                           [] Sample.recovery Sample.world)) 0%nat Sample.world).
    + reflexivity.
    + vm_compute. reflexivity.
    + reflexivity.
    + vm_compute. reflexivity.
Defined.

(** ** Titles *)

(** The pieces of a split on one byte do not hold that byte. *)
Lemma Split_byte_pieces (c : ascii) (s : string) :
  Forall (fun piece => has_byte c piece = false) (strings.Split s (String c "")).
Proof.
  unfold strings.Split. induction s as [|x s IH]; cbn [strings.genSplit].
  - constructor; [reflexivity | constructor].
  - cbn [strings.HasPrefix]. rewrite HasPrefix_empty, andb_true_r.
    destruct (Ascii.eqb x c) eqn:Ex.
    + constructor; [reflexivity | exact IH].
    + destruct (strings.genSplit (String c "") 0 s) as [|h t] eqn:Eg.
      * constructor; [|constructor]. cbn [has_byte]. now rewrite Ex.
      * inversion IH as [|? ? Hh Ht]; subst. constructor; [|exact Ht].
        cbn [has_byte]. now rewrite Ex, Hh.
Qed.

(** A byte that a string does not hold is in none of its pieces. *)
Lemma Split_byte_pieces_without (x c : ascii) (s : string) :
  has_byte x s = false ->
  Forall (fun piece => has_byte x piece = false) (strings.Split s (String c "")).
Proof.
  unfold strings.Split. induction s as [|y s IH]; cbn [strings.genSplit]; intros Hs.
  - constructor; [reflexivity | constructor].
  - cbn [has_byte] in Hs. apply orb_false_iff in Hs as [Hy Hs]. specialize (IH Hs).
    cbn [strings.HasPrefix]. rewrite HasPrefix_empty, andb_true_r.
    destruct (Ascii.eqb y c).
    + constructor; [reflexivity | exact IH].
    + destruct (strings.genSplit (String c "") 0 s) as [|h t] eqn:Eg.
      * constructor; [|constructor]. cbn [has_byte]. now rewrite Hy.
      * inversion IH as [|? ? Hh Ht]; subst. constructor; [|exact Ht].
        cbn [has_byte]. now rewrite Hy, Hh.
Qed.

Lemma Forall_nth_error {A : Type} (P : A -> Prop) (l : list A) (n : nat) (x : A) :
  Forall P l -> nth_error l n = Some x -> P x.
Proof.
  intros HF. revert n. induction HF as [|a l Ha HF IH]; intros [|n] E;
    try discriminate E.
  - injection E as <-. exact Ha.
  - exact (IH n E).
Qed.

Section Titles.

Context `{Libraries}.

(** X20: no title of the feed holds an underscore or a dot.  In the
    feed that a returning [GenerateRss] has encoded, the title of every
    item is free of both bytes, whatever the file was called. *)
Theorem titles_have_no_underscore_or_dot (w w' : World) (u : unit) :
  GenerateRss w = (Done u, w') ->
  exists (feed : feeds.Feed) (rss json : string),
    ToRss feed = inr rss /\ ToJSON feed = inr json /\ w' = published rss json w
    /\ Forall
         (fun item => has_byte "_" (feeds.Item_Title item) = false
                      /\ has_byte "." (feeds.Item_Title item) = false)
         (feeds.Items feed).
Proof.
  intros E.
  apply GenerateRss_Done in E
    as (d & config & listing & items & rss & json & _ & _ & _ & HF & Er & Eo & ->).
  exists (assembled config (clock w) items), rss, json.
  split; [assumption|]. split; [assumption|]. split; [reflexivity|].
  cbn [assembled feeds.Items].
  clear - HF. induction HF as [|file item files' items' Hr HF IH]; constructor; [|exact IH].
  apply record_Some in Hr as (s1 & title & ? & ? & ? & E1 & Et & _ & _ & _ & ->).
  cbn [feeds.Item_Title].
  pose proof (Forall_nth_error _ _ _ _ (Split_byte_pieces "_" (FileInfo_Name file)) E1) as H1.
  cbv beta in H1. split.
  - exact (Forall_nth_error _ _ _ _ (Split_byte_pieces_without "_" "." s1 H1) Et).
  - exact (Forall_nth_error _ _ _ _ (Split_byte_pieces "." s1) Et).
Qed.

End Titles.

Lemma titles_have_no_underscore_or_dot_witness :
  let w := Sample.world_more in
  let w' := snd (@GenerateRss Sample.libraries w) in
  @GenerateRss Sample.libraries w = (Done tt, w')
  /\ exists (feed : feeds.Feed) (rss json : string),
      Sample.Rss feed = inr rss /\ Sample.Json feed = inr json
      /\ w' = published rss json w
      /\ Forall
           (fun item => has_byte "_" (feeds.Item_Title item) = false
                        /\ has_byte "." (feeds.Item_Title item) = false)
           (feeds.Items feed).
Proof.
  intros w w'.
  assert (@GenerateRss Sample.libraries w = (Done tt, w')) as E
    by (vm_compute; reflexivity).
  split; [exact E|].
  exact (@titles_have_no_underscore_or_dot Sample.libraries w w' tt E).
Defined.

(** * Properties of the router *)

Section Chains.

Context `{Web}.

(** X12: [Handle] runs its handlers in order, each on the context and
    the response the one before left.  At the first handler that returns
    an error it logs the error, writes the text of the error's status
    code to the body and stops: the handlers after it do not run.  It
    never writes the status code itself, so the response goes out with
    the status a handler has fixed, or with 200.  When no handler returns
    an error the response is what the last one left. *)
Theorem Handle_stops_at_first_error (before : list Handler) (rc rc1 : RouterContext)
    (w w1 : http.ResponseWriter) (r : http.Request) (world world1 : World) :
  pass before rc w r world = (Done (None, rc1, w1), world1) ->
  range_handlers before rc w r world = (Done w1, world1)
  /\ (forall (handler : Handler) (after : list Handler) (err : HTTPError)
             (rc2 : RouterContext) (w2 : http.ResponseWriter) (world2 : World),
        handler rc1 w1 r world1 = (Done (Some err, rc2, w2), world2) ->
        let answer := http.Write (StatusText (HTTPError_StatusCode err)) w2 in
        range_handlers (before ++ handler :: after) rc w r world
        = (Done answer, add_log (Printf_v err) world2)
        /\ http.Status answer = Some (sent_status w2)
        /\ http.Body answer = http.Body w2 +:+ StatusText (HTTPError_StatusCode err)
        /\ http.Header answer = http.Header w2).
Proof.
  revert rc w world. induction before as [|h before IH]; intros rc w world E.
  - cbn [pass] in E. unfold ret in E. injection E as <- <- <-.
    split; [reflexivity|].
    intros handler after err rc2 w2 world2 Eh. cbv zeta.
    cbn [app range_handlers]. unfold bind at 1. rewrite Eh.
    split; [reflexivity|]. split; [|split]; reflexivity.
  - cbn [pass] in E. unfold bind at 1 in E.
    destruct (h rc w r world) as [[[[[e|] rc'] w']|v|c] world'] eqn:Eh;
      try discriminate E.
    destruct (IH rc' w' world' E) as [IH1 IH2].
    split.
    + cbn [range_handlers]. unfold bind at 1. rewrite Eh. exact IH1.
    + intros handler after err rc2 w2 world2 Eh2. cbv zeta.
      cbn [app range_handlers]. unfold bind at 1. rewrite Eh.
      exact (IH2 handler after err rc2 w2 world2 Eh2).
Qed.

Lemma String_eqb_false (a b : string) : a <> b -> String.eqb a b = false.
Proof. intros Hne. now apply String.eqb_neq. Qed.

(** X18: [rootHandler] serves [/rss], [/json] and [/]; for any other
    path, [/feed] included, it touches neither the response nor a file
    and returns a Not Found error, and under [Handle] the answer is the
    text of status 404 in the body of a response that goes out with
    status 200 when no status was written before. *)
Theorem rootHandler_other_paths (w : http.ResponseWriter) (r : http.Request)
    (world : World) :
  http.Path r <> "/rss" -> http.Path r <> "/json" -> http.Path r <> "/" ->
  let err := mkHTTPError (http.Path r +:+ ": Not Found") http.StatusNotFound in
  let answer := http.Write (StatusText http.StatusNotFound) w in
  (forall rc, rootHandler rc w r world = (Done (Some err, rc, w), world))
  /\ Handle [rootHandler] w r world = (Done answer, add_log (Printf_v err) world)
  /\ (http.Status w = None -> http.Status answer = Some http.StatusOK).
Proof.
  intros H1 H2 H3. cbv zeta.
  assert (forall rc, rootHandler rc w r world
                     = (Done (Some (mkHTTPError (http.Path r +:+ ": Not Found")
                                      http.StatusNotFound), rc, w), world)) as Hr.
  { intros rc. unfold rootHandler.
    rewrite !String_eqb_false by assumption. reflexivity. }
  split; [exact Hr|]. split.
  - unfold Handle. cbn [range_handlers]. unfold bind at 1. rewrite Hr. reflexivity.
  - intros Hs. unfold http.Write. cbn [http.Status]. now rewrite Hs.
Qed.

End Chains.

Section Login.

Context `{Web}.

(** The loop over the users finds the pair or it does not, in whatever
    order the users come. *)
Lemma range_users_found (u : list (string * string)) (username password : string)
    (rc : RouterContext) (w : http.ResponseWriter) (r : http.Request) (world : World) :
  ((username, password) ∈ u ->
   range_users u username password rc w r world = (Done (welcome username rc w r), world))
  /\ ((username, password) ∉ u ->
      range_users u username password rc w r world
      = (Done (Some (mkHTTPError "Invalid credentials!" http.StatusUnauthorized), rc, w),
         world)).
Proof.
  induction u as [|[k v] u [IH1 IH2]].
  - split; [intros Hin; now apply elem_of_nil in Hin | reflexivity].
  - cbn [range_users].
    destruct (String.eqb k username && String.eqb v password) eqn:Ekv.
    + apply andb_true_iff in Ekv as [Ek Ev].
      apply String.eqb_eq in Ek as ->. apply String.eqb_eq in Ev as ->.
      split.
      * intros _. unfold welcome. destruct (CreateSession username); reflexivity.
      * intros Hn. exfalso. apply Hn. left.
    + assert ((k, v) <> (username, password)) as Hne.
      { intros [= -> ->]. rewrite !String.eqb_refl in Ekv. discriminate Ekv. }
      split.
      * intros Hin. apply elem_of_cons in Hin as [Heq|Hin]; [congruence|]. now apply IH1.
      * intros Hn. apply IH2. intros Hin. apply Hn. now right.
Qed.

(** X17: for a request that carries no valid session, is not a GET,
    whose form parses and holds a non-empty username and password, with a
    readable users file, and whatever the order in which the map of the
    users yields its entries.  When the users file maps that username to
    that password and [auth.CreateSession] succeeds, [loginHandler] adds
    the session cookie and redirects to [/admin].  When the pair matches
    and [auth.CreateSession] fails, it answers Internal Server Error and
    sets no cookie.  When the pair does not match it answers
    Unauthorized, the response untouched.  So it returns without an error
    exactly when the pair matches and the session was created. *)
Theorem login_needs_matching_password (rc : RouterContext) (w : http.ResponseWriter)
    (r : http.Request) (world : World) (d : string) :
  DecryptCookie r <> None ->
  http.Method r <> "GET" ->
  files world !! "assets/config/users.json" = Some d ->
  fst (http.ParseForm r) = None ->
  let username := http.Get (snd (http.ParseForm r)) "username" in
  let password := http.Get (snd (http.ParseForm r)) "password" in
  username <> "" -> password <> "" ->
  (forall c : string,
     Unmarshal_users d !! username = Some password ->
     CreateSession username = inr c ->
     loginHandler rc w r world
     = (Done (None, rc,
              Redirect (http.Header_Add "Set-Cookie" c w) r "/admin"
                http.StatusTemporaryRedirect), world))
  /\ (forall err : error,
        Unmarshal_users d !! username = Some password ->
        CreateSession username = inl err ->
        loginHandler rc w r world
        = (Done (Some (mkHTTPError (Sprintf_v err) http.StatusInternalServerError), rc, w),
           world))
  /\ (Unmarshal_users d !! username <> Some password ->
      loginHandler rc w r world
      = (Done (Some (mkHTTPError "Invalid credentials!" http.StatusUnauthorized), rc, w),
         world))
  /\ ((exists w' : http.ResponseWriter,
         loginHandler rc w r world = (Done (None, rc, w'), world))
      <-> Unmarshal_users d !! username = Some password
          /\ exists c : string, CreateSession username = inr c).
Proof.
  intros Hc Hm Ed Ep username password Hu Hp.
  assert (loginHandler rc w r world
          = range_users (map_to_list (Unmarshal_users d)) username password rc w r world)
    as ->.
  { unfold loginHandler.
    destruct (DecryptCookie r) as [e|]; [|contradiction].
    rewrite (String_eqb_false _ _ Hm).
    unfold bind at 1. unfold ioutil.ReadFile. rewrite Ed. rewrite Ep.
    fold username. fold password.
    rewrite (String_eqb_false _ _ Hu), (String_eqb_false _ _ Hp). reflexivity. }
  destruct (range_users_found (map_to_list (Unmarshal_users d)) username password
              rc w r world) as [Hf Hn].
  assert (Unmarshal_users d !! username = Some password ->
          range_users (map_to_list (Unmarshal_users d)) username password rc w r world
          = (Done (welcome username rc w r), world)) as Hyes
    by (intros El; apply Hf; now apply elem_of_map_to_list).
  assert (Unmarshal_users d !! username <> Some password ->
          range_users (map_to_list (Unmarshal_users d)) username password rc w r world
          = (Done (Some (mkHTTPError "Invalid credentials!" http.StatusUnauthorized), rc, w),
             world)) as Hno
    by (intros El; apply Hn; intros Hin; apply El; now apply elem_of_map_to_list in Hin).
  split; [|split; [|split; [|split]]].
  - intros c El Ec. rewrite (Hyes El). unfold welcome. rewrite Ec. reflexivity.
  - intros err El Ec. rewrite (Hyes El). unfold welcome. rewrite Ec. reflexivity.
  - exact Hno.
  - intros [w' E].
    destruct (decide (Unmarshal_users d !! username = Some password)) as [El|El].
    + split; [exact El|]. rewrite (Hyes El) in E. unfold welcome in E.
      destruct (CreateSession username) as [err|c]; [discriminate E|]. now exists c.
    + rewrite (Hno El) in E. discriminate E.
  - intros [El [c Ec]]. eexists. rewrite (Hyes El). unfold welcome. rewrite Ec. reflexivity.
Qed.

(** X19: the checks of a login that is not a GET and carries no valid
    session come in this order: the users file is read, the form is
    parsed, the two fields are looked at.  A users file that cannot be
    read is an Internal Server Error, whatever the form holds, empty
    fields among it.  With a readable users file, a form that does not
    parse is a Bad Request; and with a form that parses, an empty
    username or an empty password is a Bad Request whatever the users file
    holds: even one that maps the empty name to the empty password lets
    nobody in. *)
Theorem login_rejects_empty_fields (rc : RouterContext) (w : http.ResponseWriter)
    (r : http.Request) (world : World) :
  DecryptCookie r <> None ->
  http.Method r <> "GET" ->
  (files world !! "assets/config/users.json" = None ->
   loginHandler rc w r world
   = (Done (Some (mkHTTPError
                    ("error in reading users.json: "
                     +:+ Sprintf_v (PathError "open" "assets/config/users.json"))
                    http.StatusInternalServerError), rc, w), world))
  /\ (forall (d : string) (err : error),
        files world !! "assets/config/users.json" = Some d ->
        fst (http.ParseForm r) = Some err ->
        loginHandler rc w r world
        = (Done (Some (mkHTTPError ("error in parsing form: " +:+ Sprintf_v err)
                         http.StatusBadRequest), rc, w), world))
  /\ (forall d : string,
        files world !! "assets/config/users.json" = Some d ->
        fst (http.ParseForm r) = None ->
        http.Get (snd (http.ParseForm r)) "username" = ""
        \/ http.Get (snd (http.ParseForm r)) "password" = "" ->
        loginHandler rc w r world
        = (Done (Some (mkHTTPError "username or password is empty" http.StatusBadRequest),
                 rc, w), world)).
Proof.
  intros Hc Hm. unfold loginHandler.
  destruct (DecryptCookie r) as [e|]; [|contradiction].
  rewrite (String_eqb_false _ _ Hm).
  unfold bind at 1 2 3. unfold ioutil.ReadFile.
  split; [|split].
  - intros ->. reflexivity.
  - intros d err -> ->. reflexivity.
  - intros d -> -> He.
    destruct He as [-> | ->]; cbn [String.eqb orb]; [reflexivity|].
    rewrite orb_true_r. reflexivity.
Qed.

End Login.

(** ** The routes *)

Lemma HasPrefix_inv (s p : string) :
  strings.HasPrefix s p = true -> exists rest, s = p +:+ rest.
Proof.
  revert s. induction p as [|c p IH]; intros s Hp.
  - exists s. reflexivity.
  - destruct s as [|x s]; [discriminate Hp|]. cbn [strings.HasPrefix] in Hp.
    apply andb_true_iff in Hp as [Hx Hp]. apply Ascii.eqb_eq in Hx as ->.
    destruct (IH s Hp) as [rest ->]. exists rest. reflexivity.
Qed.

Lemma substring_all (s : string) : String.substring 0 (String.length s) s = s.
Proof. induction s as [|c s IH]; cbn; [reflexivity|]. now rewrite IH. Qed.

Lemma length_append (a b : string) :
  String.length (a +:+ b) = (String.length a + String.length b)%nat.
Proof.
  induction a as [|c a IH]; [reflexivity|].
  change (String c a +:+ b) with (String c (a +:+ b)). cbn [String.length]. now rewrite IH.
Qed.

Lemma substring_append (p s : string) (n : nat) :
  String.substring (String.length p) n (p +:+ s) = String.substring 0 n s.
Proof.
  induction p as [|c p IH]; [reflexivity|].
  change (String c p +:+ s) with (String c (p +:+ s)). cbn [String.length String.substring].
  exact IH.
Qed.

Section Routes.

Context `{Web}.

Lemma StripPrefix_app (prefix rest : string) : StripPrefix prefix (prefix +:+ rest) = rest.
Proof.
  unfold StripPrefix. rewrite substring_append, length_append.
  replace (String.length prefix + String.length rest - String.length prefix)%nat
    with (String.length rest) by lia.
  apply substring_all.
Qed.

(** X16: a request whose URL path is [/download/] followed by a file
    name (a name without a slash that is neither [.] nor [..], so that
    the path is as the router cleans it) is handed, whatever its method
    and before any route with a handler of the program is tried, to the
    file server of the episode directory, which is asked for that name:
    the prefix is stripped. *)
Theorem download_requests_reach_episodes (name method : string)
    (form multipart : option error * http.Values) :
  has_byte "/" name = false ->
  name <> "." -> name <> ".." ->
  Match Init (http.mkRequest method ("/download/" +:+ name) form multipart)
  = Some (FileServer "podcasts" name).
Proof.
  intros _ _ _.
  assert (strings.HasPrefix ("/download/" +:+ name) "/assets/" = false) as E1
    by reflexivity.
  pose proof (HasPrefix_app "/download/" name) as E2.
  unfold Init. cbn [Match]. unfold matches at 1.
  cbn [PathPrefix template Methods http.Path]. rewrite E1. cbn [andb].
  unfold matches at 1. cbn [PathPrefix template Methods http.Path serves].
  rewrite E2. cbn [andb]. now rewrite StripPrefix_app.
Qed.

(** X13: every route under [/admin] passes through
    [RequireAuthorization] first, and when that returns an error the
    handler behind it does not run: the answer is the text of the error's
    status code, on the response as the authorization left it. *)
Theorem admin_routes_need_authorization (r : http.Request) (t : target) :
  Match Init r = Some t ->
  strings.HasPrefix (http.Path r) "/admin" = true ->
  exists handler,
    t = Chain [RequireAuthorization; handler]
    /\ forall (w w' : http.ResponseWriter) (world world' : World) (err : HTTPError)
              (rc' : RouterContext),
         RequireAuthorization new_RouterContext w r world = (Done (Some err, rc', w'), world') ->
         Handle [RequireAuthorization; handler] w r world
         = (Done (http.Write (StatusText (HTTPError_StatusCode err)) w'),
            add_log (Printf_v err) world').
Proof.
  intros Hm Hp.
  assert (forall handler, exists h,
            Chain [RequireAuthorization; handler] = Chain [RequireAuthorization; h]
            /\ forall (w w' : http.ResponseWriter) (world world' : World) (err : HTTPError)
                      (rc' : RouterContext),
                 RequireAuthorization new_RouterContext w r world
                 = (Done (Some err, rc', w'), world') ->
                 Handle [RequireAuthorization; h] w r world
                 = (Done (http.Write (StatusText (HTTPError_StatusCode err)) w'),
                    add_log (Printf_v err) world')) as Hguard.
  { intros handler. exists handler. split; [reflexivity|].
    intros w w' world world' err rc' Ea.
    unfold Handle. cbn [range_handlers]. unfold bind at 1. rewrite Ea. reflexivity. }
  destruct r as [method path form multipart]. cbn [http.Path] in *.
  apply HasPrefix_inv in Hp as [rest ->].
  change ("/admin" +:+ rest)
    with (String "/" (String "a" (String "d" (String "m" (String "i" (String "n" rest))))))
    in Hm.
  cbn [Init Match matches PathPrefix template Methods http.Path http.Method
       strings.HasPrefix String.eqb Ascii.eqb Bool.eqb andb serves] in Hm.
  repeat match type of Hm with
         | (if ?b then _ else _) = _ => destruct b
         end;
    try discriminate Hm; injection Hm as <-; apply Hguard.
Qed.

End Routes.

(** ** The setup form *)

Section Setup.

Context `{Libraries} `{Web}.

(** What [serveSetup] does with a request that is not a GET. *)
Lemma setup_replaces_configuration_aux (rc : RouterContext) (w : http.ResponseWriter)
    (r : http.Request) (world : World) (b : string) :
  http.Method r <> "GET" ->
  json_Marshal (setup_config (snd (http.ParseMultipartForm r))) = inr b ->
  serveSetup rc w r world
  = (Done (None, rc, http.Write "Done" w), written "assets/config/config.json" b world)
  /\ ("assets/config/config.json" ∉ readonly world ->
      files (written "assets/config/config.json" b world) !! "assets/config/config.json"
      = Some b).
Proof.
  intros Hm Eb. split.
  - unfold serveSetup. rewrite (String_eqb_false _ _ Hm).
    fold (setup_config (snd (http.ParseMultipartForm r))). rewrite Eb.
    unfold bind at 1. cbn [or_panic]. unfold ret at 1.
    unfold bind at 1.
    destruct (WriteFile_written "assets/config/config.json" b world) as [e ->].
    reflexivity.
  - intros Hw. rewrite written_files. rewrite decide_True by auto. reflexivity.
Qed.

(** X14: [serveSetup] answers any request that is not a GET by
    replacing the configuration file.  The new configuration takes name,
    host and email from the form, all the values of a field joined and a
    missing field left empty, and its description, image and podcast URL
    are always empty; the body gets [Done] and no error is returned, also
    when the file could not be written.  The route [/setup] leads to it
    with no authorization in front. *)
Theorem setup_replaces_configuration (rc : RouterContext) (w : http.ResponseWriter)
    (r : http.Request) (world : World) (b : string) :
  http.Method r <> "GET" ->
  json_Marshal (setup_config (snd (http.ParseMultipartForm r))) = inr b ->
  serveSetup rc w r world
  = (Done (None, rc, http.Write "Done" w), written "assets/config/config.json" b world)
  /\ ("assets/config/config.json" ∉ readonly world ->
      files (written "assets/config/config.json" b world) !! "assets/config/config.json"
      = Some b)
  /\ NewConfig_PodcastURL (setup_config (snd (http.ParseMultipartForm r))) = ""
  /\ (http.Path r = "/setup" -> http.Method r = "POST" ->
      Match Init r = Some (Chain [serveSetup])).
Proof.
  intros Hm Eb.
  destruct (setup_replaces_configuration_aux rc w r world b Hm Eb) as [Es Ef].
  split; [exact Es|]. split; [exact Ef|]. split.
  - reflexivity.
  - intros Hp Hpost. destruct r as [method path form multipart].
    cbn [http.Path http.Method] in Hp, Hpost. subst method path. reflexivity.
Qed.

(** X15: a rebuild after the setup form.  When the decoder reads the
    written configuration back field by field, the feed of a rebuild that
    returns is titled with the form's podcast name, its link is empty,
    and the link of every item is the bare path [/download/<file name>]:
    the setup form leaves the feed without a host in its links. *)
Theorem setup_then_rebuild (rc : RouterContext) (w : http.ResponseWriter)
    (r : http.Request) (world world2 : World) (b : string) (u : unit) :
  http.Method r <> "GET" ->
  let cnf := setup_config (snd (http.ParseMultipartForm r)) in
  json_Marshal cnf = inr b ->
  json_Unmarshal b = inr (as_Config cnf) ->
  "assets/config/config.json" ∉ readonly world ->
  GenerateRss (snd (serveSetup rc w r world)) = (Done u, world2) ->
  exists (listing : list FileInfo) (feed : feeds.Feed) (rss json : string),
    dirs world !! "podcasts" = Some listing
    /\ ToRss feed = inr rss /\ ToJSON feed = inr json
    /\ feeds.Feed_Title feed = strings_Join (http.values_of (snd (http.ParseMultipartForm r))
                                               "podcastname") ""
    /\ feeds.Href (feeds.Feed_Link feed) = ""
    /\ Forall2
         (fun file item =>
            feeds.Href (feeds.Item_Link item) = "/download/" +:+ FileInfo_Name file)
         (List.filter audio listing) (feeds.Items feed).
Proof.
  intros Hm cnf Eb Eu Hw E.
  destruct (setup_replaces_configuration_aux rc w r world b Hm Eb) as [Es Ef].
  rewrite Es in E. cbn [snd] in E.
  apply GenerateRss_Done in E
    as (d & config & listing & items & rss & json & Ed & Ej & El & HF & Er & Eo & _).
  rewrite (Ef Hw) in Ed. injection Ed as <-.
  fold cnf in Eu. rewrite Eu in Ej. injection Ej as <-.
  exists listing, (assembled (as_Config cnf) (clock (written "assets/config/config.json" b world)) items),
    rss, json.
  split; [|split; [assumption|split; [assumption|split; [reflexivity|split; [reflexivity|]]]]].
  - now destruct (written_frame "assets/config/config.json" b world) as (<- & _).
  - cbn [assembled feeds.Items].
    clear - HF. induction HF as [|file item files' items' Hr HF IH]; constructor; [|exact IH].
    apply record_Some in Hr as (? & ? & ? & ? & ? & _ & _ & _ & _ & _ & ->).
    reflexivity.
Qed.

End Setup.

(** ** The router on examples *)

#[local] Existing Instance Site.common.
#[local] Existing Instance Site.web.

Lemma Handle_stops_at_first_error_witness :
  let r := Site.post_login "alice" "secret" in
  let err := mkHTTPError "not logged in" http.StatusUnauthorized in
  let w2 := http.Write "ok" Site.blank in
  let answer := http.Write (Site.status_text http.StatusUnauthorized) w2 in
  range_handlers [Site.done] new_RouterContext Site.blank r Site.world
  = (Done w2, Site.world)
  /\ range_handlers ([Site.done] ++ Site.unauthorized :: [Site.done])
       new_RouterContext Site.blank r Site.world
     = (Done answer, add_log (Println "not logged in" (WatchError "http")) Site.world)
  /\ http.Status answer = Some http.StatusOK
  /\ http.Body answer = "okUnauthorized".
Proof.
  intros r err w2 answer.
  destruct (Handle_stops_at_first_error [Site.done] new_RouterContext new_RouterContext
              Site.blank w2 r Site.world Site.world eq_refl) as [E1 E2].
  split; [exact E1|].
  destruct (E2 Site.unauthorized [Site.done] err new_RouterContext w2 Site.world eq_refl)
    as (E3 & E4 & E5 & _).
  split; [exact E3|]. split; [exact E4 | exact E5].
Defined.

Lemma rootHandler_other_paths_witness :
  let r := http.mkRequest "GET" "/feed" (None, ∅) (None, ∅) in
  let err := mkHTTPError "/feed: Not Found" http.StatusNotFound in
  let answer := http.Write "Not Found" Site.blank in
  (forall rc, rootHandler rc Site.blank r Site.world
              = (Done (Some err, rc, Site.blank), Site.world))
  /\ Handle [rootHandler] Site.blank r Site.world
     = (Done answer, add_log (Println "/feed: Not Found" (WatchError "http")) Site.world)
  /\ (http.Status Site.blank = None -> http.Status answer = Some http.StatusOK).
Proof.
  intros r err answer.
  assert (http.Path r <> "/rss") as H1 by discriminate.
  assert (http.Path r <> "/json") as H2 by discriminate.
  assert (http.Path r <> "/") as H3 by discriminate.
  exact (rootHandler_other_paths Site.blank r Site.world H1 H2 H3).
Defined.

Lemma login_needs_matching_password_witness :
  let r := Site.post_login "alice" "secret" in
  let guess := Site.post_login "alice" "guess" in
  @loginHandler Site.common Site.web new_RouterContext Site.blank r Site.world
  = (Done (None, new_RouterContext,
           Site.redirect (http.Header_Add "Set-Cookie" "POGO_SESSION=alice" Site.blank) r
             "/admin" 307), Site.world)
  /\ @loginHandler Site.common Site.web_without_sessions new_RouterContext Site.blank r
       Site.world
     = (Done (Some (mkHTTPError "securecookie: the value is too long" 500),
              new_RouterContext, Site.blank), Site.world)
  /\ @loginHandler Site.common Site.web new_RouterContext Site.blank guess Site.world
     = (Done (Some (mkHTTPError "Invalid credentials!" 401), new_RouterContext, Site.blank),
        Site.world).
Proof.
  intros r guess.
  assert (forall x : option error, x = Some (WatchError "http: named cookie not present") ->
          x <> None) as Hsome by (intros x -> Hx; discriminate Hx).
  assert (http.Method r <> "GET") as H2 by (intros Hx; vm_compute in Hx; discriminate Hx).
  assert (http.Method guess <> "GET") as H2' by (intros Hx; vm_compute in Hx; discriminate Hx).
  assert (files Site.world !! "assets/config/users.json" = Some Site.users_json) as H3
    by (vm_compute; reflexivity).
  assert (http.Get (snd (http.ParseForm r)) "username" <> "") as H5
    by (intros Hx; vm_compute in Hx; discriminate Hx).
  assert (http.Get (snd (http.ParseForm r)) "password" <> "") as H6
    by (intros Hx; vm_compute in Hx; discriminate Hx).
  assert (http.Get (snd (http.ParseForm guess)) "username" <> "") as H5'
    by (intros Hx; vm_compute in Hx; discriminate Hx).
  assert (http.Get (snd (http.ParseForm guess)) "password" <> "") as H6'
    by (intros Hx; vm_compute in Hx; discriminate Hx).
  split; [|split].
  - apply (proj1 (@login_needs_matching_password Site.common Site.web new_RouterContext
                    Site.blank r Site.world Site.users_json
                    (Hsome _ eq_refl) H2 H3 eq_refl H5 H6)).
    + vm_compute. reflexivity.
    + reflexivity.
  - apply (proj1 (proj2 (@login_needs_matching_password Site.common Site.web_without_sessions
                           new_RouterContext Site.blank r Site.world Site.users_json
                           (Hsome _ eq_refl) H2 H3 eq_refl H5 H6))
             (EncodeError "securecookie: the value is too long")).
    + vm_compute. reflexivity.
    + reflexivity.
  - apply (proj1 (proj2 (proj2 (@login_needs_matching_password Site.common Site.web
                                  new_RouterContext Site.blank guess Site.world
                                  Site.users_json
                                  (Hsome _ eq_refl) H2' H3 eq_refl H5' H6')))).
    intros Hx. vm_compute in Hx. discriminate Hx.
Defined.

Lemma login_rejects_empty_fields_witness :
  let r := Site.post_login "alice" "" in
  loginHandler new_RouterContext Site.blank r Sample.world
  = (Done (Some (mkHTTPError
                   "error in reading users.json: open assets/config/users.json: no such file or directory"
                   500), new_RouterContext, Site.blank), Sample.world)
  /\ loginHandler new_RouterContext Site.blank r Site.world
     = (Done (Some (mkHTTPError "username or password is empty" 400), new_RouterContext,
              Site.blank), Site.world).
Proof.
  intros r.
  assert (DecryptCookie r <> None) as H1 by (intros Hx; vm_compute in Hx; discriminate Hx).
  assert (http.Method r <> "GET") as H2 by (intros Hx; vm_compute in Hx; discriminate Hx).
  split.
  - apply (proj1 (login_rejects_empty_fields new_RouterContext Site.blank r Sample.world
                    H1 H2)).
    vm_compute. reflexivity.
  - apply (proj2 (proj2 (login_rejects_empty_fields new_RouterContext Site.blank r
                           Site.world H1 H2)) Site.users_json).
    + vm_compute. reflexivity.
    + reflexivity.
    + right. vm_compute. reflexivity.
Defined.

Lemma download_requests_reach_episodes_witness :
  Match Init (http.mkRequest "GET" "/download/2024-01-15_Pilot.mp3" (None, ∅) (None, ∅))
  = Some (FileServer "podcasts" "2024-01-15_Pilot.mp3").
Proof.
  apply (download_requests_reach_episodes "2024-01-15_Pilot.mp3" "GET" (None, ∅) (None, ∅)).
  - reflexivity.
  - intros Hx. discriminate Hx.
  - intros Hx. discriminate Hx.
Defined.

Lemma admin_routes_need_authorization_witness :
  let r := http.mkRequest "POST" "/admin/publish" (None, ∅) (None, ∅) in
  exists handler,
    Chain [Site.unauthorized; Site.done]
    = Chain [Site.unauthorized; handler]
    /\ forall (w w' : http.ResponseWriter) (world world' : World) (err : HTTPError)
              (rc' : RouterContext),
         Site.unauthorized new_RouterContext w r world = (Done (Some err, rc', w'), world') ->
         Handle [Site.unauthorized; handler] w r world
         = (Done (http.Write (Site.status_text (HTTPError_StatusCode err)) w'),
            add_log (Println (Message err) (WatchError "http")) world').
Proof.
  intros r.
  exact (admin_routes_need_authorization r (Chain [Site.unauthorized; Site.done])
           eq_refl eq_refl).
Defined.

Lemma setup_replaces_configuration_witness :
  serveSetup new_RouterContext Site.blank Site.post_setup Sample.world
  = (Done (None, new_RouterContext, http.Write "Done" Site.blank),
     written "assets/config/config.json" Site.setup_json Sample.world)
  /\ ("assets/config/config.json" ∉ readonly Sample.world ->
      files (written "assets/config/config.json" Site.setup_json Sample.world)
        !! "assets/config/config.json" = Some Site.setup_json)
  /\ NewConfig_PodcastURL (setup_config (snd (http.ParseMultipartForm Site.post_setup))) = ""
  /\ (http.Path Site.post_setup = "/setup" -> http.Method Site.post_setup = "POST" ->
      Match (Init) Site.post_setup
      = Some (Chain [serveSetup])).
Proof.
  apply (setup_replaces_configuration new_RouterContext Site.blank Site.post_setup
           Sample.world Site.setup_json).
  - intros Hx. vm_compute in Hx. discriminate Hx.
  - vm_compute. reflexivity.
Defined.

Lemma setup_then_rebuild_witness :
  let world1 := snd (serveSetup new_RouterContext Site.blank Site.post_setup
                       Sample.world) in
  let world2 := snd (@GenerateRss Site.libraries world1) in
  @GenerateRss Site.libraries world1 = (Done tt, world2)
  /\ exists (listing : list FileInfo) (feed : feeds.Feed) (rss json : string),
      dirs Sample.world !! "podcasts" = Some listing
      /\ Sample.Rss feed = inr rss /\ Sample.Json feed = inr json
      /\ feeds.Feed_Title feed
         = strings_Join (http.values_of (snd (http.ParseMultipartForm Site.post_setup))
                           "podcastname") ""
      /\ feeds.Href (feeds.Feed_Link feed) = ""
      /\ Forall2
           (fun file item =>
              feeds.Href (feeds.Item_Link item) = "/download/" +:+ FileInfo_Name file)
           (List.filter audio listing) (feeds.Items feed).
Proof.
  intros world1 world2.
  assert (@GenerateRss Site.libraries world1 = (Done tt, world2)) as E
    by (vm_compute; reflexivity).
  split; [exact E|].
  apply (@setup_then_rebuild Site.libraries Site.common Site.web new_RouterContext Site.blank
           Site.post_setup Sample.world world2 Site.setup_json tt).
  - intros Hx. vm_compute in Hx. discriminate Hx.
  - vm_compute. reflexivity.
  - vm_compute. reflexivity.
  - intros Hx. vm_compute in Hx. discriminate Hx.
  - exact E.
Defined.
